(** * YouTube OAuth2 plugin: token lifecycle and device flow

    A shallow embedding of [yt_dlp_plugins/extractor/youtubeoauth.py]:
    token cache, validation, the device authorization flow, the refresh
    exchange, the lifecycle manager and the request interceptor, with the
    properties of the specification proved about them. *)

From Stdlib Require Import ZArith String Ascii List Lia.
From stdpp Require Import base option list gmap strings pretty.

Local Open Scope string_scope.
Local Open Scope list_scope.
Local Open Scope Z_scope.

(** ** Python values *)

(** The JSON scalars that the cache and the two endpoints exchange.
    Numbers are integers: a timestamp is a number of seconds. *)
Inductive value :=
| VNone
| VBool (b : bool)
| VNum (n : Z)
| VStr (s : string).

#[global] Instance value_eq_dec : EqDecision value.
Proof. solve_decision. Defined.

(** A Python [dict] with string keys: token records, JSON bodies, headers. *)
Abbreviation dict := (gmap string value).

(** [bool(v)] *)
Definition truthy (v : value) : bool :=
  match v with
  | VNone => false
  | VBool b => b
  | VNum n => negb (n =? 0)
  | VStr s => negb (String.eqb s "")
  end.

(** [str(v)], as an f-string renders [{v}]. *)
Definition py_str (v : value) : string :=
  match v with
  | VNone => "None"
  | VBool true => "True"
  | VBool false => "False"
  | VNum n => pretty n
  | VStr s => s
  end.

(** The number a value denotes in arithmetic and comparisons ([bool] is a
    subclass of [int]); [None] where Python raises [TypeError]. *)
Definition as_num (v : value) : option Z :=
  match v with
  | VNum n => Some n
  | VBool b => Some (Z.b2z b)
  | _ => None
  end.

(** Truth value of an object that is [None] or a dict: [None] and [{}]
    are false. *)
Definition truthy_obj (o : option dict) : bool :=
  match o with
  | None => false
  | Some d => negb (bool_decide (d = ∅))
  end.

(** [key in d] *)
Definition contains (k : string) (d : dict) : bool := bool_decide (is_Some (d !! k)).

(** [d.update(e)]: the entries of [e] win. *)
Definition update (e d : dict) : dict := e ∪ d.

(** [d.get(k, default)] *)
Definition dict_get (d : dict) (k : string) (dflt : value) : value :=
  default dflt (d !! k).

(** [s.lower()] on ASCII text. *)
Definition lower_ascii (c : ascii) : ascii :=
  let n := nat_of_ascii c in
  if ((65 <=? n) && (n <=? 90))%nat then ascii_of_nat (n + 32) else c.

Fixpoint lower (s : string) : string :=
  match s with
  | EmptyString => EmptyString
  | String c s' => String (lower_ascii c) (lower s')
  end.

(** [s.startswith(p)] and [s.endswith(p)] *)
Definition startswith (s p : string) : bool := String.prefix p s.

Definition endswith (s p : string) : bool :=
  String.prefix (String.rev p) (String.rev s).

(** Letters, blanks and the other functions on text below are those of
    ASCII: a character beyond ASCII is taken as it is. *)
Definition is_upper (c : ascii) : bool :=
  let n := nat_of_ascii c in ((65 <=? n) && (n <=? 90))%nat.

Definition is_lower (c : ascii) : bool :=
  let n := nat_of_ascii c in ((97 <=? n) && (n <=? 122))%nat.

Definition upper_ascii (c : ascii) : ascii :=
  if is_lower c then ascii_of_nat (nat_of_ascii c - 32) else c.

(** [s.title()]: in every run of letters the first is put in upper case and
    the others in lower case. *)
Fixpoint title_from (previous_is_cased : bool) (s : string) : string :=
  match s with
  | EmptyString => EmptyString
  | String c s' =>
      if is_lower c || is_upper c
      then String (if previous_is_cased then lower_ascii c else upper_ascii c)
                  (title_from true s')
      else String c (title_from false s')
  end.

Definition title (s : string) : string := title_from false s.

(** [c.isspace()] *)
Definition isspace (c : ascii) : bool :=
  let n := nat_of_ascii c in
  (((9 <=? n) && (n <=? 13)) || ((28 <=? n) && (n <=? 32)))%nat.

Fixpoint lstrip (s : string) : string :=
  match s with
  | EmptyString => EmptyString
  | String c s' => if isspace c then lstrip s' else s
  end.

(** [s.strip()] *)
Definition strip (s : string) : string :=
  String.rev (lstrip (String.rev (lstrip s))).

(** [s.partition(c)]: what comes before the first [c] and, when there is
    one, what comes after it. *)
Fixpoint str_partition (c : ascii) (s : string) : string * option string :=
  match s with
  | EmptyString => (EmptyString, None)
  | String a s' =>
      if Ascii.eqb a c then (EmptyString, Some s')
      else let '(before, after) := str_partition c s' in (String a before, after)
  end.

(** [s.rpartition(c)]: what comes before the last [c], when there is one,
    and what comes after it. *)
Definition str_rpartition (c : ascii) (s : string) : option string * string :=
  let '(after, before) := str_partition c (String.rev s) in
  (String.rev <$> before, String.rev after).

Definition squote : ascii := ascii_of_nat 39.
Definition dquote : ascii := ascii_of_nat 34.
Definition backslash : ascii := ascii_of_nat 92.

Definition hex_digit (n : nat) : ascii :=
  nth n (list_ascii_of_string "0123456789abcdef") "0"%char.

Fixpoint has_char (c : ascii) (s : string) : bool :=
  match s with
  | EmptyString => false
  | String a s' => Ascii.eqb a c || has_char c s'
  end.

Definition repr_char (quote c : ascii) : string :=
  let n := nat_of_ascii c in
  if Ascii.eqb c quote || Ascii.eqb c backslash then String backslash (String c "")
  else if (n =? 9)%nat then "\t"
  else if (n =? 10)%nat then "\n"
  else if (n =? 13)%nat then "\r"
  else if ((n <? 32) || (n =? 127))%nat
       then "\x" +:+ String (hex_digit (n / 16)) (String (hex_digit (n mod 16)) "")
  else String c "".

Fixpoint repr_chars (quote : ascii) (s : string) : string :=
  match s with
  | EmptyString => String quote ""
  | String c s' => repr_char quote c +:+ repr_chars quote s'
  end.

(** [repr(s)] of a string, as [%r] renders it: in single quotes, unless the
    string holds a single quote and no double quote. *)
Definition py_repr (s : string) : string :=
  let quote := if has_char squote s && negb (has_char dquote s)
               then dquote else squote in
  String quote (repr_chars quote s).

(** ** The world the plugin runs in *)

(** One answer of the HTTP executor: the seconds the call took and the
    parsed JSON body. *)
Record reply := Reply { latency : Z; body : dict }.

(** What the plugin does to its surroundings, in order. *)
Inductive event :=
| DownloadJson (url note : string) (data headers : dict)
| UrlOpen (url method : string) (headers data : dict)
| Sleep (seconds : Z)
| ToScreen (msg : string)
| ToScreenObj (obj : dict)
| ReportWarning (msg : string)
| CacheStore (section key : string) (token_data : dict).

#[global] Instance event_eq_dec : EqDecision event.
Proof. solve_decision. Defined.

(** The state of the process and of what surrounds it. Time passes while
    the plugin sleeps and while it waits for an answer. *)
Record World := mkWorld {
  now : Z;                              (* datetime.now(timezone.utc).timestamp() *)
  _TOKEN_DATA : option dict;            (* self._TOKEN_DATA, None when unset *)
  cache : option dict;                  (* cache entry ("youtube-oauth2", "token_data") *)
  server : gmap string (list reply);    (* per URL, the answers still to come *)
  trace : list event                    (* newest first *)
}.

Inductive exn :=
| KeyError (k : string)
| TypeError
| ValueError (msg : string)
| ExtractorError (msg : string)
| TransportError (url : string).

(** A call returns, raises, or is still running when the fuel is spent. *)
Inductive outcome (A : Type) :=
| Return (a : A)
| Raise (e : exn)
| OutOfFuel.
Arguments Return {A} a.
Arguments Raise {A} e.
Arguments OutOfFuel {A}.

#[global] Instance reply_eq_dec : EqDecision reply.
Proof. solve_decision. Defined.

#[global] Instance World_eq_dec : EqDecision World.
Proof. solve_decision. Defined.

#[global] Instance exn_eq_dec : EqDecision exn.
Proof. solve_decision. Defined.

#[global] Instance outcome_eq_dec {A} `{EqDecision A} : EqDecision (outcome A).
Proof. solve_decision. Defined.

Definition M (A : Type) : Type := World -> outcome A * World.

Definition ret {A} (a : A) : M A := fun w => (Return a, w).

Definition raise {A} (e : exn) : M A := fun w => (Raise e, w).

Definition bind {A B} (m : M A) (k : A -> M B) : M B :=
  fun w =>
    match m w with
    | (Return a, w') => k a w'
    | (Raise e, w') => (Raise e, w')
    | (OutOfFuel, w') => (OutOfFuel, w')
    end.

Notation "x <- m ;; k" := (bind m (fun x => k))
  (at level 100, m at next level, right associativity).
Notation "m ;;; k" := (bind m (fun _ => k))
  (at level 100, right associativity).

Definition emit (e : event) : M unit :=
  fun w => (Return tt,
            mkWorld (now w) (_TOKEN_DATA w) (cache w) (server w) (e :: trace w)).

(** [d[k]] *)
Definition getitem (d : dict) (k : string) : M value :=
  match d !! k with
  | Some v => ret v
  | None => raise (KeyError k)
  end.

(** [a + b] on numbers *)
Definition add_num (a : Z) (v : value) : M Z :=
  match as_num v with
  | Some b => ret (a + b)
  | None => raise TypeError
  end.

(** [datetime.datetime.now(datetime.timezone.utc).timestamp()] *)
Definition utcnow : M Z := fun w => (Return (now w), w).

(** [time.sleep(v)] *)
Definition time_sleep (v : value) : M unit :=
  match as_num v with
  | None => raise TypeError
  | Some d =>
      if d <? 0 then raise (ValueError "sleep length must be non-negative")
      else fun w =>
        (Return tt,
         mkWorld (now w + d) (_TOKEN_DATA w) (cache w) (server w)
                 (Sleep d :: trace w))
  end.

(** The HTTP executor: the next answer scripted for [url]; a transport
    failure when there is none. *)
Definition http (url : string) : M dict :=
  fun w =>
    match server w !! url with
    | Some (r :: rs) =>
        (Return (body r),
         mkWorld (now w + latency r) (_TOKEN_DATA w) (cache w)
                 (<[url := rs]> (server w)) (trace w))
    | _ => (Raise (TransportError url), w)
    end.

Definition to_screen (msg : string) : M unit := emit (ToScreen msg).
Definition report_warning (msg : string) : M unit := emit (ReportWarning msg).

(** [self._download_json(url, video_id="oauth2", note=..., data=json.dumps(data).encode(), headers=...)] *)
Definition _download_json (url note : string) (data headers : dict) : M dict :=
  emit (DownloadJson url note data headers);;;
  http url.

Definition lift {A} (o : outcome A) : M A := fun w => (o, w).

(** [o[k]] on an object that may be [None] *)
Definition getitem_obj (o : option dict) (k : string) : M value :=
  match o with
  | Some d => getitem d k
  | None => raise TypeError
  end.

(** [a < b] with a number on the right *)
Definition lt_num (v : value) (b : Z) : M bool :=
  match as_num v with
  | Some a => ret (a <? b)
  | None => raise TypeError
  end.

(** [traverse_obj(obj, key)] on a JSON object: the value at [key], [None]
    when there is none. *)
Definition traverse_obj (obj : dict) (key : string) : value :=
  default VNone (obj !! key).

(** ** The module *)

Definition _CLIENT_ID : string :=
  "861556708454-d6dlm3lh05idd8npek18k6be8ba3oc68.apps.googleusercontent.com".
Definition _CLIENT_SECRET : string := "SboVhoG9s0rNafixCSGGKXAT".

Definition DEVICE_CODE_URL : string := "https://oauth2.googleapis.com/device/code".
Definition POLL_URL : string := "https://oauth2.googleapis.com/token".
Definition REFRESH_URL : string := "https://www.youtube.com/o/oauth2/token".

Definition newline : string := String (ascii_of_nat 10) EmptyString.

(** *** urllib.request.Request

    The constructor reads the type (the scheme) of the URL and refuses a
    URL that has none. *)

(** [urllib.parse.unwrap(url)] *)
Definition unwrap (url : string) : string :=
  let url := strip url in
  let url :=
    if startswith url "<" && endswith url ">"
    then strip (String.substring 1 (String.length url - 2) url)
    else url in
  if startswith url "URL:"
  then strip (String.substring 4 (String.length url - 4) url)
  else url.

(** [urllib.parse._splittag(url)]: the URL and its fragment, split at the
    last "#". *)
Definition _splittag (url : string) : string * option string :=
  match str_rpartition "#" url with
  | (Some path, tag) => (path, Some tag)
  | (None, _) => (url, None)
  end.

(** The longest prefix without "/" and ":" when a ":" follows it, and what
    comes after that ":". *)
Fixpoint split_scheme (url : string) : option (string * string) :=
  match url with
  | EmptyString => None
  | String c url' =>
      if Ascii.eqb c ":" then Some (EmptyString, url')
      else if Ascii.eqb c "/" then None
      else match split_scheme url' with
           | Some (scheme, rest) => Some (String c scheme, rest)
           | None => None
           end
  end.

(** [urllib.parse._splittype(url)]: the scheme, in lower case, is a
    non-empty run of characters other than "/" and ":" at the start of the
    URL that a ":" follows. *)
Definition _splittype (url : string) : option string * string :=
  match split_scheme url with
  | Some (String c scheme, rest) => (Some (lower (String c scheme)), rest)
  | _ => (None, url)
  end.

(** [Request(url).type], [None] where the constructor raises. *)
Definition request_type (url : string) : option string :=
  fst (_splittype (fst (_splittag (unwrap url)))).

(** [Request.full_url]: the URL with its fragment, if it has one. *)
Definition request_full_url (url : string) : string :=
  match _splittag (unwrap url) with
  | (_full_url, Some (String c fragment)) =>
      _full_url +:+ "#" +:+ String c fragment
  | (_full_url, _) => _full_url
  end.

(** [Request(url, headers=..., method=..., data=...)], for its check. *)
Definition urllib_Request (url : string) : M unit :=
  match request_type url with
  | Some _ => ret tt
  | None =>
      raise (ValueError ("unknown url type: " +:+ py_repr (request_full_url url)))
  end.

(** [_execute_request(url, method, headers, data)] followed by
    [json.loads(response.read())]: the body is JSON-encoded on the way out
    and parsed on the way back. [UrlOpen] is the call of [urlopen], with
    the arguments the request was built from. *)
Definition _execute_request (url method : string) (headers data : dict) : M dict :=
  let base_headers : dict :=
    list_to_map [("User-Agent", VStr "Mozilla/5.0");
                 ("accept-language", VStr "en-US,en")] in
  let base_headers :=
    if truthy_obj (Some headers) then update headers base_headers
    else base_headers in
  if startswith (lower url) "http"
  then
    urllib_Request url;;;
    emit (UrlOpen url method base_headers data);;;
    http url
  else raise (ValueError "Invalid URL").

(** ** YouTubeOAuth2Handler *)

Definition store_token (token_data : dict) : M unit :=
  fun w =>
    (Return tt,
     mkWorld (now w) (Some token_data) (Some token_data) (server w)
             (CacheStore "youtube-oauth2" "token_data" token_data :: trace w)).

Definition get_token : M (option dict) :=
  fun w =>
    if truthy_obj (_TOKEN_DATA w) then (Return (_TOKEN_DATA w), w)
    else (Return (cache w),
          mkWorld (now w) (cache w) (cache w) (server w) (trace w)).

Definition REQUIRED_KEYS : list string :=
  ["access_token"; "expires"; "refresh_token"; "token_type"].

(** [key in token_data] raises [TypeError] when [token_data] is [None]. *)
Definition validate_token_data (token_data : option dict) : outcome bool :=
  match token_data with
  | None => Raise TypeError
  | Some d => Return (forallb (fun key => contains key d) REQUIRED_KEYS)
  end.

(** The record [authorize] returns on success; the fields are evaluated in
    the order the source lists them. *)
Definition authorized_record (token_response : dict) : M dict :=
  access_token <- getitem token_response "access_token";;
  t <- utcnow;;
  expires_in <- getitem token_response "expires_in";;
  expires <- add_num t expires_in;;
  refresh_token <- getitem token_response "refresh_token";;
  token_type <- getitem token_response "token_type";;
  ret (list_to_map [("access_token", access_token);
                    ("expires", VNum expires);
                    ("refresh_token", refresh_token);
                    ("token_type", token_type)]).

(** The JSON bodies and headers [authorize] sends. *)
Definition device_code_request_data : dict :=
  list_to_map [("client_id", VStr _CLIENT_ID);
               ("scope", VStr "https://www.googleapis.com/auth/youtube")].

Definition device_code_request_headers : dict :=
  list_to_map [("Content-Type", VStr "application/json");
               ("User-Agent", VStr "Mozilla/5.0");
               ("Accept", VStr "application/json");
               ("Accept-Language", VStr "en-US,en;q=0.9");
               ("If-Match", VStr "*")].

Definition poll_request_data (device_code : value) : dict :=
  list_to_map [("client_id", VStr _CLIENT_ID);
               ("client_secret", VStr _CLIENT_SECRET);
               ("device_code", device_code);
               ("grant_type", VStr "urn:ietf:params:oauth:grant-type:device_code")].

(** The [while True] loop of [authorize]; [restart] is [self.authorize()]. *)
Fixpoint poll (restart : M dict) (response_data : dict) (fuel : nat) : M dict :=
  match fuel with
  | O => lift OutOfFuel
  | S fuel' =>
      device_code <- getitem response_data "device_code";;
      token_response <-
        _execute_request POLL_URL "POST"
          {["Content-Type" := VStr "application/json"]}
          (poll_request_data device_code);;
      to_screen (newline +:+ newline);;;
      let error := traverse_obj token_response "error" in
      emit (ToScreenObj token_response);;;
      if truthy error then
        if bool_decide (error = VStr "authorization_pending") then
          interval <- getitem response_data "interval";;
          time_sleep interval;;;
          poll restart response_data fuel'
        else if bool_decide (error = VStr "expired_token") then
          report_warning "The device code has expired, restarting authorization flow";;;
          restart
        else
          raise (ExtractorError ("Unhandled OAuth2 Error: " +:+ py_str error))
      else
        to_screen "Authorization successful";;;
        authorized_record token_response
  end.

Fixpoint authorize (fuel : nat) : M dict :=
  match fuel with
  | O => lift OutOfFuel
  | S fuel' =>
      response_data <-
        _download_json DEVICE_CODE_URL "Initializing OAuth2 Authorization Flow"
          device_code_request_data device_code_request_headers;;
      verification_url <- getitem response_data "verification_url";;
      user_code <- getitem response_data "user_code";;
      to_screen ("To give yt-dlp access to your account, go to  "
                 +:+ py_str verification_url
                 +:+ "  and enter code  " +:+ py_str user_code);;;
      interval <- getitem response_data "interval";;
      to_screen ("Sleeping for " +:+ py_str interval);;;
      interval <- getitem response_data "interval";;
      time_sleep interval;;;
      poll (authorize fuel') response_data fuel'
  end.

Definition refresh_request_data (refresh_token : value) : dict :=
  list_to_map [("client_id", VStr _CLIENT_ID);
               ("client_secret", VStr _CLIENT_SECRET);
               ("refresh_token", refresh_token);
               ("grant_type", VStr "refresh_token")].

Definition refresh_request_headers : dict :=
  list_to_map [("Content-Type", VStr "application/json");
               ("__youtube_oauth__", VBool true)].

Arguments device_code_request_data : simpl never.
Arguments device_code_request_headers : simpl never.
Arguments poll_request_data : simpl never.
Arguments refresh_request_data : simpl never.
Arguments refresh_request_headers : simpl never.

Definition refresh_token (fuel : nat) (refresh_token : value) : M dict :=
  token_response <-
    _download_json REFRESH_URL "Refreshing OAuth2 Token"
      (refresh_request_data refresh_token) refresh_request_headers;;
  let error := traverse_obj token_response "error" in
  if truthy error then
    report_warning ("Failed to refresh access token: " +:+ py_str error
                    +:+ ". Restarting authorization flow");;;
    authorize fuel
  else
    access_token <- getitem token_response "access_token";;
    t <- utcnow;;
    expires_in <- getitem token_response "expires_in";;
    expires <- add_num t expires_in;;
    token_type <- getitem token_response "token_type";;
    ret (list_to_map
           [("access_token", access_token);
            ("expires", VNum expires);
            ("token_type", token_type);
            ("refresh_token", dict_get token_response "refresh_token" refresh_token)]).

Definition initialize_oauth (fuel : nat) : M (option dict) :=
  token_data <- get_token;;
  token_data <-
    (if truthy_obj token_data then
       valid <- lift (validate_token_data token_data);;
       if negb valid then
         report_warning "Invalid cached OAuth2 token data";;;
         ret None
       else ret token_data
     else ret token_data);;
  token_data <-
    (if negb (truthy_obj token_data) then
       token_data <- authorize fuel;;
       store_token token_data;;;
       ret (Some token_data)
     else ret token_data);;
  expires <- getitem_obj token_data "expires";;
  t <- utcnow;;
  expired <- lt_num expires (t + 60);;
  if expired then
    to_screen "Access token expired, refreshing";;;
    old_refresh_token <- getitem_obj token_data "refresh_token";;
    token_data <- refresh_token fuel old_refresh_token;;
    store_token token_data;;;
    ret (Some token_data)
  else ret token_data.

(** *** Request headers

    [request.headers] of a [yt_dlp.networking.Request] is yt-dlp's
    [HTTPHeaderDict]: it stores and finds names whatever their case, by
    putting every key through [key.title()] on the way in and on the way
    out, and it keeps each value as [str(value).strip()]. A [dict] taken as
    headers is the contents of such an object, under the names as they are
    stored: "X-Goog-AuthUser" is kept, found and removed as
    "X-Goog-Authuser", and so is "x-goog-authuser". *)

(** [h[key] = v] *)
Definition header_set (key : string) (v : value) (h : dict) : dict :=
  <[title key := VStr (strip (py_str v))]> h.

(** [h.get(key)] *)
Definition header_get (key : string) (h : dict) : option value :=
  h !! title key.

(** [key in h] *)
Definition header_contains (key : string) (h : dict) : bool :=
  contains (title key) h.

(** [h.pop(key, None)], result dropped. *)
Definition header_pop (key : string) (h : dict) : dict :=
  delete (title key) h.

(** [h.pop(key)] without a default *)
Definition header_pop_strict (key : string) (h : dict) : M dict :=
  if header_contains key h then ret (header_pop key h)
  else raise (KeyError (title key)).

(** [h.update(other)]: the items of [other] are set one after the other. *)
Definition header_update (other : list (string * value)) (h : dict) : dict :=
  foldl (fun h item => header_set (fst item) (snd item) h) h other.

(** [HTTPHeaderDict(items)]: the headers a request is built with. *)
Definition HTTPHeaderDict (items : list (string * value)) : dict :=
  header_update items ∅.

(** A [yt_dlp.networking.Request], as far as the plugin reads it:
    [netloc] is [urllib.parse.urlparse(request.url).netloc], [headers] the
    contents of [request.headers]. *)
Record Request := Build_Request { netloc : string; headers : dict }.

(** [Request(url, headers=items)]: the headers a request is given are put in
    a [HTTPHeaderDict]. *)
Definition mkRequest (netloc : string) (items : list (string * value)) : Request :=
  Build_Request netloc (HTTPHeaderDict items).

Definition set_headers (request : Request) (h : dict) : Request :=
  Build_Request (netloc request) h.

(** [request] is changed in place; the changed request is the result. *)
Definition handle_oauth (fuel : nat) (request : Request) : M Request :=
  if negb (endswith (netloc request) "youtube.com") then ret request
  else
    token_data <- initialize_oauth fuel;;
    let h := header_pop "X-Goog-PageId" (headers request) in
    let h := header_pop "X-Goog-AuthUser" h in
    h <- (if header_contains "Authorization" h then
            report_warning
              ("Youtube cookies have been provided, but OAuth2 is being used."
               +:+ " If you encounter problems, stop providing Youtube cookies to yt-dlp.");;;
            ret (header_pop "X-Origin" (header_pop "Authorization" h))
          else ret h);;
    let h := header_pop "X-Youtube-Identity-Token" h in
    token_type <- getitem_obj token_data "token_type";;
    access_token <- getitem_obj token_data "access_token";;
    let authorization_header : list (string * value) :=
      [("Authorization",
        VStr (py_str token_type +:+ " " +:+ py_str access_token))] in
    ret (set_headers request (header_update authorization_header h)).

(** ** _YouTubeOAuth *)

Definition OAUTH_MARKER : string := "__youtube_oauth__".

(** [request] is the request that the extractor's own [_create_request]
    built from the arguments. *)
Definition _create_request (_use_oauth2 : bool) (fuel : nat) (request : Request)
  : M Request :=
  if header_contains OAUTH_MARKER (headers request) then
    h <- header_pop_strict OAUTH_MARKER (headers request);;
    ret (set_headers request h)
  else if _use_oauth2 then handle_oauth fuel request
  else ret request.

(** Truth value of [is_authenticated]; [super_is_authenticated] is what the
    extractor answers without the plugin. *)
Definition is_authenticated (_use_oauth2 super_is_authenticated : bool) : M bool :=
  if _use_oauth2 then
    token_data <- get_token;;
    if truthy_obj token_data then lift (validate_token_data token_data)
    else ret false
  else ret super_is_authenticated.

(** ** Observations on a trace *)

(** What happened, oldest first. *)
Definition history (w : World) : list event := rev (trace w).

Definition is_sleep (e : event) : option Z :=
  match e with Sleep d => Some d | _ => None end.

Definition is_warning (e : event) : option string :=
  match e with ReportWarning msg => Some msg | _ => None end.

(** The URL of a request that leaves the plugin. *)
Definition request_url (e : event) : option string :=
  match e with
  | DownloadJson url _ _ _ => Some url
  | UrlOpen url _ _ _ => Some url
  | _ => None
  end.

(** The HTTP method of a request that leaves the plugin: [_download_json]
    with [data] is sent by the host as a POST, [_execute_request] names
    its method. *)
Definition request_method (e : event) : option string :=
  match e with
  | DownloadJson _ _ _ _ => Some "POST"
  | UrlOpen _ method _ _ => Some method
  | _ => None
  end.

Definition request_data (e : event) : option dict :=
  match e with
  | DownloadJson _ _ data _ => Some data
  | UrlOpen _ _ _ data => Some data
  | _ => None
  end.

Definition sleeps (tr : list event) : list Z := omap is_sleep tr.
Definition warnings (tr : list event) : list string := omap is_warning tr.

(** The requests sent to [url], in order. *)
Definition requests_to (url : string) (tr : list event) : list event :=
  filter (fun e => request_url e = Some url) tr.

(** ** _YouTubeOAuth: login *)

(** The attributes of the extractor that the login sets; [_DEFAULT_CLIENTS]
    is [None] where the extractor has no such attribute. *)
Record Extractor := mkExtractor {
  _use_oauth2 : bool;
  _DEFAULT_CLIENTS : option (list string)
}.

Definition _OAUTH2_UNSUPPORTED_CLIENTS : list string :=
  ["web_creator"; "android_creator"; "ios_creator"].

Definition _OAUTH2_CLIENTS : list string := ["mweb"].

(** A login: it may change the extractor as well as the world, and keeps
    what it changed when it raises. *)
Definition Login : Type := Extractor -> World -> outcome unit * Extractor * World.

(** [super_perform_login] is the login of the extractor without the
    plugin. *)
Definition _perform_login (super_perform_login : string -> string -> Login)
    (fuel : nat) (username password : string) : Login :=
  fun self w =>
    if String.eqb username "oauth2" then
      let self := mkExtractor true (_DEFAULT_CLIENTS self) in
      match initialize_oauth fuel w with
      | (Return _, w') =>
          (Return tt,
           mkExtractor
             (_use_oauth2 self)
             (Some (filter (fun c => c ∉ _OAUTH2_UNSUPPORTED_CLIENTS)
                           (default [] (_DEFAULT_CLIENTS self))
                    ++ _OAUTH2_CLIENTS)),
           w')
      | (Raise e, w') => (Raise e, self, w')
      | (OutOfFuel, w') => (OutOfFuel, self, w')
      end
    else super_perform_login username password self w.

(** ** Vocabulary of the statements *)

(** *** Worlds reached along the way *)

Definition slept (d : Z) (w : World) : World :=
  mkWorld (now w + d) (_TOKEN_DATA w) (cache w) (server w) (Sleep d :: trace w).

Definition logged (e : event) (w : World) : World :=
  mkWorld (now w) (_TOKEN_DATA w) (cache w) (server w) (e :: trace w).

Definition stored (token_data : dict) (w : World) : World :=
  mkWorld (now w) (Some token_data) (Some token_data) (server w)
          (CacheStore "youtube-oauth2" "token_data" token_data :: trace w).

(** The headers a poll goes out with: those of [_execute_request] under the
    one [authorize] passes. *)
Definition POLL_HEADERS : dict :=
  list_to_map [("Content-Type", VStr "application/json");
               ("User-Agent", VStr "Mozilla/5.0");
               ("accept-language", VStr "en-US,en")].

Definition poll_request (device_code : value) : event :=
  UrlOpen POLL_URL "POST" POLL_HEADERS (poll_request_data device_code).

Definition device_code_request : event :=
  DownloadJson DEVICE_CODE_URL "Initializing OAuth2 Authorization Flow"
    device_code_request_data device_code_request_headers.

Definition refresh_request (refresh_token : value) : event :=
  DownloadJson REFRESH_URL "Refreshing OAuth2 Token"
    (refresh_request_data refresh_token) refresh_request_headers.

Definition EXPIRED_WARNING : event :=
  ReportWarning "The device code has expired, restarting authorization flow".

(** The world after one poll was answered by [r]: the request went out, the
    answer was shown. *)
Definition polled (device_code : value) (r : reply) (rs : list reply)
    (w : World) : World :=
  mkWorld (now w + latency r) (_TOKEN_DATA w) (cache w)
          (<[POLL_URL := rs]> (server w))
          (ToScreenObj (body r) :: ToScreen (newline +:+ newline)
             :: poll_request device_code :: trace w).

(** The world once the refresh request was answered by [r]. *)
Definition refreshed (refresh_token : value) (r : reply) (rs : list reply)
    (w : World) : World :=
  mkWorld (now w + latency r) (_TOKEN_DATA w) (cache w)
          (<[REFRESH_URL := rs]> (server w))
          (refresh_request refresh_token :: trace w).

(** [m] sends nothing to [url]: what it adds to the history holds no
    request to it. *)
Definition adds_no_request (url : string) {A : Type} (m : M A) : Prop :=
  forall w : World,
    exists tr : list event,
      history (snd (m w)) = history w ++ tr /\ requests_to url tr = [].

(** *** Answers of the server *)

(** What a device-code answer says, with a default where a field is missing
    (the flow then raises before using it). *)
Definition session_device_code (d : reply) : value :=
  default VNone (body d !! "device_code").

Definition session_interval (d : reply) : Z :=
  default 0 (body d !! "interval" ≫= as_num).

(** A well-formed device-code answer. *)
Definition device_session (d : reply) : Prop :=
  is_Some (body d !! "verification_url")
  /\ is_Some (body d !! "user_code")
  /\ is_Some (body d !! "device_code")
  /\ is_Some (body d !! "interval" ≫= as_num)
  /\ 0 <= session_interval d.

(** A well-formed token answer: no (truthy) [error], and the four fields of
    a grant, with a number of seconds in [expires_in]. *)
Definition token_grant (s : reply) (access_token refresh_token token_type : value)
    (expires_in : Z) : Prop :=
  truthy (traverse_obj (body s) "error") = false
  /\ body s !! "access_token" = Some access_token
  /\ body s !! "expires_in" ≫= as_num = Some expires_in
  /\ body s !! "refresh_token" = Some refresh_token
  /\ body s !! "token_type" = Some token_type.

Definition is_pending (r : reply) : Prop :=
  body r !! "error" = Some (VStr "authorization_pending").

(** *** One attempt of the device flow *)

(** The world once the device code was requested, the user was told where to
    go, and the first sleep is over. *)
Definition started (d : reply) (ds : list reply) (w : World) : World :=
  mkWorld (now w + latency d + session_interval d) (_TOKEN_DATA w) (cache w)
          (<[DEVICE_CODE_URL := ds]> (server w))
          (Sleep (session_interval d)
             :: ToScreen ("Sleeping for "
                          +:+ py_str (default VNone (body d !! "interval")))
             :: ToScreen ("To give yt-dlp access to your account, go to  "
                          +:+ py_str (default VNone (body d !! "verification_url"))
                          +:+ "  and enter code  "
                          +:+ py_str (default VNone (body d !! "user_code")))
             :: device_code_request :: trace w).

(** The world after the token endpoint answered "pending" with each of
    [ps] in turn; [rest] is what it will answer afterwards. *)
Fixpoint after_pendings (device_code : value) (interval : Z)
    (ps rest : list reply) (w : World) : World :=
  match ps with
  | [] => w
  | r :: ps' =>
      after_pendings device_code interval ps' rest
        (slept interval (polled device_code r (ps' ++ rest) w))
  end.

(** The world in which the token endpoint has just answered [x], after
    [ps] "pending" answers, in the attempt opened by [d]. *)
Definition answered (d : reply) (ds ps : list reply) (x : reply)
    (rest : list reply) (w : World) : World :=
  polled (session_device_code d) x rest
    (after_pendings (session_device_code d) (session_interval d) ps (x :: rest)
       (started d ds w)).

(** The events of the opening of an attempt, of one answered poll and of one
    "pending" round, oldest first. *)
Definition opening (d : reply) : list event :=
  [device_code_request;
   ToScreen ("To give yt-dlp access to your account, go to  "
             +:+ py_str (default VNone (body d !! "verification_url"))
             +:+ "  and enter code  "
             +:+ py_str (default VNone (body d !! "user_code")));
   ToScreen ("Sleeping for " +:+ py_str (default VNone (body d !! "interval")));
   Sleep (session_interval d)].

Definition poll_round (device_code : value) (r : reply) : list event :=
  [poll_request device_code; ToScreen (newline +:+ newline); ToScreenObj (body r)].

Definition pending_round (device_code : value) (interval : Z) (r : reply)
  : list event :=
  poll_round device_code r ++ [Sleep interval].

(** *** The lifecycle *)

(** What [get_token] finds, and the world it leaves. *)
Definition loaded (w : World) : option dict :=
  if truthy_obj (_TOKEN_DATA w) then _TOKEN_DATA w else cache w.

Definition remembered (w : World) : World :=
  if truthy_obj (_TOKEN_DATA w) then w
  else mkWorld (now w) (cache w) (cache w) (server w) (trace w).

(** A loaded record that [initialize_oauth] keeps: not empty and of valid
    shape. *)
Definition usable (o : option dict) : bool :=
  truthy_obj o
  && match validate_token_data o with Return b => b | _ => false end.

(** The [expires] of a record, when it is a number. *)
Definition expires_of (token_data : dict) : option Z :=
  token_data !! "expires" ≫= as_num.

(** A usable record is loaded and it expires within 60 seconds. *)
Definition stale (w : World) : bool :=
  usable (loaded w)
  && match loaded w ≫= expires_of with
     | Some e => e <? now w + 60
     | None => false
     end.

(** The last step of [initialize_oauth]: the expiry check. *)
Definition refresh_if_expired (fuel : nat) (token_data : option dict)
  : M (option dict) :=
  expires <- getitem_obj token_data "expires";;
  t <- utcnow;;
  expired <- lt_num expires (t + 60);;
  if expired then
    to_screen "Access token expired, refreshing";;;
    old_refresh_token <- getitem_obj token_data "refresh_token";;
    token_data <- refresh_token fuel old_refresh_token;;
    store_token token_data;;;
    ret (Some token_data)
  else ret token_data.

(** The server behaves: the device-code endpoint opens a session, the token
    endpoint answers "pending" with [ps] and then grants a token that lasts
    at least a minute, and no answer arrives before its request. *)
Definition device_flow_grants (w : World) (ps : list reply) : Prop :=
  exists (d : reply) (ds : list reply) (s : reply) (rest : list reply)
         (access_token refresh_token token_type : value) (expires_in : Z),
    server w !! DEVICE_CODE_URL = Some (d :: ds)
    /\ device_session d
    /\ server w !! POLL_URL = Some (ps ++ s :: rest)
    /\ Forall is_pending ps
    /\ token_grant s access_token refresh_token token_type expires_in
    /\ 60 <= expires_in
    /\ 0 <= latency d /\ Forall (fun r => 0 <= latency r) ps /\ 0 <= latency s.

(** The answer to a refresh is a renewal that lasts at least a minute, or a
    refusal. *)
Definition refresh_answers (w : World) : Prop :=
  exists (r : reply) (rs : list reply),
    server w !! REFRESH_URL = Some (r :: rs)
    /\ 0 <= latency r
    /\ (truthy (traverse_obj (body r) "error") = true
        \/ (truthy (traverse_obj (body r) "error") = false
            /\ is_Some (body r !! "access_token")
            /\ is_Some (body r !! "token_type")
            /\ exists expires_in : Z,
                 body r !! "expires_in" ≫= as_num = Some expires_in
                 /\ 60 <= expires_in)).

(** *** Sample traffic *)

(** Cached records at time 1000: one good for an hour, one about to expire,
    and one about to expire that lacks its [token_type]. *)
Definition sample_current_record : dict :=
  list_to_map [("access_token", VStr "CACHED");
               ("expires", VNum 4600);
               ("refresh_token", VStr "OLD");
               ("token_type", VStr "Bearer")].

Definition sample_stale_record : dict :=
  list_to_map [("access_token", VStr "CACHED");
               ("expires", VNum 1030);
               ("refresh_token", VStr "OLD");
               ("token_type", VStr "Bearer")].

Definition sample_broken_record : dict :=
  list_to_map [("access_token", VStr "CACHED");
               ("expires", VNum 1030);
               ("refresh_token", VStr "OLD")].

(** A device-code answer, the three kinds of token answer, and a fatal one. *)
Definition sample_session : reply :=
  Reply 1 (list_to_map [("device_code", VStr "DEVICE");
                        ("user_code", VStr "ABCD-EFGH");
                        ("verification_url", VStr "https://www.google.com/device");
                        ("interval", VNum 5);
                        ("expires_in", VNum 1800)]).

Definition sample_pending : reply :=
  Reply 1 {["error" := VStr "authorization_pending"]}.

Definition sample_expired : reply :=
  Reply 1 {["error" := VStr "expired_token"]}.

Definition sample_denied : reply :=
  Reply 1 {["error" := VStr "access_denied"]}.

Definition sample_grant : reply :=
  Reply 2 (list_to_map [("access_token", VStr "ACCESS");
                        ("expires_in", VNum 3600);
                        ("refresh_token", VStr "REFRESH");
                        ("token_type", VStr "Bearer")]).

(** Answers to a refresh: a renewal that keeps the refresh token, a refusal,
    and a renewal that carries an empty [error]. *)
Definition sample_renewal : reply :=
  Reply 3 (list_to_map [("access_token", VStr "ACCESS2");
                        ("expires_in", VNum 3599);
                        ("token_type", VStr "Bearer")]).

Definition sample_refusal : reply :=
  Reply 1 {["error" := VStr "invalid_grant"]}.

Definition sample_blank_error : reply :=
  Reply 3 (list_to_map [("error", VStr "");
                        ("access_token", VStr "ACCESS2");
                        ("expires_in", VNum 3599);
                        ("token_type", VStr "Bearer")]).

(** A fresh process at time 1000 with nothing in memory, [cached] in the
    cache, talking to a server that will give the listed answers. *)
Definition sample_world (cached : option dict) (device poll refresh : list reply)
  : World :=
  mkWorld 1000 None cached
          (list_to_map [(DEVICE_CODE_URL, device); (POLL_URL, poll);
                        (REFRESH_URL, refresh)])
          [].

(** The worlds of the examples. *)
Definition world_two_pending : World :=
  sample_world None [sample_session]
    [sample_pending; sample_pending; sample_grant] [].

Definition world_expired_once : World :=
  sample_world None [sample_session; sample_session]
    [sample_expired; sample_grant] [].

Definition world_expired_after_pending : World :=
  sample_world None [sample_session; sample_session]
    [sample_pending; sample_expired; sample_pending; sample_grant] [].

Definition world_denied : World :=
  sample_world None [sample_session] [sample_pending; sample_denied] [].

Definition world_renewal : World :=
  sample_world None [] [] [sample_renewal].

Definition world_refusal : World :=
  sample_world None [sample_session] [sample_grant] [sample_refusal].

Definition world_blank_error : World :=
  sample_world None [sample_session] [sample_grant] [sample_blank_error].

Definition world_stale_cache : World :=
  sample_world (Some sample_stale_record) [sample_session] [sample_grant]
    [sample_renewal].

Definition world_broken_cache : World :=
  sample_world (Some sample_broken_record) [sample_session] [sample_grant]
    [sample_renewal].

Definition world_current_cache : World :=
  sample_world (Some sample_current_record) [] [] [].

(** Requests as the extractor builds them: one to the service with the
    headers of a cookie session, the same to another site, the same to the
    service under an explicit port, one whose cookie headers were given in
    lower case, and the plugin's own refresh request. *)
Definition sample_request : Request :=
  mkRequest "www.youtube.com"
    [("Authorization", VStr "SAPISIDHASH 1_abc");
     ("X-Origin", VStr "https://www.youtube.com");
     ("X-Goog-AuthUser", VStr "0");
     ("X-Goog-PageId", VStr "123");
     ("X-Youtube-Identity-Token", VStr "QUFF");
     ("User-Agent", VStr "Mozilla/5.0")].

Definition sample_foreign_request : Request :=
  Build_Request "unrelated.example.com" (headers sample_request).

Definition sample_port_request : Request :=
  Build_Request "www.youtube.com:443" (headers sample_request).

Definition sample_lowercase_request : Request :=
  mkRequest "www.youtube.com"
    [("authorization", VStr "SAPISIDHASH 1_abc");
     ("x-origin", VStr "https://www.youtube.com");
     ("x-goog-authuser", VStr "0");
     ("user-agent", VStr "Mozilla/5.0")].

Definition sample_marked_request : Request :=
  mkRequest "www.youtube.com" (map_to_list refresh_request_headers).

(** The host of a URL, as [urllib.parse.urlparse(url).hostname] reads it
    from the netloc: without user information and port, in lower case. *)
Definition hostname (netloc : string) : option string :=
  let hostinfo := snd (str_rpartition "@" netloc) in
  let name :=
    match str_partition "[" hostinfo with
    | (_, Some bracketed) => fst (str_partition "]" bracketed)
    | (_, None) => fst (str_partition ":" hostinfo)
    end in
  match name with
  | EmptyString => None
  | _ =>
      let '(name, zone) := str_partition "%" name in
      Some (lower name +:+ match zone with
                           | Some zone => "%" +:+ zone
                           | None => ""
                           end)
  end.

(** The headers [handle_oauth] removes when a cookie [Authorization] is
    present, beside replacing that one. *)
Definition COOKIE_HEADERS : list string :=
  ["X-Origin"; "X-Goog-PageId"; "X-Goog-AuthUser"; "X-Youtube-Identity-Token"].

Definition COOKIE_WARNING : event :=
  ReportWarning
    ("Youtube cookies have been provided, but OAuth2 is being used."
     +:+ " If you encounter problems, stop providing Youtube cookies to yt-dlp.").

(** The headers [handle_oauth] leaves, as a map under the stored names. *)
Definition cleaned (cookie : bool) (h : dict) : dict :=
  delete "X-Youtube-Identity-Token"
    (if cookie
     then delete "X-Origin"
            (delete "Authorization"
               (delete "X-Goog-Authuser" (delete "X-Goog-Pageid" h)))
     else delete "X-Goog-Authuser" (delete "X-Goog-Pageid" h)).

(** The [Authorization] value that [handle_oauth] stores. *)
Definition bearer (token_type access_token : value) : value :=
  VStr (strip (py_str token_type +:+ " " +:+ py_str access_token)).

(** The names under which the headers of the plugin are stored. *)
Ltac stored_names :=
  try change (title "X-Goog-PageId") with "X-Goog-Pageid" in *;
  try change (title "X-Goog-AuthUser") with "X-Goog-Authuser" in *;
  try change (title "Authorization") with "Authorization" in *;
  try change (title "X-Origin") with "X-Origin" in *;
  try change (title "X-Youtube-Identity-Token") with "X-Youtube-Identity-Token" in *;
  try change (title OAUTH_MARKER) with "__Youtube_Oauth__" in *.

(** Closed goals are decided by evaluation. *)
Ltac by_compute :=
  match goal with
  | |- ?P => apply (bool_decide_eq_true_1 P); vm_compute; reflexivity
  end.

#[global] Instance Request_eq_dec : EqDecision Request.
Proof. solve_decision. Defined.

#[global] Instance Extractor_eq_dec : EqDecision Extractor.
Proof. solve_decision. Defined.

(** *** Properties of every run *)

(** Whatever [m] returns satisfies [P]. *)
Definition returns_only {A : Type} (P : A -> Prop) (m : M A) : Prop :=
  forall (w : World) (a : A) (w' : World), m w = (Return a, w') -> P a.

(** [m] leaves the token in memory and the cache entry as they are. *)
Definition keeps_memory {A : Type} (m : M A) : Prop :=
  forall w : World,
    _TOKEN_DATA (snd (m w)) = _TOKEN_DATA w /\ cache (snd (m w)) = cache w.

(** A record with the four fields and nothing else, whose [expires] is a
    number. *)
Definition well_shaped (token_data : dict) : Prop :=
  dom token_data = list_to_set REQUIRED_KEYS
  /\ exists e : Z, token_data !! "expires" = Some (VNum e).

(** *** More sample traffic *)


(** A cached record with the four fields whose [expires] is text. *)
Definition sample_text_expires_record : dict :=
  list_to_map [("access_token", VStr "CACHED");
               ("expires", VStr "tomorrow");
               ("refresh_token", VStr "OLD");
               ("token_type", VStr "Bearer")].

Definition world_text_expires : World :=
  sample_world (Some sample_text_expires_record) [sample_session] [sample_grant]
    [sample_renewal].


Definition world_denied_at_once : World :=
  sample_world (Some sample_broken_record) [sample_session] [sample_denied] [].


(** A request to the service that carries no cookie session. *)
Definition sample_short_grant : reply :=
  Reply 2 (list_to_map [("access_token", VStr "ACCESS");
                        ("expires_in", VNum 30);
                        ("refresh_token", VStr "REFRESH");
                        ("token_type", VStr "Bearer")]).

Definition world_short_grant : World :=
  sample_world None [sample_session] [sample_short_grant] [sample_renewal].

Definition sample_plain_request : Request :=
  mkRequest "www.youtube.com"
    [("X-Origin", VStr "https://www.youtube.com");
     ("X-Goog-AuthUser", VStr "0");
     ("User-Agent", VStr "Mozilla/5.0")].

(** An extractor before the login, with creator clients among its
    defaults. *)
Definition sample_extractor : Extractor :=
  mkExtractor false (Some ["web"; "web_creator"; "ios"; "android_creator"]).

(** The login of an extractor without the plugin: it does nothing. *)
Definition sample_super_login (username password : string) : Login :=
  fun self w => (Return tt, self, w).

(** ** Token validator *)

Lemma contains_spec (k : string) (d : dict) :
  contains k d = true <-> is_Some (d !! k).
Proof. unfold contains. apply bool_decide_eq_true. Qed.

Lemma validate_Some_true (d : dict) :
  validate_token_data (Some d) = Return true <->
  Forall (fun k => is_Some (d !! k)) REQUIRED_KEYS.
Proof.
  unfold validate_token_data. split.
  - intros H.
    assert (Hall : forallb (fun key => contains key d) REQUIRED_KEYS = true)
      by congruence.
    apply Is_true_true, forallb_True in Hall.
    eapply Forall_impl; [exact Hall|]. intros k Hk. simpl in Hk.
    apply contains_spec. by apply Is_true_true.
  - intros H. f_equal. apply Is_true_true, forallb_True.
    eapply Forall_impl; [exact H|]. intros k Hk. simpl.
    by apply Is_true_true, contains_spec.
Qed.

Lemma validate_missing (d : dict) (k : string) :
  k ∈ REQUIRED_KEYS -> d !! k = None ->
  validate_token_data (Some d) = Return false.
Proof.
  intros Hk Hd. destruct (validate_token_data (Some d)) as [[|]| |] eqn:E;
    try (unfold validate_token_data in E; discriminate); [|done].
  apply validate_Some_true in E. rewrite Forall_forall in E.
  specialize (E k Hk). rewrite Hd in E. by destruct E.
Qed.

(** C3, as the code has it: on a record (a dict, the empty one included)
    [validate_token_data] returns true exactly when all of [access_token],
    [expires], [refresh_token] and [token_type] are present, so it returns
    false once any single one of the four is removed; on [None] it raises
    [TypeError] instead of returning false, and it is the truthiness guard of
    its callers that treats an absent record as invalid: with nothing in
    memory and nothing cached, [is_authenticated] is false and raises
    nothing. *)
Theorem validate_token_data_guarded (d : dict) :
  (validate_token_data (Some d) = Return true <->
     is_Some (d !! "access_token") /\ is_Some (d !! "expires") /\
     is_Some (d !! "refresh_token") /\ is_Some (d !! "token_type"))
  /\ (exists b, validate_token_data (Some d) = Return b)
  /\ Forall (fun k => validate_token_data (Some (delete k d)) = Return false)
            REQUIRED_KEYS
  /\ validate_token_data (Some ∅) = Return false
  /\ validate_token_data None = Raise TypeError
  /\ (forall t srv tr sup,
        fst (is_authenticated true sup (mkWorld t None None srv tr)) = Return false).
Proof.
  split; [|split; [|split; [|split; [|split]]]].
  - rewrite validate_Some_true. unfold REQUIRED_KEYS.
    rewrite !Forall_cons, Forall_nil. tauto.
  - eexists. reflexivity.
  - apply Forall_forall. intros k Hk.
    apply (validate_missing _ k Hk). apply lookup_delete_eq.
  - reflexivity.
  - reflexivity.
  - reflexivity.
Qed.

(** C3, as stated, fails on [None]: the validator does not return false. *)
Lemma validate_token_data_None_raises :
  validate_token_data None <> Return false
  /\ validate_token_data None = Raise TypeError.
Proof. split; [discriminate | reflexivity]. Qed.


(** ** Stepping through the monad *)

Lemma bind_Return {A B} (m : M A) (k : A -> M B) (w w' : World) (a : A) :
  m w = (Return a, w') -> bind m k w = k a w'.
Proof. intros H. unfold bind. by rewrite H. Qed.

Lemma getitem_Some (d : dict) (k : string) (v : value) (w : World) :
  d !! k = Some v -> getitem d k w = (Return v, w).
Proof. intros H. unfold getitem. by rewrite H. Qed.

Lemma time_sleep_ok (v : value) (d : Z) (w : World) :
  as_num v = Some d -> 0 <= d ->
  time_sleep v w =
    (Return tt,
     mkWorld (now w + d) (_TOKEN_DATA w) (cache w) (server w) (Sleep d :: trace w)).
Proof.
  intros Hv Hd. unfold time_sleep. rewrite Hv.
  destruct (d <? 0) eqn:E; [lia | reflexivity].
Qed.

Lemma download_json_reply (url note : string) (data hs : dict) (w : World)
    (r : reply) (rs : list reply) :
  server w !! url = Some (r :: rs) ->
  _download_json url note data hs w =
    (Return (body r),
     mkWorld (now w + latency r) (_TOKEN_DATA w) (cache w)
             (<[url := rs]> (server w))
             (DownloadJson url note data hs :: trace w)).
Proof.
  intros H. unfold _download_json, bind, emit, http. simpl. by rewrite H.
Qed.

(** ** Device authorization flow *)

Lemma poll_headers_eq :
  (if truthy_obj (Some ({["Content-Type" := VStr "application/json"]} : dict))
   then update {["Content-Type" := VStr "application/json"]}
          (list_to_map [("User-Agent", VStr "Mozilla/5.0");
                        ("accept-language", VStr "en-US,en")])
   else list_to_map [("User-Agent", VStr "Mozilla/5.0");
                     ("accept-language", VStr "en-US,en")])
  = POLL_HEADERS.
Proof. by_compute. Qed.

Lemma execute_request_poll (data : dict) (w : World) (r : reply) (rs : list reply) :
  server w !! POLL_URL = Some (r :: rs) ->
  _execute_request POLL_URL "POST" {["Content-Type" := VStr "application/json"]} data w =
    (Return (body r),
     mkWorld (now w + latency r) (_TOKEN_DATA w) (cache w)
             (<[POLL_URL := rs]> (server w))
             (UrlOpen POLL_URL "POST" POLL_HEADERS data :: trace w)).
Proof.
  intros H. unfold _execute_request, urllib_Request.
  change (startswith (lower POLL_URL) "http") with true.
  change (request_type POLL_URL) with (Some "https").
  rewrite poll_headers_eq.
  unfold bind, ret, emit, http. simpl. by rewrite H.
Qed.

Section Poll.
Variables (restart : M dict) (response_data : dict) (device_code : value).
Hypothesis Hdc : response_data !! "device_code" = Some device_code.

Variables (w : World) (r : reply) (rs : list reply).
Hypothesis Hsrv : server w !! POLL_URL = Some (r :: rs).

Lemma poll_unfold (fuel : nat) :
  poll restart response_data (S fuel) w =
    (let error := traverse_obj (body r) "error" in
     if truthy error then
       if bool_decide (error = VStr "authorization_pending") then
         interval <- getitem response_data "interval";;
         time_sleep interval;;;
         poll restart response_data fuel
       else if bool_decide (error = VStr "expired_token") then
         report_warning "The device code has expired, restarting authorization flow";;;
         restart
       else
         raise (ExtractorError ("Unhandled OAuth2 Error: " +:+ py_str error))
     else
       to_screen "Authorization successful";;;
       authorized_record (body r))
    (polled device_code r rs w).
Proof.
  simpl poll.
  rewrite (bind_Return _ _ _ _ _ (getitem_Some _ _ _ _ Hdc)).
  rewrite (bind_Return _ _ _ _ _ (execute_request_poll _ _ _ _ Hsrv)).
  reflexivity.
Qed.

Lemma poll_pending (fuel : nat) (interval : value) (d : Z) :
  body r !! "error" = Some (VStr "authorization_pending") ->
  response_data !! "interval" = Some interval ->
  as_num interval = Some d -> 0 <= d ->
  poll restart response_data (S fuel) w =
    poll restart response_data fuel (slept d (polled device_code r rs w)).
Proof.
  intros He Hi Hn Hd. rewrite poll_unfold.
  unfold traverse_obj. rewrite He. simpl.
  rewrite (bind_Return _ _ _ _ _ (getitem_Some _ _ _ _ Hi)).
  rewrite (bind_Return _ _ _ _ _ (time_sleep_ok _ _ _ Hn Hd)).
  reflexivity.
Qed.

Lemma poll_expired (fuel : nat) :
  body r !! "error" = Some (VStr "expired_token") ->
  poll restart response_data (S fuel) w =
    restart (logged EXPIRED_WARNING (polled device_code r rs w)).
Proof.
  intros He. rewrite poll_unfold.
  unfold traverse_obj. rewrite He. reflexivity.
Qed.

Lemma poll_fatal (fuel : nat) (error : value) :
  body r !! "error" = Some error ->
  truthy error = true ->
  error <> VStr "authorization_pending" ->
  error <> VStr "expired_token" ->
  poll restart response_data (S fuel) w =
    (Raise (ExtractorError ("Unhandled OAuth2 Error: " +:+ py_str error)),
     polled device_code r rs w).
Proof.
  intros He Ht Hp Hx. rewrite poll_unfold.
  unfold traverse_obj. rewrite He. simpl. rewrite Ht.
  rewrite !bool_decide_eq_false_2 by done. reflexivity.
Qed.

Lemma poll_success (fuel : nat) :
  truthy (traverse_obj (body r) "error") = false ->
  poll restart response_data (S fuel) w =
    authorized_record (body r)
      (logged (ToScreen "Authorization successful") (polled device_code r rs w)).
Proof.
  intros He. rewrite poll_unfold. simpl. rewrite He. reflexivity.
Qed.
End Poll.

(** *** One authorization attempt *)

Lemma urls_distinct :
  DEVICE_CODE_URL <> POLL_URL /\ DEVICE_CODE_URL <> REFRESH_URL
  /\ POLL_URL <> REFRESH_URL.
Proof. repeat split; discriminate. Qed.

Lemma authorize_unfold (fuel : nat) (w : World) (d : reply) (ds : list reply) :
  server w !! DEVICE_CODE_URL = Some (d :: ds) ->
  device_session d ->
  authorize (S fuel) w = poll (authorize fuel) (body d) fuel (started d ds w).
Proof.
  intros Hsrv (Hv & Hu & Hdc & Hi & Hd).
  destruct Hv as [v Hv], Hu as [u Hu], Hi as [n Hn].
  destruct (body d !! "interval") as [iv|] eqn:Hiv; [|discriminate].
  simpl in Hn.
  simpl authorize.
  rewrite (bind_Return _ _ _ _ _ (download_json_reply _ _ _ _ _ _ _ Hsrv)).
  rewrite (bind_Return _ _ _ _ _ (getitem_Some _ _ _ _ Hv)).
  rewrite (bind_Return _ _ _ _ _ (getitem_Some _ _ _ _ Hu)).
  unfold bind at 1, to_screen at 1, emit at 1.
  rewrite (bind_Return _ _ _ _ _ (getitem_Some _ _ _ _ Hiv)).
  unfold bind at 1, to_screen at 1, emit at 1.
  rewrite (bind_Return _ _ _ _ _ (getitem_Some _ _ _ _ Hiv)).
  unfold session_interval in Hd. rewrite Hiv in Hd. simpl in Hd. rewrite Hn in Hd.
  simpl in Hd.
  rewrite (bind_Return _ _ _ _ _ (time_sleep_ok _ _ _ Hn Hd)).
  unfold started, session_interval. rewrite Hv, Hu, Hiv. simpl. rewrite Hn.
  reflexivity.
Qed.

Lemma poll_pendings (restart : M dict) (d : reply) (ps rest : list reply) :
  device_session d ->
  Forall is_pending ps ->
  forall (k : nat) (w : World),
    server w !! POLL_URL = Some (ps ++ rest) ->
    poll restart (body d) (length ps + k) w =
      poll restart (body d) k
        (after_pendings (session_device_code d) (session_interval d) ps rest w).
Proof.
  intros (_ & _ & [dc Hdc] & Hi & Hd) Hps.
  destruct (body d !! "interval") as [iv|] eqn:Hiv; [|by destruct Hi].
  destruct Hi as [n Hn]. simpl in Hn.
  assert (Hsi : session_interval d = n).
  { unfold session_interval. rewrite Hiv. simpl. by rewrite Hn. }
  assert (Hsd : session_device_code d = dc).
  { unfold session_device_code. by rewrite Hdc. }
  rewrite Hsi in *. rewrite Hsd.
  induction Hps as [|r ps Hr Hps IH]; intros k w Hsrv; [reflexivity|].
  simpl length. simpl after_pendings.
  change (S (length ps) + k)%nat with (S (length ps + k)).
  rewrite (poll_pending _ _ _ Hdc _ _ _ Hsrv _ _ _ Hr Hiv Hn Hd).
  apply IH. simpl. apply lookup_insert_eq.
Qed.

Lemma after_pendings_server (dc : value) (n : Z) (ps rest : list reply) :
  forall w : World,
    server w !! POLL_URL = Some (ps ++ rest) ->
    server (after_pendings dc n ps rest w) !! POLL_URL = Some rest.
Proof.
  induction ps as [|r ps IH]; intros w H; [exact H|].
  simpl. apply IH. simpl. apply lookup_insert_eq.
Qed.

Lemma after_pendings_memory (dc : value) (n : Z) (ps rest : list reply) :
  forall w : World,
    _TOKEN_DATA (after_pendings dc n ps rest w) = _TOKEN_DATA w
    /\ cache (after_pendings dc n ps rest w) = cache w.
Proof.
  induction ps as [|r ps IH]; intros w; [done|].
  simpl. destruct (IH (slept n (polled dc r (ps ++ rest) w))) as [-> ->]. done.
Qed.

Lemma after_pendings_now (dc : value) (n : Z) (ps rest : list reply) :
  0 <= n -> Forall (fun r => 0 <= latency r) ps ->
  forall w : World, now w <= now (after_pendings dc n ps rest w).
Proof.
  intros Hn Hps. induction Hps as [|r ps Hr Hps IH]; intros w; [simpl; lia|].
  simpl. etransitivity; [|apply IH]. simpl. lia.
Qed.

(** *** Histories of the flow *)

Lemma history_started (d : reply) (ds : list reply) (w : World) :
  history (started d ds w) = history w ++ opening d.
Proof. unfold history, started, opening. simpl. by rewrite <- !app_assoc. Qed.

Lemma history_polled (dc : value) (r : reply) (rs : list reply) (w : World) :
  history (polled dc r rs w) = history w ++ poll_round dc r.
Proof. unfold history, polled, poll_round. simpl. by rewrite <- !app_assoc. Qed.

Lemma history_slept (n : Z) (w : World) :
  history (slept n w) = history w ++ [Sleep n].
Proof. reflexivity. Qed.

Lemma history_logged (e : event) (w : World) :
  history (logged e w) = history w ++ [e].
Proof. reflexivity. Qed.

Lemma history_after_pendings (dc : value) (n : Z) (ps rest : list reply) :
  forall w : World,
    history (after_pendings dc n ps rest w) =
      history w ++ flat_map (pending_round dc n) ps.
Proof.
  induction ps as [|r ps IH]; intros w; simpl.
  - by rewrite app_nil_r.
  - rewrite IH, history_slept, history_polled. unfold pending_round.
    by rewrite <- !app_assoc.
Qed.

Lemma sleeps_app (tr1 tr2 : list event) :
  sleeps (tr1 ++ tr2) = sleeps tr1 ++ sleeps tr2.
Proof. apply omap_app. Qed.

Lemma requests_to_app (url : string) (tr1 tr2 : list event) :
  requests_to url (tr1 ++ tr2) = requests_to url tr1 ++ requests_to url tr2.
Proof. apply filter_app. Qed.

Lemma warnings_app (tr1 tr2 : list event) :
  warnings (tr1 ++ tr2) = warnings tr1 ++ warnings tr2.
Proof. apply omap_app. Qed.

Lemma sleeps_pending_rounds (dc : value) (n : Z) (ps : list reply) :
  sleeps (flat_map (pending_round dc n) ps) = replicate (length ps) n.
Proof.
  induction ps as [|r ps IH]; [reflexivity|].
  simpl. unfold sleeps in *. simpl. by rewrite IH.
Qed.

Lemma requests_to_poll_round (url : string) (dc : value) (r : reply) :
  requests_to url (poll_round dc r) =
    if decide (url = POLL_URL) then [poll_request dc] else [].
Proof.
  unfold requests_to, poll_round.
  destruct (decide (url = POLL_URL)) as [->|Hne].
  - rewrite filter_cons_True by done.
    rewrite filter_cons_False by (simpl; discriminate).
    rewrite filter_cons_False by (simpl; discriminate). done.
  - rewrite filter_cons_False by (simpl; congruence).
    rewrite filter_cons_False by (simpl; discriminate).
    rewrite filter_cons_False by (simpl; discriminate). done.
Qed.

Lemma requests_to_opening (url : string) (d : reply) :
  requests_to url (opening d) =
    if decide (url = DEVICE_CODE_URL) then [device_code_request] else [].
Proof.
  unfold requests_to, opening.
  destruct (decide (url = DEVICE_CODE_URL)) as [->|Hne].
  - rewrite filter_cons_True by done.
    rewrite !filter_cons_False by (simpl; discriminate). done.
  - rewrite filter_cons_False by (simpl; congruence).
    rewrite !filter_cons_False by (simpl; discriminate). done.
Qed.

Lemma requests_to_pending_rounds (url : string) (dc : value) (n : Z)
    (ps : list reply) :
  requests_to url (flat_map (pending_round dc n) ps) =
    if decide (url = POLL_URL) then replicate (length ps) (poll_request dc) else [].
Proof.
  induction ps as [|r ps IH].
  - simpl. by destruct (decide _).
  - change (flat_map (pending_round dc n) (r :: ps))
      with ((poll_round dc r ++ [Sleep n]) ++ flat_map (pending_round dc n) ps).
    simpl length.
    rewrite !requests_to_app, IH, requests_to_poll_round.
    unfold requests_to at 1. rewrite filter_cons_False by (simpl; discriminate).
    rewrite filter_nil. by destruct (decide _).
Qed.

Lemma requests_to_other (url : string) (e : event) :
  request_url e = None -> requests_to url [e] = [].
Proof.
  intros H. unfold requests_to. rewrite filter_cons_False; [done|].
  rewrite H. discriminate.
Qed.

(** *** The flow to its end *)

Lemma authorized_record_grant (s : reply) (access_token refresh_token token_type : value)
    (expires_in : Z) (w : World) :
  token_grant s access_token refresh_token token_type expires_in ->
  authorized_record (body s) w =
    (Return (list_to_map [("access_token", access_token);
                          ("expires", VNum (now w + expires_in));
                          ("refresh_token", refresh_token);
                          ("token_type", token_type)]),
     w).
Proof.
  intros (_ & Hat & Hei & Hrt & Htt).
  destruct (body s !! "expires_in") as [ei|] eqn:E; [|discriminate].
  simpl in Hei. unfold authorized_record.
  rewrite (bind_Return _ _ _ _ _ (getitem_Some _ _ _ _ Hat)).
  unfold bind at 1, utcnow at 1.
  rewrite (bind_Return _ _ _ _ _ (getitem_Some _ _ _ _ E)).
  unfold add_num. rewrite Hei. unfold bind at 1, ret at 1.
  rewrite (bind_Return _ _ _ _ _ (getitem_Some _ _ _ _ Hrt)).
  rewrite (bind_Return _ _ _ _ _ (getitem_Some _ _ _ _ Htt)).
  reflexivity.
Qed.

Lemma history_answered (d : reply) (ds ps : list reply) (x : reply)
    (rest : list reply) (w : World) :
  history (answered d ds ps x rest w) =
    history w ++ opening d
      ++ flat_map (pending_round (session_device_code d) (session_interval d)) ps
      ++ poll_round (session_device_code d) x.
Proof.
  unfold answered.
  rewrite history_polled, history_after_pendings, history_started.
  by rewrite <- !app_assoc.
Qed.

Lemma after_pendings_overwritten (dc : value) (n : Z) (ps rest q : list reply) :
  forall w : World,
    <[POLL_URL := q]> (server (after_pendings dc n ps rest w)) =
    <[POLL_URL := q]> (server w).
Proof.
  induction ps as [|r ps IH]; intros w; [reflexivity|].
  simpl. rewrite IH. simpl. apply insert_insert_eq.
Qed.

Lemma answered_server (d : reply) (ds ps : list reply) (x : reply)
    (rest : list reply) (w : World) :
  server (answered d ds ps x rest w) =
    <[POLL_URL := rest]> (<[DEVICE_CODE_URL := ds]> (server w)).
Proof. unfold answered, polled. simpl. by rewrite after_pendings_overwritten. Qed.

Lemma answered_memory (d : reply) (ds ps : list reply) (x : reply)
    (rest : list reply) (w : World) :
  _TOKEN_DATA (answered d ds ps x rest w) = _TOKEN_DATA w
  /\ cache (answered d ds ps x rest w) = cache w.
Proof.
  unfold answered, polled. simpl.
  destruct (after_pendings_memory (session_device_code d) (session_interval d)
              ps (x :: rest) (started d ds w)) as [-> ->]. done.
Qed.

Lemma answered_now (d : reply) (ds ps : list reply) (x : reply)
    (rest : list reply) (w : World) :
  device_session d -> 0 <= latency d ->
  Forall (fun r => 0 <= latency r) ps -> 0 <= latency x ->
  now w <= now (answered d ds ps x rest w).
Proof.
  intros (_ & _ & _ & _ & Hn) Hd Hps Hx. unfold answered, polled. simpl.
  pose proof (after_pendings_now (session_device_code d) (session_interval d)
                ps (x :: rest) Hn Hps (started d ds w)) as H.
  simpl in H. lia.
Qed.

Section Attempt.
Variables (w : World) (d : reply) (ds ps : list reply) (x : reply)
            (rest : list reply).
Hypothesis Hdev : server w !! DEVICE_CODE_URL = Some (d :: ds).
Hypothesis Hsession : device_session d.
Hypothesis Hpoll : server w !! POLL_URL = Some (ps ++ x :: rest).
Hypothesis Hpending : Forall is_pending ps.

(** An attempt with enough fuel arrives at the first answer that is not
    "pending". *)
Lemma authorize_reaches (k : nat) :
  authorize (S (length ps + S k)) w =
    poll (authorize (length ps + S k)) (body d) (S k)
      (after_pendings (session_device_code d) (session_interval d) ps
         (x :: rest) (started d ds w)).
Proof.
  rewrite (authorize_unfold _ _ _ _ Hdev Hsession).
  apply poll_pendings; [done..|].
  simpl. rewrite lookup_insert_ne by apply urls_distinct. done.
Qed.

Lemma attempt_queue :
  server (after_pendings (session_device_code d) (session_interval d) ps
            (x :: rest) (started d ds w)) !! POLL_URL = Some (x :: rest).
Proof.
  apply after_pendings_server. simpl.
  rewrite lookup_insert_ne by apply urls_distinct. done.
Qed.

Lemma attempt_code : body d !! "device_code" = Some (session_device_code d).
Proof.
  destruct Hsession as (_ & _ & [dc Hdc] & _).
  unfold session_device_code. by rewrite Hdc.
Qed.

Lemma authorize_grant (fuel : nat)
    (access_token refresh_token token_type : value) (expires_in : Z) :
  token_grant x access_token refresh_token token_type expires_in ->
  (length ps + 2 <= fuel)%nat ->
  authorize fuel w =
    (Return (list_to_map
               [("access_token", access_token);
                ("expires", VNum (now (answered d ds ps x rest w) + expires_in));
                ("refresh_token", refresh_token);
                ("token_type", token_type)]),
     logged (ToScreen "Authorization successful") (answered d ds ps x rest w)).
Proof.
  intros Hgrant Hfuel.
  replace fuel with (S (length ps + S (fuel - length ps - 2))) by lia.
  rewrite authorize_reaches.
  rewrite (poll_success _ _ _ attempt_code _ _ _ attempt_queue _ (proj1 Hgrant)).
  rewrite (authorized_record_grant _ _ _ _ _ _ Hgrant). reflexivity.
Qed.

Lemma authorize_fatal (fuel : nat) (error : value) :
  body x !! "error" = Some error ->
  truthy error = true ->
  error <> VStr "authorization_pending" ->
  error <> VStr "expired_token" ->
  (length ps + 2 <= fuel)%nat ->
  authorize fuel w =
    (Raise (ExtractorError ("Unhandled OAuth2 Error: " +:+ py_str error)),
     answered d ds ps x rest w).
Proof.
  intros He Ht Hp Hx Hfuel.
  replace fuel with (S (length ps + S (fuel - length ps - 2))) by lia.
  rewrite authorize_reaches.
  apply (poll_fatal _ _ _ attempt_code _ _ _ attempt_queue _ _ He Ht Hp Hx).
Qed.

Lemma authorize_expired (fuel : nat) :
  body x !! "error" = Some (VStr "expired_token") ->
  (length ps + 1 <= fuel)%nat ->
  authorize (S fuel) w =
    authorize fuel
      (logged EXPIRED_WARNING (answered d ds ps x rest w)).
Proof.
  intros He Hfuel.
  replace fuel with (length ps + S (fuel - length ps - 1))%nat at 1 2 by lia.
  rewrite authorize_reaches.
  rewrite (poll_expired _ _ _ attempt_code _ _ _ attempt_queue _ He).
  reflexivity.
Qed.
End Attempt.

(** *** The device flow: statements *)

(** C4, as the code has it: after the device-code request [authorize] sleeps
    [interval] seconds once, and every "authorization_pending" answer makes it
    sleep [interval] seconds again and poll again, however many there are: with
    [n] pending answers followed by a grant it sleeps [n + 1] times (three
    times for two pending answers), polls [n + 1] times and returns the record
    built from the grant. *)
Theorem authorize_sleeps_while_pending (fuel : nat) (w : World) (d : reply)
    (ds ps : list reply) (s : reply) (rest : list reply)
    (access_token refresh_token token_type : value) (expires_in : Z) :
  server w !! DEVICE_CODE_URL = Some (d :: ds) ->
  device_session d ->
  server w !! POLL_URL = Some (ps ++ s :: rest) ->
  Forall is_pending ps ->
  token_grant s access_token refresh_token token_type expires_in ->
  (length ps + 2 <= fuel)%nat ->
  exists w' : World,
    authorize fuel w =
      (Return (list_to_map [("access_token", access_token);
                            ("expires", VNum (now w' + expires_in));
                            ("refresh_token", refresh_token);
                            ("token_type", token_type)]),
       w')
    /\ sleeps (history w') =
         sleeps (history w) ++ replicate (S (length ps)) (session_interval d)
    /\ requests_to POLL_URL (history w') =
         requests_to POLL_URL (history w)
           ++ replicate (S (length ps)) (poll_request (session_device_code d))
    /\ history w' =
         history w ++ opening d
           ++ flat_map (pending_round (session_device_code d) (session_interval d)) ps
           ++ poll_round (session_device_code d) s
           ++ [ToScreen "Authorization successful"].
Proof.
  intros Hdev Hsession Hpoll Hpending Hgrant Hfuel.
  exists (logged (ToScreen "Authorization successful") (answered d ds ps s rest w)).
  split; [|split; [|split]].
  - apply (authorize_grant _ _ _ _ _ _ Hdev Hsession Hpoll Hpending _ _ _ _ _
             Hgrant Hfuel).
  - rewrite history_logged, history_answered, !sleeps_app, sleeps_pending_rounds.
    rewrite <- app_assoc. f_equal.
    change (sleeps (opening d)) with [session_interval d].
    change (sleeps (poll_round (session_device_code d) s)) with (@nil Z).
    change (sleeps [ToScreen "Authorization successful"]) with (@nil Z).
    by rewrite !app_nil_r.
  - rewrite history_logged, history_answered, !requests_to_app.
    rewrite requests_to_opening, requests_to_pending_rounds, requests_to_poll_round.
    rewrite requests_to_other by done.
    rewrite decide_False by (symmetry; apply urls_distinct).
    rewrite !decide_True by done.
    rewrite app_nil_r. simpl. f_equal.
    change (poll_request (session_device_code d)
              :: replicate (length ps) (poll_request (session_device_code d)))
      with (replicate (S (length ps)) (poll_request (session_device_code d))).
    by rewrite replicate_S_end.
  - rewrite history_logged, history_answered. by rewrite <- !app_assoc.
Qed.

Lemma authorize_sleeps_while_pending_witness :
  exists w' : World,
    authorize 4 world_two_pending =
      (Return (list_to_map [("access_token", VStr "ACCESS");
                            ("expires", VNum (now w' + 3600));
                            ("refresh_token", VStr "REFRESH");
                            ("token_type", VStr "Bearer")]),
       w')
    /\ sleeps (history w') = [5; 5; 5].
Proof.
  destruct (authorize_sleeps_while_pending 4 world_two_pending
              sample_session [] [sample_pending; sample_pending] sample_grant []
              (VStr "ACCESS") (VStr "REFRESH") (VStr "Bearer") 3600)
    as (w' & Hrun & Hsleeps & _).
  - by_compute.
  - repeat split; by_compute.
  - by_compute.
  - repeat constructor.
  - repeat split; by_compute.
  - simpl. lia.
  - exists w'. split; [exact Hrun | exact Hsleeps].
Defined.

(** C4, as stated, fails: with two pending answers and then a grant the code
    sleeps three times, not twice. *)
Lemma authorize_two_pending_three_sleeps :
  sleeps (history (snd (authorize 4 world_two_pending))) = [5; 5; 5]
  /\ length (sleeps (history (snd (authorize 4 world_two_pending)))) <> 2%nat.
Proof. split; [by_compute | by_compute]. Qed.

(** C5: when a poll is answered "expired_token" - the first one, or one
    that follows any number of "authorization_pending" answers - [authorize]
    warns and runs the whole flow again from the device-code request: its
    outcome is that of [authorize] in the world after the warning, where the
    next device-code answer and the next poll answer are those that follow.
    If that second attempt is granted (after any number of pending answers),
    the device-code endpoint was asked exactly twice by the time the record
    is returned. *)
Theorem authorize_restarts_on_expired_token (fuel : nat) (w : World)
    (d1 : reply) (ds ps1 : list reply) (x : reply) (rest : list reply) :
  server w !! DEVICE_CODE_URL = Some (d1 :: ds) ->
  device_session d1 ->
  server w !! POLL_URL = Some (ps1 ++ x :: rest) ->
  Forall is_pending ps1 ->
  body x !! "error" = Some (VStr "expired_token") ->
  (length ps1 + 1 <= fuel)%nat ->
  exists w1 : World,
    authorize (S fuel) w = authorize fuel w1
    /\ history w1 =
         history w ++ opening d1
           ++ flat_map (pending_round (session_device_code d1) (session_interval d1)) ps1
           ++ poll_round (session_device_code d1) x
           ++ [EXPIRED_WARNING]
    /\ server w1 !! DEVICE_CODE_URL = Some ds
    /\ server w1 !! POLL_URL = Some rest
    /\ forall (d2 : reply) (ds' ps2 : list reply) (s : reply)
              (rest' : list reply)
              (access_token refresh_token token_type : value) (expires_in : Z),
         ds = d2 :: ds' ->
         device_session d2 ->
         rest = ps2 ++ s :: rest' ->
         Forall is_pending ps2 ->
         token_grant s access_token refresh_token token_type expires_in ->
         (length ps2 + 2 <= fuel)%nat ->
         exists w' : World,
           authorize (S fuel) w =
             (Return (list_to_map [("access_token", access_token);
                                   ("expires", VNum (now w' + expires_in));
                                   ("refresh_token", refresh_token);
                                   ("token_type", token_type)]),
              w')
           /\ history w' =
                history w1 ++ opening d2
                  ++ flat_map (pending_round (session_device_code d2)
                                 (session_interval d2)) ps2
                  ++ poll_round (session_device_code d2) s
                  ++ [ToScreen "Authorization successful"]
           /\ requests_to DEVICE_CODE_URL (history w') =
                requests_to DEVICE_CODE_URL (history w)
                  ++ [device_code_request; device_code_request].
Proof.
  intros Hdev Hs1 Hpoll Hpending1 Hx Hfuel1.
  set (w1 := logged EXPIRED_WARNING (answered d1 ds ps1 x rest w)).
  assert (Hrestart : authorize (S fuel) w = authorize fuel w1).
  { by apply (authorize_expired w d1 ds ps1 x rest). }
  assert (Hdev1 : server w1 !! DEVICE_CODE_URL = Some ds).
  { unfold w1, logged. cbn [server]. rewrite answered_server.
    rewrite lookup_insert_ne by (symmetry; apply urls_distinct).
    apply lookup_insert_eq. }
  assert (Hpoll1 : server w1 !! POLL_URL = Some rest).
  { unfold w1, logged. cbn [server]. rewrite answered_server.
    apply lookup_insert_eq. }
  assert (Hh1 : history w1 =
                  history w ++ opening d1
                    ++ flat_map (pending_round (session_device_code d1)
                                   (session_interval d1)) ps1
                    ++ poll_round (session_device_code d1) x
                    ++ [EXPIRED_WARNING]).
  { unfold w1. rewrite history_logged, history_answered.
    by rewrite <- !app_assoc. }
  exists w1. split; [exact Hrestart|]. split; [exact Hh1|].
  split; [exact Hdev1|]. split; [exact Hpoll1|].
  intros d2 ds' ps2 s rest' access_token refresh_token token_type expires_in
         -> Hs2 -> Hpending2 Hgrant Hfuel2.
  set (w' := logged (ToScreen "Authorization successful")
               (answered d2 ds' ps2 s rest' w1)).
  assert (Hh' : history w' =
                  history w1 ++ opening d2
                    ++ flat_map (pending_round (session_device_code d2)
                                   (session_interval d2)) ps2
                    ++ poll_round (session_device_code d2) s
                    ++ [ToScreen "Authorization successful"]).
  { unfold w'. rewrite history_logged, history_answered. by rewrite <- !app_assoc. }
  exists w'. split; [|split; [exact Hh'|]].
  - rewrite Hrestart.
    apply (authorize_grant _ _ _ _ _ _ Hdev1 Hs2 Hpoll1 Hpending2 _ _ _ _ _
             Hgrant Hfuel2).
  - rewrite Hh', Hh1, !requests_to_app.
    rewrite !requests_to_opening, !requests_to_pending_rounds,
      !requests_to_poll_round.
    rewrite !requests_to_other by done.
    repeat case_decide; try discriminate; try congruence.
    rewrite !app_nil_r. by rewrite <- app_assoc.
Qed.

Lemma authorize_restarts_on_expired_token_witness :
  (exists w' : World,
     fst (authorize 3 world_expired_once) =
       Return (list_to_map [("access_token", VStr "ACCESS");
                            ("expires", VNum (now w' + 3600));
                            ("refresh_token", VStr "REFRESH");
                            ("token_type", VStr "Bearer")])
     /\ requests_to DEVICE_CODE_URL (history w') =
          [device_code_request; device_code_request])
  /\ (exists w' : World,
        fst (authorize 4 world_expired_after_pending) =
          Return (list_to_map [("access_token", VStr "ACCESS");
                               ("expires", VNum (now w' + 3600));
                               ("refresh_token", VStr "REFRESH");
                               ("token_type", VStr "Bearer")])
        /\ requests_to DEVICE_CODE_URL (history w') =
             [device_code_request; device_code_request]).
Proof.
  split.
  - destruct (authorize_restarts_on_expired_token 2 world_expired_once
                sample_session [sample_session] [] sample_expired [sample_grant])
      as (w1 & _ & _ & _ & _ & Hgranted).
    + by_compute.
    + repeat split; by_compute.
    + by_compute.
    + constructor.
    + by_compute.
    + simpl. lia.
    + destruct (Hgranted sample_session [] [] sample_grant []
                  (VStr "ACCESS") (VStr "REFRESH") (VStr "Bearer") 3600)
        as (w' & Hrun & _ & Hreq).
      * reflexivity.
      * repeat split; by_compute.
      * reflexivity.
      * constructor.
      * repeat split; by_compute.
      * simpl. lia.
      * exists w'. split; [by rewrite Hrun | exact Hreq].
  - destruct (authorize_restarts_on_expired_token 3 world_expired_after_pending
                sample_session [sample_session] [sample_pending] sample_expired
                [sample_pending; sample_grant])
      as (w1 & _ & _ & _ & _ & Hgranted).
    + by_compute.
    + repeat split; by_compute.
    + by_compute.
    + repeat constructor.
    + by_compute.
    + simpl. lia.
    + destruct (Hgranted sample_session [] [sample_pending] sample_grant []
                  (VStr "ACCESS") (VStr "REFRESH") (VStr "Bearer") 3600)
        as (w' & Hrun & _ & Hreq).
      * reflexivity.
      * repeat split; by_compute.
      * reflexivity.
      * repeat constructor.
      * repeat split; by_compute.
      * simpl. lia.
      * exists w'. split; [by rewrite Hrun | exact Hreq].
Defined.

(** C6: an answer of the token endpoint whose [error] is neither
    "authorization_pending" nor "expired_token" makes [authorize] raise
    [ExtractorError] with the message "Unhandled OAuth2 Error: " followed by
    the error code as it was received; no record is returned and none is
    stored. *)
Theorem authorize_raises_on_other_error (fuel : nat) (w : World) (d : reply)
    (ds ps : list reply) (x : reply) (rest : list reply) (error : value) :
  server w !! DEVICE_CODE_URL = Some (d :: ds) ->
  device_session d ->
  server w !! POLL_URL = Some (ps ++ x :: rest) ->
  Forall is_pending ps ->
  body x !! "error" = Some error ->
  truthy error = true ->
  error <> VStr "authorization_pending" ->
  error <> VStr "expired_token" ->
  (length ps + 2 <= fuel)%nat ->
  exists w' : World,
    authorize fuel w =
      (Raise (ExtractorError ("Unhandled OAuth2 Error: " +:+ py_str error)), w')
    /\ (forall record : dict, fst (authorize fuel w) <> Return record)
    /\ _TOKEN_DATA w' = _TOKEN_DATA w
    /\ cache w' = cache w
    /\ requests_to DEVICE_CODE_URL (history w') =
         requests_to DEVICE_CODE_URL (history w) ++ [device_code_request].
Proof.
  intros Hdev Hsession Hpoll Hpending He Ht Hp Hx Hfuel.
  pose proof (authorize_fatal _ _ _ _ _ _ Hdev Hsession Hpoll Hpending _ _
                He Ht Hp Hx Hfuel) as Hrun.
  exists (answered d ds ps x rest w). split; [exact Hrun|].
  split; [by rewrite Hrun|].
  destruct (answered_memory d ds ps x rest w) as [Hm Hc].
  split; [exact Hm|]. split; [exact Hc|].
  rewrite history_answered, !requests_to_app.
  rewrite requests_to_opening, requests_to_pending_rounds, requests_to_poll_round.
  repeat case_decide; try discriminate; try congruence.
  by rewrite !app_nil_r.
Qed.

Lemma authorize_raises_on_other_error_witness :
  fst (authorize 3 world_denied) =
    Raise (ExtractorError "Unhandled OAuth2 Error: access_denied").
Proof.
  destruct (authorize_raises_on_other_error 3 world_denied
              sample_session [] [sample_pending] sample_denied []
              (VStr "access_denied"))
    as (w' & Hrun & _).
  - by_compute.
  - repeat split; by_compute.
  - by_compute.
  - repeat constructor.
  - by_compute.
  - reflexivity.
  - discriminate.
  - discriminate.
  - simpl. lia.
  - by rewrite Hrun.
Defined.

(** ** Token refresher *)

(** The world once the refresh request was answered by [r]. *)
Lemma refresh_token_unfold (fuel : nat) (rt : value) (w : World) (r : reply)
    (rs : list reply) :
  server w !! REFRESH_URL = Some (r :: rs) ->
  refresh_token fuel rt w =
    (let error := traverse_obj (body r) "error" in
     if truthy error then
       report_warning ("Failed to refresh access token: " +:+ py_str error
                       +:+ ". Restarting authorization flow");;;
       authorize fuel
     else
       access_token <- getitem (body r) "access_token";;
       t <- utcnow;;
       expires_in <- getitem (body r) "expires_in";;
       expires <- add_num t expires_in;;
       token_type <- getitem (body r) "token_type";;
       ret (list_to_map
              [("access_token", access_token);
               ("expires", VNum expires);
               ("token_type", token_type);
               ("refresh_token", dict_get (body r) "refresh_token" rt)]))
    (refreshed rt r rs w).
Proof.
  intros Hsrv. unfold refresh_token.
  rewrite (bind_Return _ _ _ _ _ (download_json_reply _ _ _ _ _ _ _ Hsrv)).
  reflexivity.
Qed.

Lemma refresh_token_renewed (fuel : nat) (rt : value) (w : World) (r : reply)
    (rs : list reply) (access_token token_type : value) (expires_in : Z) :
  server w !! REFRESH_URL = Some (r :: rs) ->
  truthy (traverse_obj (body r) "error") = false ->
  body r !! "access_token" = Some access_token ->
  body r !! "token_type" = Some token_type ->
  body r !! "expires_in" ≫= as_num = Some expires_in ->
  refresh_token fuel rt w =
    (Return (list_to_map
               [("access_token", access_token);
                ("expires", VNum (now w + latency r + expires_in));
                ("token_type", token_type);
                ("refresh_token", default rt (body r !! "refresh_token"))]),
     refreshed rt r rs w).
Proof.
  intros Hsrv Herr Hat Htt Hei.
  destruct (body r !! "expires_in") as [ei|] eqn:E; [|discriminate].
  simpl in Hei.
  rewrite (refresh_token_unfold _ _ _ _ _ Hsrv). cbv zeta. rewrite Herr.
  rewrite (bind_Return _ _ _ _ _ (getitem_Some _ _ _ _ Hat)).
  unfold bind at 1, utcnow at 1.
  rewrite (bind_Return _ _ _ _ _ (getitem_Some _ _ _ _ E)).
  unfold add_num. rewrite Hei. unfold bind at 1, ret at 1.
  rewrite (bind_Return _ _ _ _ _ (getitem_Some _ _ _ _ Htt)).
  reflexivity.
Qed.

Lemma refresh_token_rejected (fuel : nat) (rt : value) (w : World) (r : reply)
    (rs : list reply) (error : value) :
  server w !! REFRESH_URL = Some (r :: rs) ->
  body r !! "error" = Some error ->
  truthy error = true ->
  refresh_token fuel rt w =
    authorize fuel
      (logged (ReportWarning ("Failed to refresh access token: " +:+ py_str error
                              +:+ ". Restarting authorization flow"))
              (refreshed rt r rs w)).
Proof.
  intros Hsrv He Ht.
  assert (Herr : traverse_obj (body r) "error" = error)
    by (unfold traverse_obj; by rewrite He).
  rewrite (refresh_token_unfold _ _ _ _ _ Hsrv). cbv zeta.
  rewrite Herr, Ht. reflexivity.
Qed.

(** C7: on an answer without [error], [refresh_token] returns the record
    made of the answer's [access_token] and [token_type], of [expires] = the
    time the answer arrived + the answer's [expires_in], and of the answer's
    [refresh_token] when it has one, the argument otherwise. Nothing else is
    requested, and no fuel is needed. *)
Theorem refresh_token_builds_record (fuel : nat) (rt : value) (w : World)
    (r : reply) (rs : list reply) (access_token token_type : value)
    (expires_in : Z) :
  server w !! REFRESH_URL = Some (r :: rs) ->
  body r !! "error" = None ->
  body r !! "access_token" = Some access_token ->
  body r !! "token_type" = Some token_type ->
  body r !! "expires_in" ≫= as_num = Some expires_in ->
  exists (record : dict) (w' : World),
    refresh_token fuel rt w = (Return record, w')
    /\ history w' = history w ++ [refresh_request rt]
    /\ now w' = now w + latency r
    /\ record !! "access_token" = Some access_token
    /\ record !! "token_type" = Some token_type
    /\ record !! "expires" = Some (VNum (now w' + expires_in))
    /\ record !! "refresh_token" =
         Some (match body r !! "refresh_token" with
               | Some rotated => rotated
               | None => rt
               end)
    /\ dom record = list_to_set REQUIRED_KEYS.
Proof.
  intros Hsrv Herr Hat Htt Hei.
  eexists _, _. split.
  - apply (refresh_token_renewed fuel rt w r rs access_token token_type
             expires_in Hsrv); [|done..].
    unfold traverse_obj. by rewrite Herr.
  - split; [reflexivity|]. split; [reflexivity|].
    split; [by simplify_map_eq|]. split; [by simplify_map_eq|].
    split; [by simplify_map_eq|]. split.
    + simplify_map_eq. by destruct (body r !! "refresh_token").
    + unfold REQUIRED_KEYS. simpl. rewrite !dom_insert_L, dom_empty_L.
      set_solver.
Qed.

Lemma refresh_token_builds_record_witness :
  exists (record : dict) (w' : World),
    refresh_token 0 (VStr "OLD") world_renewal = (Return record, w')
    /\ record !! "access_token" = Some (VStr "ACCESS2")
    /\ record !! "expires" = Some (VNum (1003 + 3599))
    /\ record !! "refresh_token" = Some (VStr "OLD").
Proof.
  destruct (refresh_token_builds_record 0 (VStr "OLD") world_renewal
              sample_renewal []
              (VStr "ACCESS2") (VStr "Bearer") 3599)
    as (record & w' & Hrun & _ & Hnow & Hat & _ & Hexp & Hrt & _);
    [by_compute..|].
  exists record, w'. split; [exact Hrun|]. split; [exact Hat|].
  split; [by rewrite Hexp, Hnow | exact Hrt].
Defined.

(** C8, as the code has it: when the answer to a refresh carries an [error]
    that is truthy (a non-empty code such as "invalid_grant"),
    [refresh_token] reports the warning "Failed to refresh access token:
    <error>. Restarting authorization flow", then runs [authorize] and
    returns whatever it returns (a record, or the exception [authorize]
    raises); the refusal itself raises nothing. *)
Theorem refresh_token_falls_back_to_authorize (fuel : nat) (rt : value)
    (w : World) (r : reply) (rs : list reply) (error : value) :
  server w !! REFRESH_URL = Some (r :: rs) ->
  body r !! "error" = Some error ->
  truthy error = true ->
  exists w1 : World,
    refresh_token fuel rt w = authorize fuel w1
    /\ history w1 =
         history w
           ++ [refresh_request rt;
               ReportWarning ("Failed to refresh access token: " +:+ py_str error
                              +:+ ". Restarting authorization flow")]
    /\ server w1 = <[REFRESH_URL := rs]> (server w)
    /\ _TOKEN_DATA w1 = _TOKEN_DATA w
    /\ cache w1 = cache w.
Proof.
  intros Hsrv He Ht. eexists. split.
  - apply (refresh_token_rejected _ _ _ _ _ _ Hsrv He Ht).
  - split; [|done]. unfold history. simpl. by rewrite <- app_assoc.
Qed.

Lemma refresh_token_falls_back_to_authorize_witness :
  exists w1 : World,
    refresh_token 2 (VStr "OLD") world_refusal = authorize 2 w1
    /\ warnings (history w1) =
         ["Failed to refresh access token: invalid_grant. Restarting authorization flow"]
    /\ fst (authorize 2 w1) =
         Return (list_to_map [("access_token", VStr "ACCESS");
                              ("expires", VNum 4609);
                              ("refresh_token", VStr "REFRESH");
                              ("token_type", VStr "Bearer")]).
Proof.
  destruct (refresh_token_falls_back_to_authorize 2 (VStr "OLD") world_refusal
              sample_refusal [] (VStr "invalid_grant"))
    as (w1 & Hrun & Hh & _); [by_compute | by_compute | reflexivity |].
  exists w1. split; [exact Hrun|]. split.
  - rewrite Hh. by_compute.
  - rewrite <- Hrun. by_compute.
Defined.

(** C8, as stated, fails on an answer whose [error] field is present and
    empty: the code takes it for a renewal, warns of nothing and never asks
    the device-code endpoint. *)
Lemma refresh_token_blank_error_is_renewal :
  is_Some (body sample_blank_error !! "error")
  /\ fst (refresh_token 2 (VStr "OLD") world_blank_error) =
       Return (list_to_map [("access_token", VStr "ACCESS2");
                            ("expires", VNum 4602);
                            ("token_type", VStr "Bearer");
                            ("refresh_token", VStr "OLD")])
  /\ warnings (history (snd (refresh_token 2 (VStr "OLD") world_blank_error))) = []
  /\ requests_to DEVICE_CODE_URL
       (history (snd (refresh_token 2 (VStr "OLD") world_blank_error))) = []
  /\ refresh_token 2 (VStr "OLD") world_blank_error <>
       authorize 2
         (logged (ReportWarning ("Failed to refresh access token: "
                                 +:+ ". Restarting authorization flow"))
                 (refreshed (VStr "OLD") sample_blank_error [] world_blank_error)).
Proof. repeat split; by_compute. Qed.

(** *** What the flows send, and where *)

Section NoRequest.
Variable url : string.

Lemma no_request_pure {A} (m : M A) :
  (forall w, trace (snd (m w)) = trace w) -> adds_no_request url m.
Proof.
  intros H w. exists []. unfold history. rewrite H, app_nil_r. done.
Qed.

Lemma no_request_ret {A} (a : A) : adds_no_request url (ret a).
Proof. by apply no_request_pure. Qed.

Lemma no_request_raise {A} (e : exn) : adds_no_request url (@raise A e).
Proof. by apply no_request_pure. Qed.

Lemma no_request_lift {A} (o : outcome A) : adds_no_request url (lift o).
Proof. by apply no_request_pure. Qed.

Lemma no_request_getitem (d : dict) (k : string) :
  adds_no_request url (getitem d k).
Proof.
  apply no_request_pure. intros w. unfold getitem. by destruct (d !! k).
Qed.

Lemma no_request_utcnow : adds_no_request url utcnow.
Proof. by apply no_request_pure. Qed.

Lemma no_request_add_num (a : Z) (v : value) : adds_no_request url (add_num a v).
Proof.
  apply no_request_pure. intros w. unfold add_num. by destruct (as_num v).
Qed.

Lemma no_request_http (u : string) : adds_no_request url (http u).
Proof.
  apply no_request_pure. intros w. unfold http.
  by destruct (server w !! u) as [[|r rs]|].
Qed.

Lemma no_request_bind {A B} (m : M A) (k : A -> M B) :
  adds_no_request url m -> (forall a, adds_no_request url (k a)) ->
  adds_no_request url (bind m k).
Proof.
  intros Hm Hk w. unfold bind. destruct (Hm w) as (tr1 & H1 & Hq1).
  destruct (m w) as [[a| e |] w1]; simpl in H1.
  - destruct (Hk a w1) as (tr2 & H2 & Hq2). exists (tr1 ++ tr2).
    rewrite H2, H1, requests_to_app, Hq1, Hq2. by rewrite <- app_assoc.
  - by exists tr1.
  - by exists tr1.
Qed.

Lemma no_request_emit (e : event) :
  request_url e <> Some url -> adds_no_request url (emit e).
Proof.
  intros He w. exists [e]. split; [reflexivity|].
  unfold requests_to. by rewrite filter_cons_False.
Qed.

Lemma no_request_time_sleep (v : value) : adds_no_request url (time_sleep v).
Proof.
  unfold time_sleep. destruct (as_num v) as [d|]; [|apply no_request_raise].
  destruct (d <? 0); [apply no_request_raise|].
  intros w. exists [Sleep d]. split; [reflexivity|]. done.
Qed.

Lemma no_request_download_json (u note : string) (data hs : dict) :
  u <> url -> adds_no_request url (_download_json u note data hs).
Proof.
  intros Hne. unfold _download_json. apply no_request_bind.
  - apply no_request_emit. simpl. congruence.
  - intros _. apply no_request_http.
Qed.

Lemma no_request_execute_request (u method : string) (hs data : dict) :
  u <> url -> adds_no_request url (_execute_request u method hs data).
Proof.
  intros Hne. unfold _execute_request.
  destruct (startswith (lower u) "http"); [|apply no_request_raise].
  apply no_request_bind.
  { unfold urllib_Request.
    destruct (request_type u); [apply no_request_ret | apply no_request_raise]. }
  intros _. apply no_request_bind.
  - apply no_request_emit. simpl. congruence.
  - intros _. apply no_request_http.
Qed.

Lemma no_request_authorized_record (token_response : dict) :
  adds_no_request url (authorized_record token_response).
Proof.
  unfold authorized_record.
  repeat (apply no_request_bind; [|intros ?]);
    auto using no_request_getitem, no_request_utcnow, no_request_add_num,
      no_request_ret.
Qed.

(** A request through [_download_json] comes first in what follows it. *)
Lemma first_request {A} (u note : string) (data hs : dict) (k : dict -> M A) :
  (forall resp, adds_no_request url (k resp)) ->
  forall w : World,
    exists tr : list event,
      history (snd (bind (_download_json u note data hs) k w)) =
        history w ++ DownloadJson u note data hs :: tr
      /\ requests_to url tr = [].
Proof.
  intros Hk w. unfold _download_json.
  unfold bind at 1. unfold bind at 1. unfold emit at 1. unfold http at 1.
  cbn [server].
  destruct (server w !! u) as [[|r rs]|]; try (by exists []).
  match goal with
  | |- context [k (body r) ?w1] => destruct (Hk (body r) w1) as (tr & Htr & Hq)
  end.
  exists tr. split; [|exact Hq].
  rewrite Htr. unfold history. simpl. by rewrite <- app_assoc.
Qed.

Hypothesis Hdevice : DEVICE_CODE_URL <> url.
Hypothesis Hpoll : POLL_URL <> url.

Lemma no_request_poll (restart : M dict) (response_data : dict) (fuel : nat) :
  adds_no_request url restart ->
  adds_no_request url (poll restart response_data fuel).
Proof.
  intros Hrestart. induction fuel as [|fuel IH]; [apply no_request_lift|].
  simpl poll.
  apply no_request_bind; [apply no_request_getitem | intros device_code].
  apply no_request_bind; [by apply no_request_execute_request | intros resp].
  apply no_request_bind; [by apply no_request_emit | intros _].
  apply no_request_bind; [by apply no_request_emit | intros _].
  destruct (truthy (traverse_obj resp "error")).
  - destruct (bool_decide _).
    + apply no_request_bind; [apply no_request_getitem | intros interval].
      apply no_request_bind; [apply no_request_time_sleep | intros _].
      exact IH.
    + destruct (bool_decide _).
      * apply no_request_bind; [by apply no_request_emit | intros _]. exact Hrestart.
      * apply no_request_raise.
  - apply no_request_bind; [by apply no_request_emit | intros _].
    apply no_request_authorized_record.
Qed.

Lemma no_request_authorize (fuel : nat) : adds_no_request url (authorize fuel).
Proof.
  induction fuel as [|fuel IH]; [apply no_request_lift|].
  simpl authorize.
  apply no_request_bind; [by apply no_request_download_json | intros rd].
  apply no_request_bind; [apply no_request_getitem | intros vurl].
  apply no_request_bind; [apply no_request_getitem | intros ucode].
  apply no_request_bind; [by apply no_request_emit | intros _].
  apply no_request_bind; [apply no_request_getitem | intros interval].
  apply no_request_bind; [by apply no_request_emit | intros _].
  apply no_request_bind; [apply no_request_getitem | intros interval'].
  apply no_request_bind; [apply no_request_time_sleep | intros _].
  by apply no_request_poll.
Qed.
End NoRequest.

(** C9, as the code has it: [refresh_token] sends exactly one request to the
    refresh endpoint, before anything else it does; it is a POST to
    https://www.youtube.com/o/oauth2/token with the JSON body [client_id],
    [client_secret], [refresh_token] (the argument) and
    [grant_type = "refresh_token"], under the header that marks the plugin's
    own requests. *)
Theorem refresh_token_request (fuel : nat) (rt : value) (w : World) :
  exists tr : list event,
    history (snd (refresh_token fuel rt w)) = history w ++ refresh_request rt :: tr
    /\ requests_to REFRESH_URL tr = []
    /\ request_url (refresh_request rt) = Some "https://www.youtube.com/o/oauth2/token"
    /\ request_method (refresh_request rt) = Some "POST"
    /\ request_data (refresh_request rt) =
         Some (list_to_map [("client_id", VStr _CLIENT_ID);
                            ("client_secret", VStr _CLIENT_SECRET);
                            ("refresh_token", rt);
                            ("grant_type", VStr "refresh_token")])
    /\ refresh_request_headers !! OAUTH_MARKER = Some (VBool true).
Proof.
  assert (Hsplit : exists tr,
            history (snd (refresh_token fuel rt w)) =
              history w ++ refresh_request rt :: tr
            /\ requests_to REFRESH_URL tr = []).
  { unfold refresh_token. apply first_request. intros resp. cbv zeta.
    destruct (truthy _).
    - apply no_request_bind; [by apply no_request_emit | intros _].
      apply no_request_authorize; apply urls_distinct.
    - repeat (apply no_request_bind; [|intros ?]);
        auto using no_request_getitem, no_request_utcnow, no_request_add_num,
          no_request_ret. }
  destruct Hsplit as (tr & Htr & Hq).
  exists tr. repeat split; done.
Qed.

(** C9, as stated, fails: the refresh request does not go to
    https://oauth2.googleapis.com/token. *)
Lemma refresh_token_request_not_googleapis :
  history (snd (refresh_token 0 (VStr "OLD") world_renewal)) =
    [refresh_request (VStr "OLD")]
  /\ request_url (refresh_request (VStr "OLD")) <>
       Some "https://oauth2.googleapis.com/token"
  /\ requests_to "https://oauth2.googleapis.com/token"
       (history (snd (refresh_token 0 (VStr "OLD") world_renewal))) = [].
Proof. repeat split; by_compute. Qed.

(** ** Token lifecycle manager *)

Lemma get_token_loaded (w : World) :
  get_token w = (Return (loaded w), remembered w).
Proof. unfold get_token, loaded, remembered. by destruct (truthy_obj _). Qed.

Lemma remembered_same (w : World) :
  now (remembered w) = now w
  /\ server (remembered w) = server w
  /\ history (remembered w) = history w
  /\ _TOKEN_DATA (remembered w) = loaded w.
Proof.
  unfold remembered, loaded, history.
  destruct (truthy_obj (_TOKEN_DATA w)); done.
Qed.

Lemma store_token_stored (token_data : dict) (w : World) :
  store_token token_data w = (Return tt, stored token_data w).
Proof. reflexivity. Qed.

Lemma bind_assoc {A B C} (m : M A) (f : A -> M B) (g : B -> M C) (w : World) :
  bind (bind m f) g w = bind m (fun a => bind (f a) g) w.
Proof. unfold bind. by destruct (m w) as [[a|e|] w']. Qed.

Lemma bind_ext {A B} (m : M A) (f g : A -> M B) (w : World) :
  (forall a w', f a w' = g a w') -> bind m f w = bind m g w.
Proof. intros H. unfold bind. destruct (m w) as [[a|e|] w']; [apply H|done..]. Qed.

(** [initialize_oauth] keeps a usable record and otherwise authorizes, with a
    warning when the record it drops is not empty; then comes the expiry
    check. *)
Lemma initialize_oauth_unfold (fuel : nat) (w : World) :
  initialize_oauth fuel w =
    if usable (loaded w) then refresh_if_expired fuel (loaded w) (remembered w)
    else
      (token_data <- authorize fuel;;
       store_token token_data;;;
       refresh_if_expired fuel (Some token_data))
        (if truthy_obj (loaded w)
         then logged (ReportWarning "Invalid cached OAuth2 token data")
                     (remembered w)
         else remembered w).
Proof.
  assert (Hauth : forall w1 : World,
    bind (bind (authorize fuel)
            (fun token_data =>
               bind (store_token token_data) (fun _ => ret (Some token_data))))
         (refresh_if_expired fuel) w1 =
    bind (authorize fuel)
         (fun token_data =>
            bind (store_token token_data)
                 (fun _ => refresh_if_expired fuel (Some token_data))) w1).
  { intros w1. rewrite bind_assoc. apply bind_ext. intros; reflexivity. }
  unfold initialize_oauth.
  rewrite (bind_Return _ _ _ _ _ (get_token_loaded w)).
  unfold usable. destruct (loaded w) as [d|].
  - destruct (truthy_obj (Some d)) eqn:Et.
    + unfold validate_token_data.
      destruct (forallb _ REQUIRED_KEYS) eqn:Ev.
      * erewrite bind_Return by reflexivity. rewrite Et.
        erewrite bind_Return by reflexivity. reflexivity.
      * erewrite bind_Return by reflexivity.
        etransitivity; [|apply Hauth]. reflexivity.
    + erewrite bind_Return by reflexivity. rewrite Et.
      etransitivity; [|apply Hauth]. reflexivity.
  - erewrite bind_Return by reflexivity.
    etransitivity; [|apply Hauth]. reflexivity.
Qed.

Lemma refresh_if_expired_current (fuel : nat) (token_data : dict) (e : Z)
    (w : World) :
  expires_of token_data = Some e ->
  now w + 60 <= e ->
  refresh_if_expired fuel (Some token_data) w = (Return (Some token_data), w).
Proof.
  unfold expires_of. intros He Hle.
  destruct (token_data !! "expires") as [v|] eqn:Ev; [|discriminate].
  simpl in He. unfold refresh_if_expired, getitem_obj.
  rewrite (bind_Return _ _ _ _ _ (getitem_Some _ _ _ _ Ev)).
  unfold bind at 1, utcnow at 1. unfold lt_num. rewrite He.
  unfold bind at 1, ret at 1.
  destruct (e <? now w + 60) eqn:E; [lia | reflexivity].
Qed.

Lemma refresh_if_expired_stale (fuel : nat) (token_data : dict) (e : Z)
    (rt : value) (w : World) :
  expires_of token_data = Some e ->
  e < now w + 60 ->
  token_data !! "refresh_token" = Some rt ->
  refresh_if_expired fuel (Some token_data) w =
    (renewed <- refresh_token fuel rt;;
     store_token renewed;;;
     ret (Some renewed))
      (logged (ToScreen "Access token expired, refreshing") w).
Proof.
  unfold expires_of. intros He Hlt Hrt.
  destruct (token_data !! "expires") as [v|] eqn:Ev; [|discriminate].
  simpl in He. unfold refresh_if_expired, getitem_obj.
  rewrite (bind_Return _ _ _ _ _ (getitem_Some _ _ _ _ Ev)).
  unfold bind at 1, utcnow at 1. unfold lt_num. rewrite He.
  unfold bind at 1, ret at 1.
  destruct (e <? now w + 60) eqn:E; [|lia].
  unfold bind at 1, to_screen at 1, emit at 1.
  erewrite bind_Return by (apply getitem_Some; exact Hrt).
  reflexivity.
Qed.

Lemma validate_authorized (a e r t : value) :
  validate_token_data
    (Some (list_to_map [("access_token", a); ("expires", e);
                        ("refresh_token", r); ("token_type", t)]))
  = Return true.
Proof.
  apply validate_Some_true. unfold REQUIRED_KEYS.
  repeat constructor; simplify_map_eq; eauto.
Qed.

Lemma validate_renewed (a e r t : value) :
  validate_token_data
    (Some (list_to_map [("access_token", a); ("expires", e);
                        ("token_type", t); ("refresh_token", r)]))
  = Return true.
Proof.
  apply validate_Some_true. unfold REQUIRED_KEYS.
  repeat constructor; simplify_map_eq; eauto.
Qed.

Lemma usable_Some (o : option dict) :
  usable o = true ->
  exists token_data : dict,
    o = Some token_data /\ validate_token_data (Some token_data) = Return true.
Proof.
  unfold usable. intros H. apply andb_true_iff in H as [Ht Hv].
  destruct o as [d|]; [|discriminate]. exists d. split; [done|].
  simpl in *. by rewrite Hv.
Qed.

(** The device flow, where the server behaves, ends with a record of valid
    shape that is good for a minute at least, and asks nothing of the refresh
    endpoint. *)
Lemma authorize_grants (fuel : nat) (w : World) (ps : list reply) :
  device_flow_grants w ps ->
  (length ps + 2 <= fuel)%nat ->
  exists (token_data : dict) (w' : World) (e : Z),
    authorize fuel w = (Return token_data, w')
    /\ validate_token_data (Some token_data) = Return true
    /\ expires_of token_data = Some e
    /\ now w' + 60 <= e
    /\ now w <= now w'
    /\ _TOKEN_DATA w' = _TOKEN_DATA w
    /\ requests_to REFRESH_URL (history w') = requests_to REFRESH_URL (history w).
Proof.
  intros (d & ds & s & rest & a & r & t & ei & Hdev & Hsession & Hpoll & Hpending
          & Hgrant & Hei & Hd & Hps & Hs) Hfuel.
  eexists _, _, _. split.
  { apply (authorize_grant _ _ _ _ _ _ Hdev Hsession Hpoll Hpending _ _ _ _ _
             Hgrant Hfuel). }
  split; [apply validate_authorized|].
  split; [unfold expires_of; by simplify_map_eq|].
  split; [simpl; lia|].
  split; [apply (answered_now _ _ _ _ _ _ Hsession Hd Hps Hs)|].
  split; [apply answered_memory|].
  rewrite history_logged, history_answered, !requests_to_app.
  rewrite requests_to_opening, requests_to_pending_rounds, requests_to_poll_round.
  rewrite requests_to_other by done.
  repeat case_decide; try discriminate. by rewrite !app_nil_r.
Qed.

Lemma device_flow_grants_elsewhere (w w1 : World) (ps : list reply) :
  server w1 !! DEVICE_CODE_URL = server w !! DEVICE_CODE_URL ->
  server w1 !! POLL_URL = server w !! POLL_URL ->
  device_flow_grants w ps -> device_flow_grants w1 ps.
Proof.
  intros H1 H2 (d & ds & s & rest & a & r & t & ei & Hdev & Hrest).
  exists d, ds, s, rest, a, r, t, ei. rewrite H1, H2. by split.
Qed.

Lemma history_stored (token_data : dict) (w : World) :
  history (stored token_data w) =
    history w ++ [CacheStore "youtube-oauth2" "token_data" token_data].
Proof. reflexivity. Qed.

Lemma history_refreshed (rt : value) (r : reply) (rs : list reply) (w : World) :
  history (refreshed rt r rs w) = history w ++ [refresh_request rt].
Proof. reflexivity. Qed.

Lemma requests_to_refresh_request (rt : value) :
  requests_to REFRESH_URL [refresh_request rt] = [refresh_request rt].
Proof. unfold requests_to. by rewrite filter_cons_True. Qed.

Lemma stale_usable (w : World) (token_data : dict) (e : Z) :
  loaded w = Some token_data ->
  usable (Some token_data) = true ->
  expires_of token_data = Some e ->
  stale w = (e <? now w + 60).
Proof.
  intros Hl Hu He. unfold stale. rewrite Hl, Hu. simpl. by rewrite He.
Qed.

Lemma stale_unusable (w : World) : usable (loaded w) = false -> stale w = false.
Proof. intros Hu. unfold stale. by rewrite Hu. Qed.

(** The unusable start: authorize, store, and the expiry check finds the new
    record current. *)
Lemma authorize_store_current (fuel : nat) (w : World) (ps : list reply) :
  device_flow_grants w ps ->
  (length ps + 2 <= fuel)%nat ->
  exists (token_data : dict) (w' : World) (e : Z),
    (token_data <- authorize fuel;;
     store_token token_data;;;
     refresh_if_expired fuel (Some token_data)) w
    = (Return (Some token_data), w')
    /\ validate_token_data (Some token_data) = Return true
    /\ expires_of token_data = Some e
    /\ now w' + 60 <= e
    /\ now w <= now w'
    /\ _TOKEN_DATA w' = Some token_data
    /\ requests_to REFRESH_URL (history w') = requests_to REFRESH_URL (history w).
Proof.
  intros Hflow Hfuel.
  destruct (authorize_grants fuel w ps Hflow Hfuel)
    as (td & w2 & e & Hrun & Hv & He & Hle & Hnow & _ & Hreq).
  exists td, (stored td w2), e.
  split.
  { rewrite (bind_Return _ _ _ _ _ Hrun).
    rewrite (bind_Return _ _ _ _ _ (store_token_stored td w2)).
    by apply (refresh_if_expired_current _ _ e). }
  repeat split; try done.
  rewrite history_stored, requests_to_app, requests_to_other by done.
  by rewrite app_nil_r.
Qed.

(** The stale start: refresh (or authorize, when the refresh is refused) and
    store. *)
Lemma refresh_store_current (fuel : nat) (rt : value) (w : World)
    (ps : list reply) :
  device_flow_grants w ps ->
  refresh_answers w ->
  (length ps + 2 <= fuel)%nat ->
  exists (token_data : dict) (w' : World) (e : Z),
    (renewed <- refresh_token fuel rt;;
     store_token renewed;;;
     ret (Some renewed)) w
    = (Return (Some token_data), w')
    /\ validate_token_data (Some token_data) = Return true
    /\ expires_of token_data = Some e
    /\ now w' + 60 <= e
    /\ now w <= now w'
    /\ _TOKEN_DATA w' = Some token_data
    /\ length (requests_to REFRESH_URL (history w')) =
         S (length (requests_to REFRESH_URL (history w))).
Proof.
  intros Hflow (r & rs & Hr & Hlat & Hanswer) Hfuel.
  destruct Hanswer as [Hrefused | (Hok & [a Ha] & [t Ht] & ei & Hei & Hmin)].
  - assert (Herr : exists error, body r !! "error" = Some error
                                 /\ truthy error = true).
    { unfold traverse_obj in Hrefused.
      destruct (body r !! "error") as [error|]; [by exists error | discriminate]. }
    destruct Herr as (error & Herr & Htruthy).
    pose proof (refresh_token_rejected fuel rt w r rs error Hr Herr Htruthy) as Hrun.
    set (w1 := logged (ReportWarning ("Failed to refresh access token: "
                                      +:+ py_str error
                                      +:+ ". Restarting authorization flow"))
                      (refreshed rt r rs w)) in Hrun.
    assert (Hflow1 : device_flow_grants w1 ps).
    { apply (device_flow_grants_elsewhere w); [| |done];
        unfold w1; simpl; apply lookup_insert_ne; apply not_eq_sym, urls_distinct. }
    destruct (authorize_grants fuel w1 ps Hflow1 Hfuel)
      as (td & w2 & e & Hauth & Hv & He & Hle & Hnow & _ & Hreq).
    rewrite <- Hrun in Hauth.
    exists td, (stored td w2), e. split.
    { rewrite (bind_Return _ _ _ _ _ Hauth). reflexivity. }
    split; [done|]. split; [done|]. split; [done|].
    split; [unfold w1 in Hnow; simpl in *; lia|]. split; [done|].
    rewrite history_stored, requests_to_app, requests_to_other by done.
    rewrite app_nil_r, Hreq. unfold w1.
    rewrite history_logged, history_refreshed, !requests_to_app.
    rewrite requests_to_refresh_request, requests_to_other by done.
    rewrite app_nil_r, length_app. simpl. lia.
  - pose proof (refresh_token_renewed fuel rt w r rs a t ei Hr Hok Ha Ht Hei)
      as Hrun.
    eexists _, (stored _ (refreshed rt r rs w)), _. split.
    { rewrite (bind_Return _ _ _ _ _ Hrun). reflexivity. }
    split; [apply validate_renewed|].
    split; [unfold expires_of; by simplify_map_eq|].
    split; [simpl; lia|]. split; [simpl; lia|]. split; [done|].
    rewrite history_stored, history_refreshed, !requests_to_app.
    rewrite requests_to_refresh_request, requests_to_other by done.
    rewrite app_nil_r, length_app. simpl. lia.
Qed.

(** C1, as the code has it: whatever is in memory and in the cache (with a
    number for [expires] in a record of valid shape), and with a server that
    behaves, [initialize_oauth] returns a record that has the four fields,
    that expires 60 seconds or more after the call returns (and after it
    began), and that is the one kept in memory. It asks the refresh endpoint
    exactly once when the loaded record is of valid shape and expires in
    less than 60 seconds, and not at all otherwise. *)
Theorem initialize_oauth_returns_current_token (fuel : nat) (w : World)
    (ps : list reply) :
  device_flow_grants w ps ->
  refresh_answers w ->
  (forall token_data : dict,
      loaded w = Some token_data -> usable (Some token_data) = true ->
      is_Some (expires_of token_data)) ->
  (length ps + 2 <= fuel)%nat ->
  exists (token_data : dict) (w' : World) (e : Z),
    initialize_oauth fuel w = (Return (Some token_data), w')
    /\ validate_token_data (Some token_data) = Return true
    /\ expires_of token_data = Some e
    /\ now w' + 60 <= e
    /\ now w + 60 <= e
    /\ _TOKEN_DATA w' = Some token_data
    /\ length (requests_to REFRESH_URL (history w')) =
         (length (requests_to REFRESH_URL (history w))
          + if stale w then 1 else 0)%nat.
Proof.
  intros Hflow Hrefresh Hnum Hfuel.
  rewrite initialize_oauth_unfold.
  destruct (remembered_same w) as (Hnow & Hsrv & Hhist & Hmem).
  destruct (usable (loaded w)) eqn:Hu.
  - destruct (usable_Some _ Hu) as (td & Hl & Hv).
    rewrite Hl in Hu. destruct (Hnum td Hl Hu) as [e He].
    rewrite (stale_usable w td e Hl Hu He), Hl.
    destruct (e <? now w + 60) eqn:Hlt.
    + apply Z.ltb_lt in Hlt.
      assert (Hrt : is_Some (td !! "refresh_token")).
      { apply validate_Some_true in Hv. rewrite Forall_forall in Hv.
        apply Hv. unfold REQUIRED_KEYS. set_solver. }
      destruct Hrt as [rt Hrt].
      rewrite (refresh_if_expired_stale fuel td e rt _ He) by (rewrite ?Hnow; done).
      set (w1 := logged (ToScreen "Access token expired, refreshing") (remembered w)).
      assert (Hflow1 : device_flow_grants w1 ps).
      { apply (device_flow_grants_elsewhere w); [| |done];
          unfold w1; simpl; by rewrite Hsrv. }
      assert (Hrefresh1 : refresh_answers w1).
      { destruct Hrefresh as (r & rs & Hr & Hrest). exists r, rs.
        split; [|done]. unfold w1. simpl. by rewrite Hsrv. }
      destruct (refresh_store_current fuel rt w1 ps Hflow1 Hrefresh1 Hfuel)
        as (td' & w' & e' & Hrun & Hv' & He' & Hle & Hnow' & Hmem' & Hreq).
      exists td', w', e'. split; [done|]. split; [done|]. split; [done|].
      split; [done|]. split; [unfold w1 in Hnow'; simpl in Hnow'; lia|].
      split; [done|]. rewrite Hreq. unfold w1.
      rewrite history_logged, Hhist, requests_to_app, requests_to_other by done.
      rewrite app_nil_r. lia.
    + apply Z.ltb_ge in Hlt.
      exists td, (remembered w), e.
      split; [apply (refresh_if_expired_current _ _ e); [done | lia]|].
      split; [done|]. split; [done|]. split; [lia|]. split; [done|].
      split; [by rewrite Hmem|]. rewrite Hhist. lia.
  - rewrite (stale_unusable w Hu).
    set (w1 := if truthy_obj (loaded w)
               then logged (ReportWarning "Invalid cached OAuth2 token data")
                           (remembered w)
               else remembered w).
    assert (Hsame : now w1 = now w /\ server w1 = server w
                    /\ requests_to REFRESH_URL (history w1) =
                         requests_to REFRESH_URL (history w)).
    { unfold w1. destruct (truthy_obj (loaded w)).
      - split; [exact Hnow|]. split; [exact Hsrv|].
        rewrite history_logged, Hhist, requests_to_app, requests_to_other by done.
        by rewrite app_nil_r.
      - by rewrite Hnow, Hsrv, Hhist. }
    destruct Hsame as (Hnow1 & Hsrv1 & Hreq1).
    assert (Hflow1 : device_flow_grants w1 ps).
    { apply (device_flow_grants_elsewhere w); [| |done]; by rewrite Hsrv1. }
    destruct (authorize_store_current fuel w1 ps Hflow1 Hfuel)
      as (td & w' & e & Hrun & Hv & He & Hle & Hnow' & Hmem' & Hreq).
    exists td, w', e. split; [done|]. split; [done|]. split; [done|].
    split; [done|]. split; [lia|]. split; [done|].
    rewrite Hreq, Hreq1. lia.
Qed.

Lemma initialize_oauth_returns_current_token_witness :
  exists (token_data : dict) (w' : World) (e : Z),
    initialize_oauth 2 world_stale_cache = (Return (Some token_data), w')
    /\ expires_of token_data = Some e
    /\ now w' + 60 <= e
    /\ length (requests_to REFRESH_URL (history w')) = 1%nat.
Proof.
  set (w := world_stale_cache).
  assert (Hl : loaded w = Some sample_stale_record) by by_compute.
  destruct (initialize_oauth_returns_current_token 2 w [])
    as (td & w' & e & Hrun & _ & He & Hle & _ & _ & Hreq).
  - exists sample_session, [], sample_grant, [],
      (VStr "ACCESS"), (VStr "REFRESH"), (VStr "Bearer"), 3600.
    split; [by_compute|]. split; [repeat split; by_compute|].
    split; [by_compute|]. split; [constructor|].
    split; [repeat split; by_compute|].
    split; [lia|]. split; [by_compute|]. split; [constructor | by_compute].
  - exists sample_renewal, []. split; [by_compute|]. split; [by_compute|].
    right. split; [by_compute|]. split; [by_compute|]. split; [by_compute|].
    exists 3599. split; [by_compute | lia].
  - intros td Htd _. rewrite Hl in Htd. injection Htd as <-. by_compute.
  - simpl. lia.
  - exists td, w', e. split; [exact Hrun|]. split; [exact He|].
    split; [exact Hle|]. rewrite Hreq.
    assert (Hs : stale w = true) by by_compute.
    assert (H0 : requests_to REFRESH_URL (history w) = []) by by_compute.
    by rewrite Hs, H0.
Defined.

(** C1, as stated, fails on a cached record that expires within 60 seconds
    but is not of valid shape: it is dropped, the device flow runs, and the
    refresh endpoint is never asked. *)
Lemma initialize_oauth_broken_record_no_refresh :
  cache world_broken_cache = Some sample_broken_record
  /\ expires_of sample_broken_record = Some 1030
  /\ 1030 < now world_broken_cache + 60
  /\ fst (initialize_oauth 2 world_broken_cache) =
       Return (Some (list_to_map [("access_token", VStr "ACCESS");
                                  ("expires", VNum 4608);
                                  ("refresh_token", VStr "REFRESH");
                                  ("token_type", VStr "Bearer")]))
  /\ requests_to REFRESH_URL
       (history (snd (initialize_oauth 2 world_broken_cache))) = []
  /\ length (requests_to REFRESH_URL
               (history (snd (initialize_oauth 2 world_broken_cache))))
     <> 1%nat.
Proof. repeat split; by_compute. Qed.

(** ** Request interceptor *)

Lemma initialize_oauth_current (fuel : nat) (w : World) (token_data : dict)
    (e : Z) :
  loaded w = Some token_data ->
  usable (Some token_data) = true ->
  expires_of token_data = Some e ->
  now w + 60 <= e ->
  initialize_oauth fuel w = (Return (Some token_data), remembered w).
Proof.
  intros Hl Hu He Hle. rewrite initialize_oauth_unfold, Hl, Hu.
  apply (refresh_if_expired_current _ _ e); [done|].
  by destruct (remembered_same w) as (-> & _).
Qed.

(** *** Header names as they are stored *)

Lemma header_contains_spec (k : string) (h : dict) :
  header_contains k h = true <-> is_Some (header_get k h).
Proof. apply contains_spec. Qed.

Lemma header_contains_false (k : string) (h : dict) :
  header_contains k h = false <-> header_get k h = None.
Proof.
  unfold header_contains, header_get, contains.
  rewrite bool_decide_eq_false, <- eq_None_not_Some. done.
Qed.

Lemma cleaned_lookup (cookie : bool) (h : dict) :
  cleaned cookie h !! "X-Goog-Pageid" = None
  /\ cleaned cookie h !! "X-Goog-Authuser" = None
  /\ cleaned cookie h !! "X-Youtube-Identity-Token" = None
  /\ cleaned cookie h !! "X-Origin" = (if cookie then None else h !! "X-Origin")
  /\ (forall k : string,
        k <> "Authorization" -> k <> "X-Origin" -> k <> "X-Goog-Pageid" ->
        k <> "X-Goog-Authuser" -> k <> "X-Youtube-Identity-Token" ->
        cleaned cookie h !! k = h !! k).
Proof.
  unfold cleaned. repeat split.
  - rewrite lookup_delete_ne by done.
    destruct cookie; rewrite ?(lookup_delete_ne _ "X-Origin"),
      ?(lookup_delete_ne _ "Authorization"), ?(lookup_delete_ne _ "X-Goog-Authuser")
      by done; apply lookup_delete_eq.
  - rewrite lookup_delete_ne by done.
    destruct cookie; rewrite ?(lookup_delete_ne _ "X-Origin"),
      ?(lookup_delete_ne _ "Authorization") by done; apply lookup_delete_eq.
  - apply lookup_delete_eq.
  - rewrite lookup_delete_ne by done.
    destruct cookie; [apply lookup_delete_eq|].
    by rewrite !lookup_delete_ne by done.
  - intros k H1 H2 H3 H4 H5.
    destruct cookie; by rewrite !lookup_delete_ne by done.
Qed.

Lemma not_cookie_header (k : string) :
  k ∉ title <$> COOKIE_HEADERS ->
  k <> "X-Origin" /\ k <> "X-Goog-Pageid" /\ k <> "X-Goog-Authuser"
  /\ k <> "X-Youtube-Identity-Token".
Proof.
  intros Hnot. repeat split; intros ->; apply Hnot; clear; by_compute.
Qed.

(** C2, as the code has it: [handle_oauth] returns the request as it came,
    and touches nothing, when the netloc of its URL (the host with the port,
    if the URL names one) does not end with "youtube.com". When it does, and
    the request carries an [Authorization] header (in any case of the name)
    while a record of valid shape that is good for 60 seconds or more is
    loaded, the user is warned, nothing is requested, and the request comes
    back with [Authorization] set to the record's [token_type], a space and
    its [access_token], without blanks around it; without [X-Origin],
    [X-Goog-PageId], [X-Goog-AuthUser] and [X-Youtube-Identity-Token]; and
    with every other header as it was, looked up under any spelling of its
    name or read under the name it is stored by. *)
Theorem handle_oauth_replaces_cookie_auth (fuel : nat) (request : Request)
    (w : World) :
  (endswith (netloc request) "youtube.com" = false ->
   handle_oauth fuel request w = (Return request, w))
  /\ (endswith (netloc request) "youtube.com" = true ->
      forall (token_data : dict) (e : Z),
        loaded w = Some token_data ->
        usable (Some token_data) = true ->
        expires_of token_data = Some e ->
        now w + 60 <= e ->
        header_contains "Authorization" (headers request) = true ->
        exists (request' : Request) (token_type access_token : value),
          token_data !! "token_type" = Some token_type
          /\ token_data !! "access_token" = Some access_token
          /\ handle_oauth fuel request w =
               (Return request', logged COOKIE_WARNING (remembered w))
          /\ netloc request' = netloc request
          /\ header_get "Authorization" (headers request') =
               Some (VStr (strip (py_str token_type +:+ " "
                                  +:+ py_str access_token)))
          /\ Forall (fun k => header_contains k (headers request') = false)
                    COOKIE_HEADERS
          /\ (forall k : string,
                title k <> title "Authorization" ->
                title k ∉ title <$> COOKIE_HEADERS ->
                header_get k (headers request') = header_get k (headers request))
          /\ (forall k : string,
                k <> title "Authorization" -> k ∉ title <$> COOKIE_HEADERS ->
                headers request' !! k = headers request !! k)).
Proof.
  split.
  - intros Hhost. unfold handle_oauth. by rewrite Hhost.
  - intros Hhost td e Hl Hu He Hle Hcookie.
    destruct (usable_Some _ Hu) as (td' & [= <-] & Hv).
    apply validate_Some_true in Hv. rewrite Forall_forall in Hv.
    destruct (Hv "token_type") as [tt Htt]; [clear; by_compute|].
    destruct (Hv "access_token") as [at' Hat]; [clear; by_compute|].
    exists (set_headers request
              (<["Authorization" := bearer tt at']> (cleaned true (headers request)))),
      tt, at'.
    split; [exact Htt|]. split; [exact Hat|].
    split.
    { unfold handle_oauth. rewrite Hhost. cbn [negb].
      rewrite (bind_Return _ _ _ _ _ (initialize_oauth_current _ _ _ _ Hl Hu He Hle)).
      assert (Hc : header_contains "Authorization"
                     (header_pop "X-Goog-AuthUser"
                        (header_pop "X-Goog-PageId" (headers request)))
                   = true).
      { apply header_contains_spec. apply header_contains_spec in Hcookie.
        unfold header_get, header_pop in *. stored_names.
        by rewrite !lookup_delete_ne by done. }
      rewrite Hc.
      erewrite bind_Return by reflexivity.
      unfold getitem_obj.
      rewrite (bind_Return _ _ _ _ _ (getitem_Some _ _ _ _ Htt)).
      rewrite (bind_Return _ _ _ _ _ (getitem_Some _ _ _ _ Hat)).
      reflexivity. }
    split; [reflexivity|].
    destruct (cleaned_lookup true (headers request))
      as (Hp & Ha & Hi & Ho & Hrest).
    unfold set_headers, COOKIE_HEADERS. cbn [headers].
    assert (Hframe : forall k : string,
              k <> title "Authorization" -> k ∉ title <$> COOKIE_HEADERS ->
              <["Authorization" := bearer tt at']> (cleaned true (headers request)) !! k
              = headers request !! k).
    { intros k Hk Hnot. stored_names.
      destruct (not_cookie_header k Hnot) as (H1 & H2 & H3 & H4).
      rewrite lookup_insert_ne by done. by apply Hrest. }
    split; [|split; [|split]].
    + unfold header_get. stored_names. apply lookup_insert_eq.
    + repeat constructor; apply header_contains_false; unfold header_get;
        stored_names; by rewrite lookup_insert_ne by done.
    + intros k Hk Hnot. by apply Hframe.
    + exact Hframe.
Qed.

Lemma handle_oauth_replaces_cookie_auth_witness :
  handle_oauth 0 sample_foreign_request world_current_cache =
    (Return sample_foreign_request, world_current_cache)
  /\ exists request' : Request,
       fst (handle_oauth 0 sample_lowercase_request world_current_cache) =
         Return request'
       /\ header_get "Authorization" (headers request') = Some (VStr "Bearer CACHED")
       /\ header_contains "X-Origin" (headers request') = false
       /\ header_contains "X-Goog-AuthUser" (headers request') = false
       /\ header_get "User-Agent" (headers request') = Some (VStr "Mozilla/5.0").
Proof.
  set (w := world_current_cache). split.
  - apply (handle_oauth_replaces_cookie_auth 0 sample_foreign_request w).
    by_compute.
  - destruct (proj2 (handle_oauth_replaces_cookie_auth 0 sample_lowercase_request w)
                eq_refl sample_current_record 4600)
      as (request' & tt & at' & Htt & Hat & Hrun & _ & Hauth & Hgone & Hkept & _);
      [by_compute | by_compute | by_compute | by_compute | by_compute |].
    assert (Htt' : tt = VStr "Bearer").
    { assert (H : sample_current_record !! "token_type" = Some (VStr "Bearer"))
        by by_compute. congruence. }
    assert (Hat' : at' = VStr "CACHED").
    { assert (H : sample_current_record !! "access_token" = Some (VStr "CACHED"))
        by by_compute. congruence. }
    subst tt at'.
    exists request'. split; [by rewrite Hrun|]. split; [exact Hauth|].
    rewrite Forall_forall in Hgone.
    split; [apply Hgone; clear; by_compute|].
    split; [apply Hgone; clear; by_compute|].
    rewrite Hkept; [clear; by_compute | discriminate |].
    clear. by_compute.
Defined.

(** C2, as stated, fails on a URL that names its port: the host of
    [https://www.youtube.com:443/] is "www.youtube.com", which ends with
    "youtube.com", but the code tests the netloc "www.youtube.com:443",
    which does not: with a cookie [Authorization] header and a valid,
    current record in the cache, the request comes back as it came, cookie
    headers included. *)
Lemma handle_oauth_skips_host_with_port :
  hostname (netloc sample_port_request) = Some "www.youtube.com"
  /\ endswith "www.youtube.com" "youtube.com" = true
  /\ header_get "Authorization" (headers sample_port_request) =
       Some (VStr "SAPISIDHASH 1_abc")
  /\ usable (loaded world_current_cache) = true
  /\ stale world_current_cache = false
  /\ handle_oauth 0 sample_port_request world_current_cache =
       (Return sample_port_request, world_current_cache)
  /\ header_contains "X-Origin" (headers sample_port_request) = true.
Proof. repeat split; by_compute. Qed.

(** ** Requests of the plugin itself *)

(** C10: a request that carries the "__youtube_oauth__" header leaves
    [_create_request] with that header removed and every other header (and
    its URL) as it was; [handle_oauth] is not run, whether or not OAuth2 is
    in use: nothing is loaded, refreshed, requested or reported. The refresh
    request of the plugin carries the header, in the arguments of the call
    and in the header dictionary built from them, where it is kept under
    the name "__Youtube_Oauth__". *)
Theorem create_request_skips_marked_requests (_use_oauth2 : bool) (fuel : nat)
    (request : Request) (w : World) :
  header_contains OAUTH_MARKER (headers request) = true ->
  exists request' : Request,
    _create_request _use_oauth2 fuel request w = (Return request', w)
    /\ netloc request' = netloc request
    /\ headers request' = header_pop OAUTH_MARKER (headers request)
    /\ header_contains OAUTH_MARKER (headers request') = false
    /\ (forall k : string,
          k <> title OAUTH_MARKER -> headers request' !! k = headers request !! k)
    /\ is_Some (refresh_request_headers !! OAUTH_MARKER)
    /\ header_contains OAUTH_MARKER
         (HTTPHeaderDict (map_to_list refresh_request_headers)) = true.
Proof.
  intros Hmark.
  exists (set_headers request (header_pop OAUTH_MARKER (headers request))).
  split.
  { unfold _create_request. rewrite Hmark.
    unfold header_pop_strict. rewrite Hmark. reflexivity. }
  split; [reflexivity|]. split; [reflexivity|].
  split; [apply header_contains_false, lookup_delete_eq|].
  split; [intros k Hk; by apply lookup_delete_ne|].
  split; [by eexists | by_compute].
Qed.

Lemma create_request_skips_marked_requests_witness :
  exists request' : Request,
    _create_request true 5 sample_marked_request world_stale_cache =
      (Return request', world_stale_cache)
    /\ headers request' = {["Content-Type" := VStr "application/json"]}.
Proof.
  destruct (create_request_skips_marked_requests true 5 sample_marked_request
              world_stale_cache)
    as (request' & Hrun & _ & Hh & _); [by_compute|].
  exists request'. split; [exact Hrun|]. rewrite Hh. by_compute.
Defined.

(** ** Further properties of the flows *)

(** *** What a flow returns *)

Lemma bind_Raise {A B} (m : M A) (k : A -> M B) (w w' : World) (e : exn) :
  m w = (Raise e, w') -> bind m k w = (Raise e, w').
Proof. intros H. unfold bind. by rewrite H. Qed.

Lemma bind_inv {A B} (m : M A) (k : A -> M B) (w w' : World) (b : B) :
  bind m k w = (Return b, w') ->
  exists (a : A) (w1 : World), m w = (Return a, w1) /\ k a w1 = (Return b, w').
Proof.
  unfold bind. destruct (m w) as [[a|e|] w1]; [eauto | discriminate..].
Qed.

Lemma returns_bind {A B} (P : B -> Prop) (m : M A) (k : A -> M B) :
  (forall a, returns_only P (k a)) -> returns_only P (bind m k).
Proof.
  intros Hk w b w' H. apply bind_inv in H as (a & w1 & _ & H).
  by apply (Hk a w1 b w').
Qed.

Lemma returns_ret {A} (P : A -> Prop) (a : A) : P a -> returns_only P (ret a).
Proof. intros Ha w a' w' [= <- _]. exact Ha. Qed.

Lemma returns_raise {A} (P : A -> Prop) (e : exn) : returns_only P (raise e).
Proof. intros w a w' H. discriminate. Qed.

Lemma returns_out_of_fuel {A} (P : A -> Prop) : returns_only P (lift OutOfFuel).
Proof. intros w a w' H. discriminate. Qed.

Lemma well_shaped_valid (token_data : dict) :
  well_shaped token_data -> validate_token_data (Some token_data) = Return true.
Proof.
  intros [Hdom _]. apply validate_Some_true. apply Forall_forall.
  intros k Hk. apply elem_of_dom. rewrite Hdom. by apply elem_of_list_to_set.
Qed.

Lemma well_shaped_expires (token_data : dict) :
  well_shaped token_data -> is_Some (expires_of token_data).
Proof. intros [_ [e He]]. unfold expires_of. rewrite He. by eexists. Qed.

Lemma well_shaped_authorized (a r t : value) (e : Z) :
  well_shaped (list_to_map [("access_token", a); ("expires", VNum e);
                            ("refresh_token", r); ("token_type", t)]).
Proof.
  split.
  - unfold REQUIRED_KEYS. simpl. rewrite !dom_insert_L, dom_empty_L. set_solver.
  - exists e. by simplify_map_eq.
Qed.

Lemma well_shaped_renewed (a r t : value) (e : Z) :
  well_shaped (list_to_map [("access_token", a); ("expires", VNum e);
                            ("token_type", t); ("refresh_token", r)]).
Proof.
  split.
  - unfold REQUIRED_KEYS. simpl. rewrite !dom_insert_L, dom_empty_L. set_solver.
  - exists e. by simplify_map_eq.
Qed.

Lemma returns_authorized_record (token_response : dict) :
  returns_only well_shaped (authorized_record token_response).
Proof.
  unfold authorized_record.
  repeat (apply returns_bind; intros ?).
  apply returns_ret, well_shaped_authorized.
Qed.

Lemma returns_poll (restart : M dict) (response_data : dict) (fuel : nat) :
  returns_only well_shaped restart ->
  returns_only well_shaped (poll restart response_data fuel).
Proof.
  intros Hrestart. induction fuel as [|fuel IH]; [apply returns_out_of_fuel|].
  simpl poll.
  repeat (apply returns_bind; intros ?).
  destruct (truthy _).
  - destruct (bool_decide _).
    + repeat (apply returns_bind; intros ?). exact IH.
    + destruct (bool_decide _).
      * apply returns_bind; intros _. exact Hrestart.
      * apply returns_raise.
  - apply returns_bind; intros _. apply returns_authorized_record.
Qed.

Lemma returns_authorize (fuel : nat) : returns_only well_shaped (authorize fuel).
Proof.
  induction fuel as [|fuel IH]; [apply returns_out_of_fuel|].
  simpl authorize. repeat (apply returns_bind; intros ?).
  by apply returns_poll.
Qed.

Lemma returns_refresh_token (fuel : nat) (rt : value) :
  returns_only well_shaped (refresh_token fuel rt).
Proof.
  unfold refresh_token. apply returns_bind; intros resp. cbv zeta.
  destruct (truthy _).
  - apply returns_bind; intros _. apply returns_authorize.
  - repeat (apply returns_bind; intros ?).
    apply returns_ret, well_shaped_renewed.
Qed.

(** Whatever the server answers, a record that [authorize] returns has the
    four fields, no other, and a number for [expires]: a token answer that
    lacks one of them makes it raise instead. *)
Theorem authorize_returns_well_shaped (fuel : nat) (w : World)
    (token_data : dict) (w' : World) :
  authorize fuel w = (Return token_data, w') ->
  well_shaped token_data
  /\ validate_token_data (Some token_data) = Return true.
Proof.
  intros H. pose proof (returns_authorize fuel _ _ _ H) as Hw.
  split; [exact Hw | by apply well_shaped_valid].
Qed.

Lemma authorize_returns_well_shaped_witness :
  well_shaped (list_to_map [("access_token", VStr "ACCESS");
                            ("expires", VNum 4620);
                            ("refresh_token", VStr "REFRESH");
                            ("token_type", VStr "Bearer")]).
Proof.
  apply (authorize_returns_well_shaped 4 world_two_pending _
           (snd (authorize 4 world_two_pending))).
  by_compute.
Defined.

(** Whatever the server answers, a record that [refresh_token] returns has
    the four fields, no other, and a number for [expires], whether it comes
    from a renewal (where the refresh token may be the old one) or from the
    device flow after a refusal. *)
Theorem refresh_token_returns_well_shaped (fuel : nat) (rt : value) (w : World)
    (token_data : dict) (w' : World) :
  refresh_token fuel rt w = (Return token_data, w') ->
  well_shaped token_data
  /\ validate_token_data (Some token_data) = Return true.
Proof.
  intros H. pose proof (returns_refresh_token fuel rt _ _ _ H) as Hw.
  split; [exact Hw | by apply well_shaped_valid].
Qed.

Lemma refresh_token_returns_well_shaped_witness :
  well_shaped (list_to_map [("access_token", VStr "ACCESS2");
                            ("expires", VNum 4602);
                            ("token_type", VStr "Bearer");
                            ("refresh_token", VStr "OLD")]).
Proof.
  apply (refresh_token_returns_well_shaped 0 (VStr "OLD") world_renewal _
           (snd (refresh_token 0 (VStr "OLD") world_renewal))).
  by_compute.
Defined.

(** *** What a flow leaves alone *)

Lemma keeps_memory_ret {A} (a : A) : keeps_memory (ret a).
Proof. by intros w. Qed.

Lemma keeps_memory_raise {A} (e : exn) : keeps_memory (@raise A e).
Proof. by intros w. Qed.

Lemma keeps_memory_lift {A} (o : outcome A) : keeps_memory (lift o).
Proof. by intros w. Qed.

Lemma keeps_memory_emit (e : event) : keeps_memory (emit e).
Proof. by intros w. Qed.

Lemma keeps_memory_utcnow : keeps_memory utcnow.
Proof. by intros w. Qed.

Lemma keeps_memory_getitem (d : dict) (k : string) : keeps_memory (getitem d k).
Proof. intros w. unfold getitem. by destruct (d !! k). Qed.

Lemma keeps_memory_add_num (a : Z) (v : value) : keeps_memory (add_num a v).
Proof. intros w. unfold add_num. by destruct (as_num v). Qed.

Lemma keeps_memory_time_sleep (v : value) : keeps_memory (time_sleep v).
Proof.
  intros w. unfold time_sleep. destruct (as_num v) as [d|]; [|done].
  by destruct (d <? 0).
Qed.

Lemma keeps_memory_http (url : string) : keeps_memory (http url).
Proof. intros w. unfold http. by destruct (server w !! url) as [[|r rs]|]. Qed.

Lemma keeps_memory_bind {A B} (m : M A) (k : A -> M B) :
  keeps_memory m -> (forall a, keeps_memory (k a)) -> keeps_memory (bind m k).
Proof.
  intros Hm Hk w. unfold bind. destruct (Hm w) as [H1 H2].
  destruct (m w) as [[a|e|] w1]; simpl in *; [|done..].
  destruct (Hk a w1) as [H3 H4]. by rewrite H3, H4.
Qed.

Lemma keeps_memory_download_json (url note : string) (data hs : dict) :
  keeps_memory (_download_json url note data hs).
Proof.
  unfold _download_json. apply keeps_memory_bind; [apply keeps_memory_emit|].
  intros _. apply keeps_memory_http.
Qed.

Lemma keeps_memory_execute_request (url method : string) (hs data : dict) :
  keeps_memory (_execute_request url method hs data).
Proof.
  unfold _execute_request. destruct (startswith _ _); [|apply keeps_memory_raise].
  apply keeps_memory_bind.
  { unfold urllib_Request.
    destruct (request_type url); [apply keeps_memory_ret | apply keeps_memory_raise]. }
  intros _. apply keeps_memory_bind; [apply keeps_memory_emit|].
  intros _. apply keeps_memory_http.
Qed.

Lemma keeps_memory_authorized_record (token_response : dict) :
  keeps_memory (authorized_record token_response).
Proof.
  unfold authorized_record.
  repeat (apply keeps_memory_bind; [|intros ?]);
    auto using keeps_memory_getitem, keeps_memory_utcnow, keeps_memory_add_num,
      keeps_memory_ret.
Qed.

Lemma keeps_memory_poll (restart : M dict) (response_data : dict) (fuel : nat) :
  keeps_memory restart -> keeps_memory (poll restart response_data fuel).
Proof.
  intros Hrestart. induction fuel as [|fuel IH]; [apply keeps_memory_lift|].
  simpl poll.
  apply keeps_memory_bind; [apply keeps_memory_getitem | intros device_code].
  apply keeps_memory_bind; [apply keeps_memory_execute_request | intros resp].
  apply keeps_memory_bind; [apply keeps_memory_emit | intros _].
  apply keeps_memory_bind; [apply keeps_memory_emit | intros _].
  destruct (truthy _).
  - destruct (bool_decide _).
    + apply keeps_memory_bind; [apply keeps_memory_getitem | intros interval].
      apply keeps_memory_bind; [apply keeps_memory_time_sleep | intros _].
      exact IH.
    + destruct (bool_decide _).
      * apply keeps_memory_bind; [apply keeps_memory_emit | intros _].
        exact Hrestart.
      * apply keeps_memory_raise.
  - apply keeps_memory_bind; [apply keeps_memory_emit | intros _].
    apply keeps_memory_authorized_record.
Qed.

Lemma keeps_memory_authorize (fuel : nat) : keeps_memory (authorize fuel).
Proof.
  induction fuel as [|fuel IH]; [apply keeps_memory_lift|].
  simpl authorize.
  apply keeps_memory_bind; [apply keeps_memory_download_json | intros rd].
  apply keeps_memory_bind; [apply keeps_memory_getitem | intros vurl].
  apply keeps_memory_bind; [apply keeps_memory_getitem | intros ucode].
  apply keeps_memory_bind; [apply keeps_memory_emit | intros _].
  apply keeps_memory_bind; [apply keeps_memory_getitem | intros interval].
  apply keeps_memory_bind; [apply keeps_memory_emit | intros _].
  apply keeps_memory_bind; [apply keeps_memory_getitem | intros interval'].
  apply keeps_memory_bind; [apply keeps_memory_time_sleep | intros _].
  by apply keeps_memory_poll.
Qed.

Lemma keeps_memory_refresh_token (fuel : nat) (rt : value) :
  keeps_memory (refresh_token fuel rt).
Proof.
  unfold refresh_token.
  apply keeps_memory_bind; [apply keeps_memory_download_json | intros resp].
  cbv zeta. destruct (truthy _).
  - apply keeps_memory_bind; [apply keeps_memory_emit | intros _].
    apply keeps_memory_authorize.
  - repeat (apply keeps_memory_bind; [|intros ?]);
      auto using keeps_memory_getitem, keeps_memory_utcnow, keeps_memory_add_num,
        keeps_memory_ret.
Qed.

(** The device flow and the refresh exchange store nothing, however they
    end (a record, an exception, or still polling): the token in memory and
    the cache entry are those they started with; storing is left to
    [initialize_oauth]. *)
Theorem flows_store_nothing (fuel : nat) (rt : value) (w : World) :
  _TOKEN_DATA (snd (authorize fuel w)) = _TOKEN_DATA w
  /\ cache (snd (authorize fuel w)) = cache w
  /\ _TOKEN_DATA (snd (refresh_token fuel rt w)) = _TOKEN_DATA w
  /\ cache (snd (refresh_token fuel rt w)) = cache w.
Proof.
  destruct (keeps_memory_authorize fuel w) as [H1 H2].
  destruct (keeps_memory_refresh_token fuel rt w) as [H3 H4].
  done.
Qed.

(** The device flow talks to its two endpoints only: to any other URL it
    sends nothing, however it ends. *)
Theorem authorize_sends_to_its_endpoints_only (fuel : nat) (w : World)
    (url : string) :
  url <> DEVICE_CODE_URL ->
  url <> POLL_URL ->
  requests_to url (history (snd (authorize fuel w))) = requests_to url (history w).
Proof.
  intros Hd Hp.
  destruct (no_request_authorize url (not_eq_sym Hd) (not_eq_sym Hp) fuel w)
    as (tr & Htr & Hq).
  by rewrite Htr, requests_to_app, Hq, app_nil_r.
Qed.

Lemma authorize_sends_to_its_endpoints_only_witness :
  requests_to REFRESH_URL (history (snd (authorize 4 world_two_pending))) =
  requests_to REFRESH_URL (history world_two_pending).
Proof.
  apply authorize_sends_to_its_endpoints_only; discriminate.
Defined.

(** *** The lifecycle, whatever the server does *)

Lemma getitem_inv (d : dict) (k : string) (w w' : World) (v : value) :
  getitem d k w = (Return v, w') -> d !! k = Some v /\ w' = w.
Proof.
  unfold getitem. destruct (d !! k); [|discriminate]. by intros [= <- <-].
Qed.

Lemma lt_num_inv (v : value) (b : Z) (w w' : World) (r : bool) :
  lt_num v b w = (Return r, w') ->
  exists a : Z, as_num v = Some a /\ r = (a <? b) /\ w' = w.
Proof.
  unfold lt_num. destruct (as_num v) as [a|]; [|discriminate].
  intros [= <- <-]. by exists a.
Qed.

(** The expiry check hands back a record of valid shape that memory holds,
    if it was given one. *)
Lemma refresh_if_expired_post (fuel : nat) (token_data : dict) (w w' : World)
    (o : option dict) :
  _TOKEN_DATA w = Some token_data ->
  validate_token_data (Some token_data) = Return true ->
  refresh_if_expired fuel (Some token_data) w = (Return o, w') ->
  exists token_data' : dict,
    o = Some token_data'
    /\ validate_token_data (Some token_data') = Return true
    /\ _TOKEN_DATA w' = Some token_data'.
Proof.
  intros Hmem Hvalid H. unfold refresh_if_expired, getitem_obj in H.
  apply bind_inv in H as (v & w1 & Hv & H). apply getitem_inv in Hv as [_ ->].
  apply bind_inv in H as (t & w1 & [= <- <-] & H).
  apply bind_inv in H as (expired & w1 & Hlt & H).
  apply lt_num_inv in Hlt as (e & _ & -> & ->).
  destruct (e <? now w + 60).
  - apply bind_inv in H as ([] & w1 & [= <-] & H).
    apply bind_inv in H as (rt & w2 & Hrt & H). apply getitem_inv in Hrt as [_ ->].
    apply bind_inv in H as (renewed & w2 & Hrun & H).
    apply bind_inv in H as ([] & w3 & [= <-] & [= <- <-]).
    exists renewed. split; [done|]. split; [|done].
    apply well_shaped_valid. by apply (returns_refresh_token _ _ _ _ _ Hrun).
  - injection H as <- <-. by exists token_data.
Qed.

(** Whatever [initialize_oauth] returns is a record of valid shape, and it
    is the one memory holds afterwards. *)
Lemma initialize_oauth_post (fuel : nat) (w w' : World) (o : option dict) :
  initialize_oauth fuel w = (Return o, w') ->
  exists token_data : dict,
    o = Some token_data
    /\ validate_token_data (Some token_data) = Return true
    /\ _TOKEN_DATA w' = Some token_data.
Proof.
  rewrite initialize_oauth_unfold. destruct (usable (loaded w)) eqn:Hu.
  - destruct (usable_Some _ Hu) as (td & Hl & Hv). rewrite Hl.
    apply refresh_if_expired_post; [|done].
    destruct (remembered_same w) as (_ & _ & _ & ->). done.
  - intros H. apply bind_inv in H as (td & w1 & Hrun & H).
    apply bind_inv in H as ([] & w2 & [= <-] & H).
    apply (refresh_if_expired_post fuel td) in H; [done | reflexivity |].
    apply well_shaped_valid. by apply (returns_authorize _ _ _ _ Hrun).
Qed.

Lemma valid_truthy (token_data : dict) :
  validate_token_data (Some token_data) = Return true ->
  usable (Some token_data) = true.
Proof.
  intros Hv. unfold usable. rewrite Hv, andb_true_r. simpl.
  apply negb_true_iff, bool_decide_eq_false. intros ->.
  apply validate_Some_true in Hv. rewrite Forall_forall in Hv.
  destruct (Hv "access_token") as [v Hv']; [unfold REQUIRED_KEYS; set_solver|].
  by rewrite lookup_empty in Hv'.
Qed.

(** Whatever the server does, when [initialize_oauth] returns it returns a
    record (never [None]) that has the four required fields, and that record
    is the one held in memory from then on. *)
Theorem initialize_oauth_returns_what_memory_holds (fuel : nat) (w w' : World)
    (o : option dict) :
  initialize_oauth fuel w = (Return o, w') ->
  exists token_data : dict,
    o = Some token_data
    /\ validate_token_data (Some token_data) = Return true
    /\ _TOKEN_DATA w' = Some token_data
    /\ loaded w' = Some token_data.
Proof.
  intros H. destruct (initialize_oauth_post _ _ _ _ H) as (td & -> & Hv & Hmem).
  exists td. split; [done|]. split; [done|]. split; [done|].
  unfold loaded. rewrite Hmem.
  pose proof (valid_truthy td Hv) as Hu. unfold usable in Hu.
  apply andb_true_iff in Hu as [-> _]. done.
Qed.

Lemma initialize_oauth_returns_what_memory_holds_witness :
  exists token_data : dict,
    fst (initialize_oauth 2 world_stale_cache) = Return (Some token_data)
    /\ _TOKEN_DATA (snd (initialize_oauth 2 world_stale_cache)) = Some token_data.
Proof.
  destruct (initialize_oauth_returns_what_memory_holds 2 world_stale_cache
              (snd (initialize_oauth 2 world_stale_cache))
              (Some (list_to_map [("access_token", VStr "ACCESS2");
                                  ("expires", VNum 4602);
                                  ("token_type", VStr "Bearer");
                                  ("refresh_token", VStr "OLD")])))
    as (td & Ho & _ & Hmem & _); [by_compute|].
  exists td. split; [|exact Hmem]. rewrite <- Ho. by_compute.
Defined.

(** A second call is free: once [initialize_oauth] has returned a record
    that is good for 60 seconds or more, calling it again (with any fuel)
    returns the same record and changes nothing - no request, no message, no
    store. *)
Theorem initialize_oauth_again_is_free (fuel fuel' : nat) (w w' : World)
    (token_data : dict) (e : Z) :
  initialize_oauth fuel w = (Return (Some token_data), w') ->
  expires_of token_data = Some e ->
  now w' + 60 <= e ->
  initialize_oauth fuel' w' = (Return (Some token_data), w').
Proof.
  intros H He Hle.
  destruct (initialize_oauth_post _ _ _ _ H) as (td & [= <-] & Hv & Hmem).
  pose proof (valid_truthy _ Hv) as Hu.
  assert (Ht : truthy_obj (_TOKEN_DATA w') = true).
  { rewrite Hmem. unfold usable in Hu. by apply andb_true_iff in Hu as [-> _]. }
  assert (Hl : loaded w' = Some token_data).
  { unfold loaded. by rewrite Ht. }
  rewrite (initialize_oauth_current fuel' w' token_data e Hl Hu He Hle).
  unfold remembered. by rewrite Ht.
Qed.

Lemma initialize_oauth_again_is_free_witness :
  initialize_oauth 0 (snd (initialize_oauth 2 world_stale_cache)) =
    (Return (Some (list_to_map [("access_token", VStr "ACCESS2");
                                ("expires", VNum 4602);
                                ("token_type", VStr "Bearer");
                                ("refresh_token", VStr "OLD")])),
     snd (initialize_oauth 2 world_stale_cache)).
Proof.
  apply (initialize_oauth_again_is_free 2 0 world_stale_cache _ _ 4602).
  - by_compute.
  - by_compute.
  - by_compute.
Defined.

(** A cached record that has the four fields but whose [expires] is not a
    number is not treated as invalid: [initialize_oauth] raises [TypeError]
    at the expiry check, without a warning, a request or a store. *)
Theorem initialize_oauth_raises_on_non_numeric_expires (fuel : nat) (w : World)
    (token_data : dict) :
  loaded w = Some token_data ->
  usable (Some token_data) = true ->
  expires_of token_data = None ->
  initialize_oauth fuel w = (Raise TypeError, remembered w)
  /\ history (remembered w) = history w
  /\ cache (remembered w) = cache w.
Proof.
  intros Hl Hu He. split.
  - rewrite initialize_oauth_unfold, Hl, Hu.
    destruct (usable_Some _ Hu) as (td & [= <-] & Hv).
    apply validate_Some_true in Hv. rewrite Forall_forall in Hv.
    destruct (Hv "expires") as [v Hx]; [unfold REQUIRED_KEYS; set_solver|].
    unfold expires_of in He. rewrite Hx in He. simpl in He.
    unfold refresh_if_expired, getitem_obj.
    rewrite (bind_Return _ _ _ _ _ (getitem_Some _ _ _ _ Hx)).
    unfold bind at 1, utcnow at 1. unfold lt_num. by rewrite He.
  - destruct (remembered_same w) as (_ & _ & Hh & _). split; [exact Hh|].
    unfold remembered. by destruct (truthy_obj _).
Qed.

Lemma initialize_oauth_raises_on_non_numeric_expires_witness :
  fst (initialize_oauth 2 world_text_expires) = Raise TypeError.
Proof.
  destruct (initialize_oauth_raises_on_non_numeric_expires 2 world_text_expires
              sample_text_expires_record) as (Hrun & _);
    [by_compute | by_compute | by_compute |].
  by rewrite Hrun.
Defined.

Lemma requests_to_none (url : string) (tr : list event) :
  Forall (fun e => request_url e = None) tr -> requests_to url tr = [].
Proof.
  intros H. induction H as [|e tr He _ IH]; [done|].
  unfold requests_to in *. rewrite filter_cons_False; [exact IH|].
  rewrite He. discriminate.
Qed.

(** The first login: with no usable record loaded and a server that grants
    (after any number of pending answers) a token good for a minute or more,
    [initialize_oauth] returns the record built from the grant, with
    [expires] = the time the grant arrived + its [expires_in]; the record is
    stored in memory and in the cache; the device-code endpoint was asked
    once and the refresh endpoint not at all; and the user was warned of
    invalid cached data exactly when a non-empty record had been loaded. *)
Theorem initialize_oauth_first_login (fuel : nat) (w : World) (d : reply)
    (ds ps : list reply) (s : reply) (rest : list reply)
    (access_token refresh_token token_type : value) (expires_in : Z) :
  usable (loaded w) = false ->
  server w !! DEVICE_CODE_URL = Some (d :: ds) ->
  device_session d ->
  server w !! POLL_URL = Some (ps ++ s :: rest) ->
  Forall is_pending ps ->
  token_grant s access_token refresh_token token_type expires_in ->
  60 <= expires_in ->
  (length ps + 2 <= fuel)%nat ->
  exists (token_data : dict) (w' : World),
    initialize_oauth fuel w = (Return (Some token_data), w')
    /\ token_data = list_to_map [("access_token", access_token);
                                 ("expires", VNum (now w' + expires_in));
                                 ("refresh_token", refresh_token);
                                 ("token_type", token_type)]
    /\ _TOKEN_DATA w' = Some token_data
    /\ cache w' = Some token_data
    /\ requests_to DEVICE_CODE_URL (history w') =
         requests_to DEVICE_CODE_URL (history w) ++ [device_code_request]
    /\ requests_to REFRESH_URL (history w') = requests_to REFRESH_URL (history w)
    /\ warnings (history w') =
         warnings (history w)
           ++ (if truthy_obj (loaded w)
               then ["Invalid cached OAuth2 token data"] else []).
Proof.
  intros Hu Hdev Hsession Hpoll Hpending Hgrant Hmin Hfuel.
  destruct (remembered_same w) as (Hnow & Hsrv & Hhist & Hmem).
  set (w1 := if truthy_obj (loaded w)
             then logged (ReportWarning "Invalid cached OAuth2 token data")
                         (remembered w)
             else remembered w).
  assert (Hsrv1 : server w1 = server w).
  { unfold w1. by destruct (truthy_obj (loaded w)). }
  assert (Hhist1 : history w1 =
                     history w ++ (if truthy_obj (loaded w)
                                   then [ReportWarning "Invalid cached OAuth2 token data"]
                                   else [])).
  { unfold w1. destruct (truthy_obj (loaded w)).
    - by rewrite history_logged, Hhist.
    - by rewrite Hhist, app_nil_r. }
  rewrite <- Hsrv1 in Hdev, Hpoll.
  pose proof (authorize_grant w1 d ds ps s rest Hdev Hsession Hpoll Hpending fuel
                _ _ _ _ Hgrant Hfuel) as Hrun.
  set (w2 := logged (ToScreen "Authorization successful")
               (answered d ds ps s rest w1)) in *.
  set (td := list_to_map [("access_token", access_token);
                          ("expires", VNum (now (answered d ds ps s rest w1)
                                            + expires_in));
                          ("refresh_token", refresh_token);
                          ("token_type", token_type)] : dict) in *.
  exists td, (stored td w2). split.
  { rewrite initialize_oauth_unfold, Hu. fold w1.
    rewrite (bind_Return _ _ _ _ _ Hrun).
    rewrite (bind_Return _ _ _ _ _ (store_token_stored td w2)).
    apply (refresh_if_expired_current _ _
             (now (answered d ds ps s rest w1) + expires_in)).
    - unfold expires_of, td. by simplify_map_eq.
    - simpl. lia. }
  split; [reflexivity|]. split; [reflexivity|]. split; [reflexivity|].
  assert (Hh : history (stored td w2) =
                 history w1 ++ opening d
                   ++ flat_map (pending_round (session_device_code d)
                                  (session_interval d)) ps
                   ++ poll_round (session_device_code d) s
                   ++ [ToScreen "Authorization successful";
                       CacheStore "youtube-oauth2" "token_data" td]).
  { rewrite history_stored. unfold w2.
    rewrite history_logged, history_answered. by rewrite <- !app_assoc. }
  assert (Hquiet : forall url,
            requests_to url (if truthy_obj (loaded w)
                             then [ReportWarning "Invalid cached OAuth2 token data"]
                             else []) = []).
  { intros url. by destruct (truthy_obj (loaded w)). }
  split; [|split].
  - rewrite Hh, Hhist1, !requests_to_app, Hquiet.
    rewrite requests_to_opening, requests_to_pending_rounds, requests_to_poll_round.
    rewrite (requests_to_none _ [_; _]) by (by repeat constructor).
    repeat case_decide; try discriminate; try congruence.
    by rewrite !app_nil_r.
  - rewrite Hh, Hhist1, !requests_to_app, Hquiet.
    rewrite requests_to_opening, requests_to_pending_rounds, requests_to_poll_round.
    rewrite (requests_to_none _ [_; _]) by (by repeat constructor).
    repeat case_decide; try discriminate; try congruence.
    by rewrite !app_nil_r.
  - rewrite Hh, Hhist1, !warnings_app.
    assert (Hw : forall dc n, warnings (flat_map (pending_round dc n) ps) = []).
    { intros dc n. clear. induction ps as [|r ps' IH]; [done|].
      simpl. exact IH. }
    rewrite Hw. destruct (truthy_obj (loaded w)); simpl; by rewrite ?app_nil_r.
Qed.

Lemma initialize_oauth_first_login_witness :
  exists (token_data : dict) (w' : World),
    initialize_oauth 2 world_broken_cache = (Return (Some token_data), w')
    /\ token_data !! "expires" = Some (VNum (now w' + 3600))
    /\ cache w' = Some token_data
    /\ warnings (history w') = ["Invalid cached OAuth2 token data"].
Proof.
  destruct (initialize_oauth_first_login 2 world_broken_cache sample_session []
              [] sample_grant [] (VStr "ACCESS") (VStr "REFRESH") (VStr "Bearer")
              3600)
    as (td & w' & Hrun & Htd & _ & Hcache & _ & _ & Hwarn).
  - by_compute.
  - by_compute.
  - repeat split; by_compute.
  - by_compute.
  - constructor.
  - repeat split; by_compute.
  - lia.
  - simpl. lia.
  - exists td, w'. split; [exact Hrun|]. split; [|split; [exact Hcache|]].
    + rewrite Htd. clear. by simplify_map_eq.
    + rewrite Hwarn.
      assert (H0 : warnings (history world_broken_cache) = []) by by_compute.
      assert (H1 : truthy_obj (loaded world_broken_cache) = true) by by_compute.
      by rewrite H0, H1.
Defined.

Lemma initialize_oauth_flow_error (fuel : nat) (w : World)
    (d : reply) (ds ps : list reply) (x : reply) (rest : list reply)
    (error : value) :
  usable (loaded w) = false ->
  server w !! DEVICE_CODE_URL = Some (d :: ds) ->
  device_session d ->
  server w !! POLL_URL = Some (ps ++ x :: rest) ->
  Forall is_pending ps ->
  body x !! "error" = Some error ->
  truthy error = true ->
  error <> VStr "authorization_pending" ->
  error <> VStr "expired_token" ->
  (length ps + 2 <= fuel)%nat ->
  exists w' : World,
    initialize_oauth fuel w =
      (Raise (ExtractorError ("Unhandled OAuth2 Error: " +:+ py_str error)), w')
    /\ cache w' = cache w
    /\ loaded w' = loaded w.
Proof.
  intros Hu Hdev Hsession Hpoll Hpending He Ht Hp Hx Hfuel.
  destruct (remembered_same w) as (Hnow & Hsrv & Hhist & Hmem).
  set (w1 := if truthy_obj (loaded w)
             then logged (ReportWarning "Invalid cached OAuth2 token data")
                         (remembered w)
             else remembered w).
  assert (Hsrv1 : server w1 = server w).
  { unfold w1. by destruct (truthy_obj (loaded w)). }
  assert (Hmem1 : _TOKEN_DATA w1 = loaded w /\ cache w1 = cache w).
  { unfold w1. destruct (truthy_obj (loaded w)); simpl; (split; [exact Hmem|]);
      unfold remembered; by destruct (truthy_obj (_TOKEN_DATA w)). }
  destruct Hmem1 as [Hmem1 Hcache1].
  rewrite <- Hsrv1 in Hdev, Hpoll.
  pose proof (authorize_fatal w1 d ds ps x rest Hdev Hsession Hpoll Hpending fuel
                error He Ht Hp Hx Hfuel) as Hrun.
  destruct (answered_memory d ds ps x rest w1) as [Hm Hc].
  exists (answered d ds ps x rest w1).
  assert (Hl : loaded (answered d ds ps x rest w1) = loaded w).
  { unfold loaded at 1. rewrite Hm, Hc, Hmem1, Hcache1.
    unfold loaded. destruct (truthy_obj (_TOKEN_DATA w)) eqn:E.
    - by rewrite E.
    - by destruct (truthy_obj (cache w)). }
  split.
  { rewrite initialize_oauth_unfold, Hu. fold w1.
    by rewrite (bind_Raise _ _ _ _ _ Hrun). }
  split; [by rewrite Hc | exact Hl].
Qed.

(** When no usable record is loaded and the device flow fails on an error
    code of the token endpoint, [initialize_oauth] raises that
    [ExtractorError] to its caller and stores nothing: the cache entry is
    untouched and what is loaded afterwards is what was loaded before. *)
Theorem initialize_oauth_propagates_flow_error (fuel : nat) (w : World)
    (d : reply) (ds ps : list reply) (x : reply) (rest : list reply)
    (error : value) :
  usable (loaded w) = false ->
  server w !! DEVICE_CODE_URL = Some (d :: ds) ->
  device_session d ->
  server w !! POLL_URL = Some (ps ++ x :: rest) ->
  Forall is_pending ps ->
  body x !! "error" = Some error ->
  truthy error = true ->
  error <> VStr "authorization_pending" ->
  error <> VStr "expired_token" ->
  (length ps + 2 <= fuel)%nat ->
  exists w' : World,
    initialize_oauth fuel w =
      (Raise (ExtractorError ("Unhandled OAuth2 Error: " +:+ py_str error)), w')
    /\ cache w' = cache w
    /\ loaded w' = loaded w
    /\ usable (loaded w') = false.
Proof.
  intros Hu Hdev Hsession Hpoll Hpending He Ht Hp Hx Hfuel.
  destruct (initialize_oauth_flow_error fuel w d ds ps x rest error Hu Hdev
              Hsession Hpoll Hpending He Ht Hp Hx Hfuel) as (w' & Hrun & Hc & Hl).
  exists w'. split; [exact Hrun|]. split; [exact Hc|].
  split; [exact Hl | by rewrite Hl].
Qed.

Lemma initialize_oauth_propagates_flow_error_witness :
  fst (initialize_oauth 2 world_denied_at_once) =
    Raise (ExtractorError "Unhandled OAuth2 Error: access_denied")
  /\ cache (snd (initialize_oauth 2 world_denied_at_once)) =
       Some sample_broken_record.
Proof.
  destruct (initialize_oauth_propagates_flow_error 2 world_denied_at_once
              sample_session [] [] sample_denied [] (VStr "access_denied"))
    as (w' & Hrun & Hcache & _).
  - by_compute.
  - by_compute.
  - repeat split; by_compute.
  - by_compute.
  - constructor.
  - by_compute.
  - reflexivity.
  - discriminate.
  - discriminate.
  - simpl. lia.
  - rewrite Hrun. cbn [fst snd]. split; [reflexivity|].
    rewrite Hcache. by_compute.
Defined.
(** ** The interceptor, whatever the server does *)

(** What [handle_oauth] did when it returns, on a request to the service. *)
Lemma handle_oauth_inv (fuel : nat) (request request' : Request) (w w' : World) :
  endswith (netloc request) "youtube.com" = true ->
  handle_oauth fuel request w = (Return request', w') ->
  exists (token_data : dict) (w1 : World) (token_type access_token : value),
    initialize_oauth fuel w = (Return (Some token_data), w1)
    /\ _TOKEN_DATA w1 = Some token_data
    /\ validate_token_data (Some token_data) = Return true
    /\ token_data !! "token_type" = Some token_type
    /\ token_data !! "access_token" = Some access_token
    /\ w' = (if header_contains "Authorization" (headers request)
             then logged COOKIE_WARNING w1 else w1)
    /\ request' =
         set_headers request
           (<["Authorization" := bearer token_type access_token]>
              (cleaned (header_contains "Authorization" (headers request))
                 (headers request))).
Proof.
  intros Hhost H. unfold handle_oauth in H. rewrite Hhost in H. cbn [negb] in H.
  apply bind_inv in H as (o & w1 & Hinit & H).
  destruct (initialize_oauth_post _ _ _ _ Hinit) as (td & -> & Hv & Hmem).
  assert (Hc : header_contains "Authorization"
                 (header_pop "X-Goog-AuthUser"
                    (header_pop "X-Goog-PageId" (headers request)))
               = header_contains "Authorization" (headers request)).
  { unfold header_contains, contains, header_pop. stored_names.
    by rewrite !lookup_delete_ne by done. }
  rewrite Hc in H.
  exists td, w1.
  destruct (header_contains "Authorization" (headers request)).
  - apply bind_inv in H as (h & w2 & Hh & H).
    apply bind_inv in Hh as ([] & w3 & [= <-] & [= <- <-]).
    unfold getitem_obj in H.
    apply bind_inv in H as (tt & w3 & Htt & H). apply getitem_inv in Htt as [Htt ->].
    apply bind_inv in H as (at' & w3 & Hat & H). apply getitem_inv in Hat as [Hat ->].
    injection H as <- <-. by exists tt, at'.
  - apply bind_inv in H as (h & w2 & [= <- <-] & H).
    unfold getitem_obj in H.
    apply bind_inv in H as (tt & w3 & Htt & H). apply getitem_inv in Htt as [Htt ->].
    apply bind_inv in H as (at' & w3 & Hat & H). apply getitem_inv in Hat as [Hat ->].
    injection H as <- <-. by exists tt, at'.
Qed.

(** Whenever [handle_oauth] returns on a request whose netloc ends with
    "youtube.com" - from a cached record, after a refresh or after the whole
    device flow - the request carries as [Authorization] the [token_type]
    and [access_token] of the record that memory now holds, without blanks
    around them; [X-Goog-PageId], [X-Goog-AuthUser] and
    [X-Youtube-Identity-Token] are gone; [X-Origin] is gone if the request
    came with an [Authorization] header and kept otherwise; every other
    header and the netloc are as they were; and the cookie warning is
    reported exactly when the request came with an [Authorization] header.
    Header names count as the header dictionary finds them, whatever their
    case, and headers that came under their stored names leave under them. *)
Theorem handle_oauth_sets_bearer_of_memory (fuel : nat)
    (request request' : Request) (w w' : World) :
  endswith (netloc request) "youtube.com" = true ->
  handle_oauth fuel request w = (Return request', w') ->
  exists (token_data : dict) (w1 : World) (token_type access_token : value),
    initialize_oauth fuel w = (Return (Some token_data), w1)
    /\ _TOKEN_DATA w' = Some token_data
    /\ token_data !! "token_type" = Some token_type
    /\ token_data !! "access_token" = Some access_token
    /\ netloc request' = netloc request
    /\ header_get "Authorization" (headers request') =
         Some (VStr (strip (py_str token_type +:+ " " +:+ py_str access_token)))
    /\ Forall (fun k => header_contains k (headers request') = false)
              ["X-Goog-PageId"; "X-Goog-AuthUser"; "X-Youtube-Identity-Token"]
    /\ header_get "X-Origin" (headers request') =
         (if header_contains "Authorization" (headers request) then None
          else header_get "X-Origin" (headers request))
    /\ (forall k : string,
          title k <> title "Authorization" ->
          title k ∉ title <$> COOKIE_HEADERS ->
          header_get k (headers request') = header_get k (headers request))
    /\ (forall k : string,
          k <> title "Authorization" -> k ∉ title <$> COOKIE_HEADERS ->
          headers request' !! k = headers request !! k)
    /\ ((forall k : string, is_Some (headers request !! k) -> title k = k) ->
        forall k : string, is_Some (headers request' !! k) -> title k = k)
    /\ history w' =
         history w1 ++ (if header_contains "Authorization" (headers request)
                        then [COOKIE_WARNING] else []).
Proof.
  intros Hhost H.
  destruct (handle_oauth_inv _ _ _ _ _ Hhost H)
    as (td & w1 & tt & at' & Hinit & Hmem & _ & Htt & Hat & -> & ->).
  exists td, w1, tt, at'. split; [exact Hinit|].
  split; [by destruct (header_contains _ _)|].
  split; [exact Htt|]. split; [exact Hat|]. split; [reflexivity|].
  destruct (cleaned_lookup (header_contains "Authorization" (headers request))
              (headers request)) as (Hp & Ha & Hi & Ho & Hrest).
  unfold set_headers. cbn [headers].
  split; [|split; [|split; [|split; [|split; [|split]]]]].
  - unfold header_get. stored_names. apply lookup_insert_eq.
  - repeat constructor; apply header_contains_false; unfold header_get;
      stored_names; by rewrite lookup_insert_ne by done.
  - unfold header_get. stored_names. by rewrite lookup_insert_ne by done.
  - intros k Hk Hnot. unfold header_get. stored_names.
    destruct (not_cookie_header _ Hnot) as (H1 & H2 & H3 & H4).
    rewrite lookup_insert_ne by done. by apply Hrest.
  - intros k Hk Hnot. stored_names.
    destruct (not_cookie_header k Hnot) as (H1 & H2 & H3 & H4).
    rewrite lookup_insert_ne by done. by apply Hrest.
  - intros Hwf k [v Hv].
    destruct (decide (k = "Authorization")) as [->|Hk]; [done|].
    rewrite lookup_insert_ne in Hv by done. apply Hwf.
    unfold cleaned in Hv.
    destruct (header_contains _ _);
      repeat (apply lookup_delete_Some in Hv as [_ Hv]); by eexists.
  - destruct (header_contains _ _); [apply history_logged | by rewrite app_nil_r].
Qed.

Lemma handle_oauth_sets_bearer_of_memory_witness :
  exists request' : Request,
    fst (handle_oauth 0 sample_plain_request world_current_cache) = Return request'
    /\ header_get "authorization" (headers request') = Some (VStr "Bearer CACHED")
    /\ header_get "X-Origin" (headers request') =
         Some (VStr "https://www.youtube.com")
    /\ header_contains "X-Goog-AuthUser" (headers request') = false.
Proof.
  set (request' :=
         mkRequest "www.youtube.com"
           [("Authorization", VStr "Bearer CACHED");
            ("X-Origin", VStr "https://www.youtube.com");
            ("User-Agent", VStr "Mozilla/5.0")]).
  destruct (handle_oauth_sets_bearer_of_memory 0 sample_plain_request request'
              world_current_cache
              (snd (handle_oauth 0 sample_plain_request world_current_cache)))
    as (td & w1 & tt & at' & _ & _ & _ & _ & _ & _ & Hgone & Horigin & _);
    [by_compute | by_compute |].
  exists request'. split; [by_compute|].
  split; [clear; by_compute|].
  split.
  { rewrite Horigin. clear. by_compute. }
  rewrite Forall_forall in Hgone. apply Hgone. clear. by_compute.
Defined.

(** No request leaves [_create_request] with the "__youtube_oauth__" header,
    and none with another URL than it came with: this holds with OAuth2 in
    use or not, for any host, and whatever the server does. *)
Theorem create_request_never_leaks_marker (use_oauth2 : bool) (fuel : nat)
    (request request' : Request) (w w' : World) :
  _create_request use_oauth2 fuel request w = (Return request', w') ->
  header_contains OAUTH_MARKER (headers request') = false
  /\ netloc request' = netloc request.
Proof.
  unfold _create_request.
  destruct (header_contains OAUTH_MARKER (headers request)) eqn:Hc.
  - unfold header_pop_strict. rewrite Hc. intros [= <- _].
    split; [apply header_contains_false, lookup_delete_eq | reflexivity].
  - destruct use_oauth2; [|by intros [= <- _]].
    destruct (endswith (netloc request) "youtube.com") eqn:Hhost.
    + intros H.
      destruct (handle_oauth_inv _ _ _ _ _ Hhost H)
        as (td & w1 & tt & at' & _ & _ & _ & _ & _ & _ & ->).
      split; [|reflexivity].
      apply header_contains_false in Hc. apply header_contains_false.
      unfold set_headers, header_get in *. cbn [headers]. stored_names.
      rewrite lookup_insert_ne by done.
      by rewrite (proj2 (proj2 (proj2 (proj2 (cleaned_lookup _ _))))) by done.
    + unfold handle_oauth. rewrite Hhost. by intros [= <- _].
Qed.

Lemma create_request_never_leaks_marker_witness :
  header_contains OAUTH_MARKER
    (headers (set_headers sample_marked_request
                (HTTPHeaderDict [("Content-Type", VStr "application/json")])))
  = false.
Proof.
  apply (create_request_never_leaks_marker true 0 sample_marked_request _
           world_current_cache world_current_cache).
  by_compute.
Defined.

(** [handle_oauth] cannot tell its own header from a cookie: run again on the
    request it returned (while the record in memory is still good for 60
    seconds), it reports the cookie warning, drops [X-Origin] if the request
    still had it, and sets the same [Authorization] again; nothing else
    changes and nothing is requested. *)
Theorem handle_oauth_on_its_own_output (fuel fuel' : nat)
    (request request' : Request) (w w' : World) (token_data : dict) (e : Z) :
  endswith (netloc request) "youtube.com" = true ->
  handle_oauth fuel request w = (Return request', w') ->
  _TOKEN_DATA w' = Some token_data ->
  expires_of token_data = Some e ->
  now w' + 60 <= e ->
  handle_oauth fuel' request' w' =
    (Return (set_headers request' (header_pop "X-Origin" (headers request'))),
     logged COOKIE_WARNING w').
Proof.
  intros Hhost H Hmem He Hle.
  destruct (handle_oauth_inv _ _ _ _ _ Hhost H)
    as (td & w1 & tt & at' & _ & Hmem1 & Hv & Htt & Hat & Hw' & Hreq).
  assert (Htd : td = token_data).
  { rewrite Hw' in Hmem. destruct (header_contains _ _); simpl in Hmem; congruence. }
  subst td.
  pose proof (valid_truthy _ Hv) as Hu.
  assert (Ht : truthy_obj (_TOKEN_DATA w') = true).
  { rewrite Hmem. unfold usable in Hu. by apply andb_true_iff in Hu as [-> _]. }
  assert (Hinit : initialize_oauth fuel' w' = (Return (Some token_data), w')).
  { rewrite (initialize_oauth_current fuel' w' token_data e); [| |done..].
    - unfold remembered. by rewrite Ht.
    - unfold loaded. by rewrite Ht. }
  set (c := header_contains "Authorization" (headers request)) in *.
  destruct (cleaned_lookup c (headers request)) as (Hp & Ha & Hi & _ & _).
  assert (Hh' : headers request' =
                  <["Authorization" := bearer tt at']> (cleaned c (headers request)))
    by (by rewrite Hreq).
  assert (Hauth : headers request' !! "Authorization" = Some (bearer tt at')).
  { rewrite Hh'. apply lookup_insert_eq. }
  assert (Hpi : headers request' !! "X-Goog-Pageid" = None).
  { rewrite Hh'. by rewrite lookup_insert_ne by done. }
  assert (Hau : headers request' !! "X-Goog-Authuser" = None).
  { rewrite Hh'. by rewrite lookup_insert_ne by done. }
  assert (Hit : headers request' !! "X-Youtube-Identity-Token" = None).
  { rewrite Hh'. by rewrite lookup_insert_ne by done. }
  assert (Hnet : netloc request' = netloc request) by (by rewrite Hreq).
  assert (Hmap :
    <["Authorization" := bearer tt at']> (cleaned true (headers request'))
    = delete "X-Origin" (headers request')).
  { apply map_eq. intros k.
    destruct (cleaned_lookup true (headers request')) as (Hp' & Ha' & Hi' & Ho' & Hrest').
    destruct (decide (k = "Authorization")) as [->|Hk].
    { rewrite lookup_insert_eq, lookup_delete_ne by done. by rewrite Hauth. }
    rewrite lookup_insert_ne by done.
    destruct (decide (k = "X-Origin")) as [->|Hxo].
    { by rewrite Ho', lookup_delete_eq. }
    rewrite (lookup_delete_ne _ "X-Origin") by done.
    destruct (decide (k = "X-Youtube-Identity-Token")) as [->|Hyi].
    { by rewrite Hi', Hit. }
    destruct (decide (k = "X-Goog-Authuser")) as [->|Hga].
    { by rewrite Ha', Hau. }
    destruct (decide (k = "X-Goog-Pageid")) as [->|Hgp].
    { by rewrite Hp', Hpi. }
    by apply Hrest'. }
  unfold handle_oauth. rewrite Hnet, Hhost. cbn [negb].
  rewrite (bind_Return _ _ _ _ _ Hinit).
  assert (Hc : header_contains "Authorization"
                 (header_pop "X-Goog-AuthUser"
                    (header_pop "X-Goog-PageId" (headers request')))
               = true).
  { apply header_contains_spec. unfold header_get, header_pop. stored_names.
    rewrite !lookup_delete_ne by done. by rewrite Hauth. }
  rewrite Hc. erewrite bind_Return by reflexivity.
  unfold getitem_obj.
  rewrite (bind_Return _ _ _ _ _ (getitem_Some _ _ _ _ Htt)).
  rewrite (bind_Return _ _ _ _ _ (getitem_Some _ _ _ _ Hat)).
  change (header_pop "X-Origin" (headers request'))
    with (delete "X-Origin" (headers request')).
  rewrite <- Hmap. reflexivity.
Qed.

Lemma handle_oauth_on_its_own_output_witness :
  fst (handle_oauth 0
         (mkRequest "www.youtube.com"
            [("Authorization", VStr "Bearer CACHED");
             ("X-Origin", VStr "https://www.youtube.com");
             ("User-Agent", VStr "Mozilla/5.0")])
         (snd (handle_oauth 0 sample_plain_request world_current_cache)))
  = Return (mkRequest "www.youtube.com"
              [("Authorization", VStr "Bearer CACHED");
               ("User-Agent", VStr "Mozilla/5.0")]).
Proof.
  rewrite (handle_oauth_on_its_own_output 0 0 sample_plain_request _
             world_current_cache _ sample_current_record 4600);
    [| by_compute..].
  cbn [fst]. by_compute.
Defined.

(** *** Where requests go *)

Section Elsewhere.
Variable url : string.
Hypothesis Hdevice : DEVICE_CODE_URL <> url.
Hypothesis Hpoll : POLL_URL <> url.
Hypothesis Hrefresh : REFRESH_URL <> url.

Lemma no_request_store_token (token_data : dict) :
  adds_no_request url (store_token token_data).
Proof.
  intros w. exists [CacheStore "youtube-oauth2" "token_data" token_data].
  split; [reflexivity | done].
Qed.

Lemma no_request_getitem_obj (o : option dict) (k : string) :
  adds_no_request url (getitem_obj o k).
Proof.
  destruct o; [apply no_request_getitem | apply no_request_raise].
Qed.

Lemma no_request_lt_num (v : value) (b : Z) : adds_no_request url (lt_num v b).
Proof.
  unfold lt_num. destruct (as_num v); [apply no_request_ret | apply no_request_raise].
Qed.

Lemma no_request_get_token : adds_no_request url get_token.
Proof.
  apply no_request_pure. intros w. unfold get_token.
  by destruct (truthy_obj (_TOKEN_DATA w)).
Qed.

Lemma no_request_refresh_token (fuel : nat) (rt : value) :
  adds_no_request url (refresh_token fuel rt).
Proof.
  unfold refresh_token.
  apply no_request_bind; [by apply no_request_download_json | intros resp].
  cbv zeta. destruct (truthy _).
  - apply no_request_bind; [by apply no_request_emit | intros _].
    by apply no_request_authorize.
  - repeat (apply no_request_bind; [|intros ?]);
      auto using no_request_getitem, no_request_utcnow, no_request_add_num,
        no_request_ret.
Qed.

Lemma no_request_initialize_oauth (fuel : nat) :
  adds_no_request url (initialize_oauth fuel).
Proof.
  unfold initialize_oauth.
  apply no_request_bind; [apply no_request_get_token | intros o].
  apply no_request_bind.
  { destruct (truthy_obj o); [|apply no_request_ret].
    apply no_request_bind; [apply no_request_lift | intros valid].
    destruct (negb valid); [|apply no_request_ret].
    apply no_request_bind; [by apply no_request_emit | intros _].
    apply no_request_ret. }
  intros o1. apply no_request_bind.
  { destruct (negb (truthy_obj o1)); [|apply no_request_ret].
    apply no_request_bind; [by apply no_request_authorize | intros td].
    apply no_request_bind; [apply no_request_store_token | intros _].
    apply no_request_ret. }
  intros o2.
  apply no_request_bind; [apply no_request_getitem_obj | intros expires].
  apply no_request_bind; [apply no_request_utcnow | intros t].
  apply no_request_bind; [apply no_request_lt_num | intros expired].
  destruct expired; [|apply no_request_ret].
  apply no_request_bind; [by apply no_request_emit | intros _].
  apply no_request_bind; [apply no_request_getitem_obj | intros rt].
  apply no_request_bind; [apply no_request_refresh_token | intros td].
  apply no_request_bind; [apply no_request_store_token | intros _].
  apply no_request_ret.
Qed.

Lemma no_request_handle_oauth (fuel : nat) (request : Request) :
  adds_no_request url (handle_oauth fuel request).
Proof.
  unfold handle_oauth. destruct (negb _); [apply no_request_ret|].
  apply no_request_bind; [apply no_request_initialize_oauth | intros o].
  apply no_request_bind.
  { destruct (header_contains _ _); [|apply no_request_ret].
    apply no_request_bind; [by apply no_request_emit | intros _].
    apply no_request_ret. }
  intros h.
  apply no_request_bind; [apply no_request_getitem_obj | intros tt].
  apply no_request_bind; [apply no_request_getitem_obj | intros at'].
  apply no_request_ret.
Qed.

Lemma no_request_create_request (use_oauth2 : bool) (fuel : nat)
    (request : Request) :
  adds_no_request url (_create_request use_oauth2 fuel request).
Proof.
  unfold _create_request. destruct (header_contains _ _).
  - apply no_request_bind; [|intros h; apply no_request_ret].
    unfold header_pop_strict. destruct (header_contains _ _);
      [apply no_request_ret | apply no_request_raise].
  - destruct use_oauth2; [apply no_request_handle_oauth | apply no_request_ret].
Qed.
End Elsewhere.

(** The plugin contacts its three endpoints and nothing else: whatever the
    cache holds and the server answers, [initialize_oauth] and
    [_create_request] (hence [handle_oauth]) send no request to any other
    URL - in particular none to the host of the request being prepared. *)
Theorem plugin_contacts_its_endpoints_only (url : string) (use_oauth2 : bool)
    (fuel : nat) (request : Request) (w : World) :
  url <> DEVICE_CODE_URL ->
  url <> POLL_URL ->
  url <> REFRESH_URL ->
  requests_to url (history (snd (initialize_oauth fuel w))) =
    requests_to url (history w)
  /\ requests_to url (history (snd (_create_request use_oauth2 fuel request w))) =
       requests_to url (history w).
Proof.
  intros Hd Hp Hr.
  destruct (no_request_initialize_oauth url (not_eq_sym Hd) (not_eq_sym Hp)
              (not_eq_sym Hr) fuel w) as (tr1 & H1 & Hq1).
  destruct (no_request_create_request url (not_eq_sym Hd) (not_eq_sym Hp)
              (not_eq_sym Hr) use_oauth2 fuel request w) as (tr2 & H2 & Hq2).
  by rewrite H1, H2, !requests_to_app, Hq1, Hq2, !app_nil_r.
Qed.

Lemma plugin_contacts_its_endpoints_only_witness :
  requests_to "https://www.youtube.com/youtubei/v1/player"
    (history (snd (_create_request true 2 sample_request world_stale_cache))) = [].
Proof.
  destruct (plugin_contacts_its_endpoints_only
              "https://www.youtube.com/youtubei/v1/player" true 2 sample_request
              world_stale_cache) as [_ H]; [discriminate..|].
  rewrite H. by_compute.
Defined.

(** ** Login and authentication state *)

Lemma is_authenticated_run (sup : bool) (w : World) :
  is_authenticated true sup w = (Return (usable (loaded w)), remembered w).
Proof.
  unfold is_authenticated. rewrite (bind_Return _ _ _ _ _ (get_token_loaded w)).
  unfold usable. destruct (truthy_obj (loaded w)) eqn:Et; [|reflexivity].
  destruct (loaded w) as [d|]; [reflexivity | discriminate].
Qed.

(** With OAuth2 in use, [is_authenticated] never raises and asks nothing of
    the server: it is true exactly when the record loaded from memory or the
    cache is not empty and has the four fields. Neither the expiry of that
    record nor the answer of the extractor without the plugin counts; without
    OAuth2 that answer is returned as it is. *)
Theorem is_authenticated_checks_shape_only (sup : bool) (w : World) :
  is_authenticated true sup w = (Return (usable (loaded w)), remembered w)
  /\ (usable (loaded w) = true <->
      exists token_data : dict,
        loaded w = Some token_data
        /\ Forall (fun k => is_Some (token_data !! k)) REQUIRED_KEYS)
  /\ history (remembered w) = history w
  /\ server (remembered w) = server w
  /\ is_authenticated false sup w = (Return sup, w).
Proof.
  split; [apply is_authenticated_run|].
  destruct (remembered_same w) as (_ & Hsrv & Hhist & _).
  split; [|done].
  split.
  - intros Hu. destruct (usable_Some _ Hu) as (td & Hl & Hv).
    exists td. split; [done|]. by apply validate_Some_true.
  - intros (td & -> & Hall). apply valid_truthy. by apply validate_Some_true.
Qed.



(** A login as "oauth2" that fails leaves OAuth2 switched on: when no usable
    record is loaded and the token endpoint answers an error code that is
    not handled, the login raises that [ExtractorError], the default clients
    are as they were, [_use_oauth2] is true all the same, and
    [is_authenticated] is false. *)
Theorem perform_login_oauth2_failure_keeps_oauth2_on
    (super_perform_login : string -> string -> Login) (fuel : nat)
    (password : string) (self : Extractor) (w : World) (d : reply)
    (ds ps : list reply) (x : reply) (rest : list reply) (error : value)
    (sup : bool) :
  usable (loaded w) = false ->
  server w !! DEVICE_CODE_URL = Some (d :: ds) ->
  device_session d ->
  server w !! POLL_URL = Some (ps ++ x :: rest) ->
  Forall is_pending ps ->
  body x !! "error" = Some error ->
  truthy error = true ->
  error <> VStr "authorization_pending" ->
  error <> VStr "expired_token" ->
  (length ps + 2 <= fuel)%nat ->
  exists (self' : Extractor) (w' : World),
    _perform_login super_perform_login fuel "oauth2" password self w =
      (Raise (ExtractorError ("Unhandled OAuth2 Error: " +:+ py_str error)),
       self', w')
    /\ _use_oauth2 self' = true
    /\ _DEFAULT_CLIENTS self' = _DEFAULT_CLIENTS self
    /\ fst (is_authenticated (_use_oauth2 self') sup w') = Return false.
Proof.
  intros Hu Hdev Hsession Hpoll Hpending He Ht Hp Hx Hfuel.
  destruct (initialize_oauth_flow_error fuel w d ds ps x rest error Hu Hdev
              Hsession Hpoll Hpending He Ht Hp Hx Hfuel) as (w' & Hrun & _ & Hl).
  exists (mkExtractor true (_DEFAULT_CLIENTS self)), w'. split.
  { unfold _perform_login. change (String.eqb "oauth2" "oauth2") with true.
    cbv iota zeta. by rewrite Hrun. }
  split; [reflexivity|]. split; [reflexivity|].
  cbn [_use_oauth2]. rewrite is_authenticated_run, Hl, Hu. reflexivity.
Qed.

Lemma perform_login_oauth2_failure_keeps_oauth2_on_witness :
  exists (self' : Extractor) (w' : World),
    _perform_login sample_super_login 2 "oauth2" "" sample_extractor
      world_denied_at_once =
      (Raise (ExtractorError "Unhandled OAuth2 Error: access_denied"), self', w')
    /\ _use_oauth2 self' = true.
Proof.
  destruct (perform_login_oauth2_failure_keeps_oauth2_on sample_super_login 2 ""
              sample_extractor world_denied_at_once sample_session [] []
              sample_denied [] (VStr "access_denied") false)
    as (self' & w' & Hrun & Hon & _).
  - by_compute.
  - by_compute.
  - repeat split; by_compute.
  - by_compute.
  - constructor.
  - by_compute.
  - reflexivity.
  - discriminate.
  - discriminate.
  - simpl. lia.
  - exists self', w'. split; [exact Hrun | exact Hon].
Defined.

(** ** Edges of the device flow and of the refresh *)

Lemma getitem_None (d : dict) (k : string) (w : World) :
  d !! k = None -> getitem d k w = (Raise (KeyError k), w).
Proof. intros H. unfold getitem. by rewrite H. Qed.






(** A grant must carry its refresh token: when the token endpoint answers
    without [error] and with [access_token] and [expires_in] but without
    [refresh_token], [authorize] announces success and then raises
    [KeyError] for that field, where [refresh_token] would have kept the old
    refresh token. *)
Theorem authorize_needs_refresh_token_in_grant (fuel : nat) (w : World)
    (d : reply) (ds ps : list reply) (x : reply) (rest : list reply)
    (access_token : value) (expires_in : Z) :
  server w !! DEVICE_CODE_URL = Some (d :: ds) ->
  device_session d ->
  server w !! POLL_URL = Some (ps ++ x :: rest) ->
  Forall is_pending ps ->
  truthy (traverse_obj (body x) "error") = false ->
  body x !! "access_token" = Some access_token ->
  body x !! "expires_in" ≫= as_num = Some expires_in ->
  body x !! "refresh_token" = None ->
  (length ps + 2 <= fuel)%nat ->
  exists w' : World,
    authorize fuel w = (Raise (KeyError "refresh_token"), w')
    /\ history w' =
         history w ++ opening d
           ++ flat_map (pending_round (session_device_code d) (session_interval d)) ps
           ++ poll_round (session_device_code d) x
           ++ [ToScreen "Authorization successful"].
Proof.
  intros Hdev Hsession Hpoll Hpending Herr Hat Hei Hrt Hfuel.
  exists (logged (ToScreen "Authorization successful") (answered d ds ps x rest w)).
  split.
  - replace fuel with (S (length ps + S (fuel - length ps - 2))) by lia.
    rewrite (authorize_reaches _ _ _ _ _ _ Hdev Hsession Hpoll Hpending).
    rewrite (poll_success _ _ _ (attempt_code _ Hsession) _ _ _
               (attempt_queue _ _ _ _ _ _ Hpoll) _ Herr).
    destruct (body x !! "expires_in") as [ei|] eqn:E; [|discriminate].
    simpl in Hei. unfold authorized_record.
    rewrite (bind_Return _ _ _ _ _ (getitem_Some _ _ _ _ Hat)).
    unfold bind at 1, utcnow at 1.
    rewrite (bind_Return _ _ _ _ _ (getitem_Some _ _ _ _ E)).
    unfold add_num. rewrite Hei. unfold bind at 1, ret at 1.
    by rewrite (bind_Raise _ _ _ _ _ (getitem_None _ _ _ Hrt)).
  - rewrite history_logged, history_answered. by rewrite <- !app_assoc.
Qed.

Lemma authorize_needs_refresh_token_in_grant_witness :
  fst (authorize 2 (sample_world None [sample_session] [sample_renewal] [])) =
    Raise (KeyError "refresh_token").
Proof.
  destruct (authorize_needs_refresh_token_in_grant 2
              (sample_world None [sample_session] [sample_renewal] [])
              sample_session [] [] sample_renewal [] (VStr "ACCESS2") 3599)
    as (w' & Hrun & _).
  - by_compute.
  - repeat split; by_compute.
  - by_compute.
  - constructor.
  - by_compute.
  - by_compute.
  - by_compute.
  - by_compute.
  - simpl. lia.
  - by rewrite Hrun.
Defined.

(** An answer to a refresh that carries neither an [error] nor an
    [access_token] (an empty JSON object, say) makes [refresh_token] raise
    [KeyError] for [access_token]: the device flow is not started and nothing
    but the refresh request has happened. *)
Theorem refresh_token_raises_on_incomplete_renewal (fuel : nat) (rt : value)
    (w : World) (r : reply) (rs : list reply) :
  server w !! REFRESH_URL = Some (r :: rs) ->
  truthy (traverse_obj (body r) "error") = false ->
  body r !! "access_token" = None ->
  exists w' : World,
    refresh_token fuel rt w = (Raise (KeyError "access_token"), w')
    /\ history w' = history w ++ [refresh_request rt]
    /\ _TOKEN_DATA w' = _TOKEN_DATA w
    /\ cache w' = cache w.
Proof.
  intros Hsrv Herr Hat. exists (refreshed rt r rs w). split; [|done].
  rewrite (refresh_token_unfold _ _ _ _ _ Hsrv). cbv zeta. rewrite Herr.
  by rewrite (bind_Raise _ _ _ _ _ (getitem_None _ _ _ Hat)).
Qed.

Lemma refresh_token_raises_on_incomplete_renewal_witness :
  fst (refresh_token 2 (VStr "OLD") (sample_world None [] [] [Reply 1 ∅])) =
    Raise (KeyError "access_token").
Proof.
  destruct (refresh_token_raises_on_incomplete_renewal 2 (VStr "OLD")
              (sample_world None [] [] [Reply 1 ∅]) (Reply 1 ∅) [])
    as (w' & Hrun & _); [by_compute..|].
  by rewrite Hrun.
Defined.

(** ** The HTTP helper and the token store *)



(** What [store_token] stores, [get_token] gives back - at once, from
    memory without reading the cache, and in a later process that starts
    with an empty memory, from the cache. A second [get_token] returns what
    the first returned and changes nothing. *)
Theorem token_store_round_trip (token_data : dict) (w : World) :
  (store_token token_data;;; get_token) w =
    (Return (Some token_data), stored token_data w)
  /\ (forall (t : Z) (srv : gmap string (list reply)) (tr : list event),
        fst (get_token (mkWorld t None (cache (stored token_data w)) srv tr)) =
          Return (Some token_data))
  /\ get_token (snd (get_token w)) = (fst (get_token w), snd (get_token w)).
Proof.
  split; [|split].
  - rewrite (bind_Return _ _ _ _ _ (store_token_stored token_data w)).
    rewrite get_token_loaded. unfold loaded, remembered, stored. cbn [_TOKEN_DATA cache].
    by destruct (truthy_obj (Some token_data)).
  - intros t srv tr. reflexivity.
  - rewrite !get_token_loaded. cbn [fst snd].
    destruct (remembered_same w) as (_ & _ & _ & Hmem).
    unfold loaded at 1. unfold remembered at 1 3. rewrite Hmem.
    unfold remembered, loaded.
    destruct (truthy_obj (_TOKEN_DATA w)) eqn:E1.
    + by rewrite E1.
    + cbn [_TOKEN_DATA cache]. by destruct (truthy_obj (cache w)).
Qed.

(** ** One refresh per call *)

(** On a loaded record of valid shape that expires within 60 seconds,
    [initialize_oauth] refreshes once and returns what the renewal gives,
    however short-lived: the renewed record is not checked again. It is
    stored in memory and in the cache, with the old refresh token when the
    answer brings none, and nothing happens but the message, the refresh
    request and the store. *)
Theorem initialize_oauth_refreshes_once (fuel : nat) (w : World)
    (token_data : dict) (e : Z) (rt : value) (r : reply) (rs : list reply)
    (access_token token_type : value) (expires_in : Z) :
  loaded w = Some token_data ->
  usable (Some token_data) = true ->
  expires_of token_data = Some e ->
  e < now w + 60 ->
  token_data !! "refresh_token" = Some rt ->
  server w !! REFRESH_URL = Some (r :: rs) ->
  truthy (traverse_obj (body r) "error") = false ->
  body r !! "access_token" = Some access_token ->
  body r !! "token_type" = Some token_type ->
  body r !! "expires_in" ≫= as_num = Some expires_in ->
  exists (renewed : dict) (w' : World),
    initialize_oauth fuel w = (Return (Some renewed), w')
    /\ renewed =
         list_to_map [("access_token", access_token);
                      ("expires", VNum (now w + latency r + expires_in));
                      ("token_type", token_type);
                      ("refresh_token", default rt (body r !! "refresh_token"))]
    /\ _TOKEN_DATA w' = Some renewed
    /\ cache w' = Some renewed
    /\ history w' =
         history w ++ [ToScreen "Access token expired, refreshing";
                       refresh_request rt;
                       CacheStore "youtube-oauth2" "token_data" renewed].
Proof.
  intros Hl Hu He Hlt Hrt Hsrv Herr Hat Htt Hei.
  destruct (remembered_same w) as (Hnow & Hsrv' & Hhist & _).
  set (w1 := logged (ToScreen "Access token expired, refreshing") (remembered w)).
  assert (Hsrv1 : server w1 !! REFRESH_URL = Some (r :: rs)).
  { unfold w1. cbn [logged server]. by rewrite Hsrv'. }
  pose proof (refresh_token_renewed fuel rt w1 r rs access_token token_type
                expires_in Hsrv1 Herr Hat Htt Hei) as Hrun.
  assert (Hnow1 : now w1 = now w) by exact Hnow.
  rewrite Hnow1 in Hrun.
  eexists _, (stored _ (refreshed rt r rs w1)). split.
  { rewrite initialize_oauth_unfold, Hl, Hu.
    rewrite (refresh_if_expired_stale fuel token_data e rt _ He)
      by (rewrite ?Hnow; done).
    fold w1. rewrite (bind_Return _ _ _ _ _ Hrun). reflexivity. }
  split; [reflexivity|]. split; [reflexivity|]. split; [reflexivity|].
  rewrite history_stored, history_refreshed. unfold w1.
  rewrite history_logged, Hhist. by rewrite <- !app_assoc.
Qed.

Lemma initialize_oauth_refreshes_once_witness :
  exists (renewed : dict) (w' : World),
    initialize_oauth 0 world_stale_cache = (Return (Some renewed), w')
    /\ renewed !! "refresh_token" = Some (VStr "OLD")
    /\ cache w' = Some renewed.
Proof.
  destruct (initialize_oauth_refreshes_once 0 world_stale_cache
              sample_stale_record 1030 (VStr "OLD") sample_renewal []
              (VStr "ACCESS2") (VStr "Bearer") 3599)
    as (renewed & w' & Hrun & Hrec & _ & Hcache & _); [by_compute..|].
  exists renewed, w'. split; [exact Hrun|]. split; [|exact Hcache].
  rewrite Hrec. clear. by_compute.
Defined.

(** A grant that lasts less than 60 seconds is refreshed at once: after the
    device flow [initialize_oauth] stores the granted record, finds it
    expiring, asks the refresh endpoint with the refresh token of the grant,
    and returns and stores the renewal instead. *)
Theorem initialize_oauth_refreshes_short_grant (fuel : nat) (w : World)
    (d : reply) (ds ps : list reply) (s : reply) (rest : list reply)
    (access_token refresh_token token_type : value) (expires_in : Z)
    (r : reply) (rs : list reply) (access_token' token_type' : value)
    (expires_in' : Z) :
  usable (loaded w) = false ->
  server w !! DEVICE_CODE_URL = Some (d :: ds) ->
  device_session d ->
  server w !! POLL_URL = Some (ps ++ s :: rest) ->
  Forall is_pending ps ->
  token_grant s access_token refresh_token token_type expires_in ->
  expires_in < 60 ->
  server w !! REFRESH_URL = Some (r :: rs) ->
  truthy (traverse_obj (body r) "error") = false ->
  body r !! "access_token" = Some access_token' ->
  body r !! "token_type" = Some token_type' ->
  body r !! "expires_in" ≫= as_num = Some expires_in' ->
  (length ps + 2 <= fuel)%nat ->
  exists (renewed : dict) (w' : World),
    initialize_oauth fuel w = (Return (Some renewed), w')
    /\ renewed !! "access_token" = Some access_token'
    /\ renewed !! "refresh_token" =
         Some (default refresh_token (body r !! "refresh_token"))
    /\ _TOKEN_DATA w' = Some renewed
    /\ cache w' = Some renewed
    /\ requests_to REFRESH_URL (history w') =
         requests_to REFRESH_URL (history w) ++ [refresh_request refresh_token].
Proof.
  intros Hu Hdev Hsession Hpoll Hpending Hgrant Hshort Hsrv Herr Hat Htt Hei Hfuel.
  destruct (remembered_same w) as (Hnow & Hsrv' & Hhist & Hmem).
  set (w1 := if truthy_obj (loaded w)
             then logged (ReportWarning "Invalid cached OAuth2 token data")
                         (remembered w)
             else remembered w).
  assert (Hsrv1 : server w1 = server w).
  { unfold w1. by destruct (truthy_obj (loaded w)). }
  assert (Hreq1 : requests_to REFRESH_URL (history w1) =
                    requests_to REFRESH_URL (history w)).
  { unfold w1. destruct (truthy_obj (loaded w)); [|by rewrite Hhist].
    rewrite history_logged, Hhist, requests_to_app, requests_to_other by done.
    by rewrite app_nil_r. }
  rewrite <- Hsrv1 in Hdev, Hpoll, Hsrv.
  pose proof (authorize_grant w1 d ds ps s rest Hdev Hsession Hpoll Hpending fuel
                _ _ _ _ Hgrant Hfuel) as Hrun.
  set (w2 := logged (ToScreen "Authorization successful")
               (answered d ds ps s rest w1)) in *.
  set (td := list_to_map [("access_token", access_token);
                          ("expires", VNum (now (answered d ds ps s rest w1)
                                            + expires_in));
                          ("refresh_token", refresh_token);
                          ("token_type", token_type)] : dict) in *.
  set (w3 := logged (ToScreen "Access token expired, refreshing") (stored td w2)).
  assert (Hsrv3 : server w3 !! REFRESH_URL = Some (r :: rs)).
  { unfold w3, w2. cbn [logged stored server]. rewrite answered_server.
    rewrite !lookup_insert_ne by (apply urls_distinct). exact Hsrv. }
  pose proof (refresh_token_renewed fuel refresh_token w3 r rs access_token'
                token_type' expires_in' Hsrv3 Herr Hat Htt Hei) as Hrefresh.
  eexists _, (stored _ (refreshed refresh_token r rs w3)). split.
  { rewrite initialize_oauth_unfold, Hu. fold w1.
    rewrite (bind_Return _ _ _ _ _ Hrun).
    rewrite (bind_Return _ _ _ _ _ (store_token_stored td w2)).
    rewrite (refresh_if_expired_stale fuel td
               (now (answered d ds ps s rest w1) + expires_in) refresh_token).
    - fold w3. rewrite (bind_Return _ _ _ _ _ Hrefresh). reflexivity.
    - unfold expires_of, td. by simplify_map_eq.
    - simpl. lia.
    - unfold td. by simplify_map_eq. }
  split; [by simplify_map_eq|]. split; [by simplify_map_eq|].
  split; [reflexivity|]. split; [reflexivity|].
  rewrite history_stored, history_refreshed. unfold w3.
  rewrite history_logged, history_stored. unfold w2.
  rewrite history_logged, history_answered, !requests_to_app.
  rewrite requests_to_opening, requests_to_pending_rounds, requests_to_poll_round.
  rewrite requests_to_refresh_request.
  rewrite !requests_to_other by done.
  repeat case_decide; try discriminate; try congruence.
  by rewrite !app_nil_r, Hreq1.
Qed.

Lemma initialize_oauth_refreshes_short_grant_witness :
  exists (renewed : dict) (w' : World),
    initialize_oauth 2 world_short_grant = (Return (Some renewed), w')
    /\ renewed !! "access_token" = Some (VStr "ACCESS2")
    /\ renewed !! "refresh_token" = Some (VStr "REFRESH").
Proof.
  destruct (initialize_oauth_refreshes_short_grant 2 world_short_grant
              sample_session [] [] sample_short_grant
              [] (VStr "ACCESS") (VStr "REFRESH") (VStr "Bearer") 30
              sample_renewal [] (VStr "ACCESS2") (VStr "Bearer") 3599)
    as (renewed & w' & Hrun & Hat & Hrt & _).
  - by_compute.
  - by_compute.
  - repeat split; by_compute.
  - by_compute.
  - constructor.
  - repeat split; by_compute.
  - lia.
  - by_compute.
  - by_compute.
  - by_compute.
  - by_compute.
  - by_compute.
  - simpl. lia.
  - exists renewed, w'. split; [exact Hrun|]. split; [exact Hat|].
    rewrite Hrt. clear. by_compute.
Defined.
